(** * Hybrid explainable matching engine: a shallow embedding

    The Python sources under [scoring/] and [agents/] are embedded as Rocq
    functions, one definition per source function, keeping the source names;
    one module per source class.

    Conventions of the embedding.
    - A Python [str] is a [string]: the UTF-8 bytes of the text.  Character
      classes ([lower], [isspace], [\d], [\w]) follow Python on ASCII; a byte
      above 127 is a caseless word constituent that is neither a digit nor a
      space (what an accented letter is for Python).  [len] counts bytes.
    - A Python [float] is a rational [Q]; NaN and the infinities are outside
      the model, and so is rounding of the binary representation.  The three
      float builtins whose result depends on that representation ([float] of
      a string, [round], the [:.nf] formats) are the methods of the class
      [PyFloat], over which the definitions and theorems are generic.
    - A Python [set] is a [gset], iterated in the order of [elements]; the
      [metadata] dict of a score is a [gmap]; a job offer, a dict with fixed
      keys, is a record of optional fields.
    - An exception is the [Raise] case of [result]; the text-generation
      oracle is a transition function on an abstract oracle state, and a
      method that calls it is a computation in the monad [M] of state and
      exceptions.  Printing is not modelled.
    - A regular expression is a value of [Re.regex], matched by backtracking
      as [re] does. *)

From Stdlib Require Import String Ascii List ZArith QArith Qabs Qround Lia Lqa Bool.
From Stdlib Require Import Sorting.Sorted Sorting.Permutation DecimalString.
From stdpp Require Import base gmap strings.
Import ListNotations.

Local Open Scope string_scope.
Local Open Scope Z_scope.

(** ** Exceptions *)

Inductive result (A : Type) : Type :=
| Ok (a : A)
| Raise (msg : string).
Arguments Ok {A} a.
Arguments Raise {A} msg.

(** ** Python string primitives *)

Module Py.

Definition code (c : ascii) : nat := nat_of_ascii c.

Definition in_range (lo hi : nat) (c : ascii) : bool :=
  (lo <=? code c)%nat && (code c <=? hi)%nat.

Definition is_upper (c : ascii) : bool := in_range 65 90 c.
Definition is_digit (c : ascii) : bool := in_range 48 57 c.

(** [str.isspace] on ASCII: tab, LF, VT, FF, CR, the four separators
    FS..US, and the space. *)
Definition is_space (c : ascii) : bool :=
  in_range 9 13 c || in_range 28 31 c || (code c =? 32)%nat.

(** [\w]: letters, digits, underscore; bytes of a non-ASCII letter. *)
Definition is_word (c : ascii) : bool :=
  in_range 97 122 c || is_upper c || is_digit c || (code c =? 95)%nat
  || (128 <=? code c)%nat.

Definition lower_char (c : ascii) : ascii :=
  if is_upper c then ascii_of_nat (code c + 32) else c.

(** [s.lower()] *)
Fixpoint lower (s : string) : string :=
  match s with
  | EmptyString => EmptyString
  | String c s' => String (lower_char c) (lower s')
  end.

(** [s.startswith(p)] *)
Fixpoint startswith (p s : string) : bool :=
  match p, s with
  | EmptyString, _ => true
  | String a p', String b s' => Ascii.eqb a b && startswith p' s'
  | String _ _, EmptyString => false
  end.

(** [needle in hay] *)
Fixpoint contains (needle hay : string) : bool :=
  startswith needle hay ||
  match hay with
  | EmptyString => false
  | String _ hay' => contains needle hay'
  end.

Fixpoint drop (n : nat) (s : string) : string :=
  match n, s with
  | O, _ => s
  | S n', String _ s' => drop n' s'
  | S _, EmptyString => EmptyString
  end.

Fixpoint take (n : nat) (s : string) : string :=
  match n, s with
  | O, _ => EmptyString
  | S n', String c s' => String c (take n' s')
  | S _, EmptyString => EmptyString
  end.

Fixpoint lstrip (s : string) : string :=
  match s with
  | String c s' => if is_space c then lstrip s' else s
  | EmptyString => EmptyString
  end.

Fixpoint rstrip (s : string) : string :=
  match s with
  | EmptyString => EmptyString
  | String c s' =>
      match rstrip s' with
      | EmptyString => if is_space c then EmptyString else String c EmptyString
      | t => String c t
      end
  end.

(** [s.strip()] *)
Definition strip (s : string) : string := rstrip (lstrip s).

(** [s.split(sep)] for a one-character separator; the result is never
    empty: [''.split(sep) == ['']]. *)
Fixpoint split_on (sep : ascii) (s : string) : list string :=
  match s with
  | EmptyString => [EmptyString]
  | String c s' =>
      if Ascii.eqb c sep then EmptyString :: split_on sep s'
      else match split_on sep s' with
           | w :: ws => String c w :: ws
           | [] => [String c EmptyString]
           end
  end.

(** [s.split()]: maximal runs of non-space characters. *)
Fixpoint words_aux (cur : string) (s : string) : list string :=
  let flush := match cur with EmptyString => [] | _ => [cur] end in
  match s with
  | EmptyString => flush
  | String c s' =>
      if is_space c then (flush ++ words_aux EmptyString s')%list
      else words_aux (cur ++ String c EmptyString) s'
  end.

Definition words (s : string) : list string := words_aux EmptyString s.

(** [s.replace(old, '')] for a non-empty [old]: occurrences are removed
    from left to right, without overlap.  The fuel is the length of [s]. *)
Fixpoint remove_all_aux (fuel : nat) (old s : string) : string :=
  match fuel with
  | O => s
  | S fuel' =>
      match s with
      | EmptyString => EmptyString
      | String c s' =>
          if startswith old s
          then remove_all_aux fuel' old (drop (String.length old) s)
          else String c (remove_all_aux fuel' old s')
      end
  end.

Definition remove_all (old s : string) : string :=
  remove_all_aux (String.length s) old s.

(** [sep.join(parts)] *)
Definition join (sep : string) (parts : list string) : string :=
  String.concat sep parts.

(** Concatenation of the pieces of an f-string, and of its lines. *)
Definition cat (pieces : list string) : string := String.concat EmptyString pieces.

Definition nl : string := String (ascii_of_nat 10) EmptyString.
Definition dq : string := String (ascii_of_nat 34) EmptyString.

Definition unlines (ls : list string) : string := String.concat nl ls.

(** Truth value of a string: non-empty. *)
Definition truthy (s : string) : bool :=
  match s with EmptyString => false | String _ _ => true end.

Definition is_lower (c : ascii) : bool := in_range 97 122 c.

Definition upper_char (c : ascii) : ascii :=
  if is_lower c then ascii_of_nat (code c - 32) else c.

(** [s.capitalize()] *)
Definition capitalize (s : string) : string :=
  match s with
  | EmptyString => EmptyString
  | String c s' => String (upper_char c) (lower s')
  end.

Definition mem_char (c : ascii) (chars : string) : bool :=
  existsb (Ascii.eqb c) (list_ascii_of_string chars).

Fixpoint lstrip_chars (chars s : string) : string :=
  match s with
  | String c s' => if mem_char c chars then lstrip_chars chars s' else s
  | EmptyString => EmptyString
  end.

Fixpoint rstrip_chars (chars s : string) : string :=
  match s with
  | EmptyString => EmptyString
  | String c s' =>
      match rstrip_chars chars s' with
      | EmptyString => if mem_char c chars then EmptyString else String c EmptyString
      | t => String c t
      end
  end.

(** [s.strip(chars)] *)
Definition strip_chars (chars s : string) : string :=
  rstrip_chars chars (lstrip_chars chars s).

(** [x in l] for a list of strings. *)
Definition mem (x : string) (l : list string) : bool := existsb (String.eqb x) l.

(** [int(s)] for a string of ASCII digits. *)
Definition digit_val (c : ascii) : Z := Z.of_nat (code c) - 48.

Fixpoint int_acc (acc : Z) (s : string) : Z :=
  match s with
  | EmptyString => acc
  | String c s' => int_acc (10 * acc + digit_val c) s'
  end.

Definition int_of_digits (s : string) : Z := int_acc 0 s.

(** [str(n)] for an integer. *)
Definition str_of_Z (n : Z) : string :=
  DecimalString.NilZero.string_of_int (Z.to_int n).

End Py.

(** ** Regular expressions ([re]), by backtracking

    The matcher tries alternatives in order and repetitions greedily, giving
    back on failure, as [re] does.  A cursor remembers the character before
    the position, for [\b]. *)

Module Re.

Inductive regex : Type :=
| Eps
| Chr (p : ascii -> bool)
| Seq (r1 r2 : regex)
| Alt (r1 r2 : regex)
| Star (r : regex)
| Group (r : regex)
| WordB.

Record cursor : Type := Cursor { prev : option ascii; rest : string }.

Definition start (s : string) : cursor := Cursor None s.

Definition advance (c : cursor) : option cursor :=
  match rest c with
  | EmptyString => None
  | String a s => Some (Cursor (Some a) s)
  end.

Definition remaining (c : cursor) : nat := String.length (rest c).

(** The text between two cursors of one scan. *)
Definition consumed (c c' : cursor) : string :=
  Py.take (remaining c - remaining c') (rest c).

Definition at_boundary (c : cursor) : bool :=
  let before := match prev c with Some a => Py.is_word a | None => false end in
  let after := match rest c with String a _ => Py.is_word a | EmptyString => false end in
  xorb before after.

Section Match.
Context {R : Type}.

Fixpoint m (r : regex) (c : cursor) (caps : list string)
    (k : cursor -> list string -> option R) : option R :=
  match r with
  | Eps => k c caps
  | Chr p =>
      match rest c with
      | String a s => if p a then k (Cursor (Some a) s) caps else None
      | EmptyString => None
      end
  | Seq r1 r2 => m r1 c caps (fun c' caps' => m r2 c' caps' k)
  | Alt r1 r2 =>
      match m r1 c caps k with
      | Some x => Some x
      | None => m r2 c caps k
      end
  | Star r1 =>
      (fix loop (fuel : nat) (c : cursor) (caps : list string) : option R :=
         match fuel with
         | O => k c caps
         | S fuel' =>
             match m r1 c caps (fun c' caps' =>
                     if (remaining c' <? remaining c)%nat
                     then loop fuel' c' caps' else None) with
             | Some x => Some x
             | None => k c caps
             end
         end) (remaining c) c caps
  | Group r1 => m r1 c caps (fun c' caps' => k c' (caps' ++ [consumed c c'])%list)
  | WordB => if at_boundary c then k c caps else None
  end.

End Match.

(** A match: the whole text, the groups in order, the cursor after it. *)
Record found : Type := Found { whole : string; groups : list string; after : cursor }.

Definition match_at (r : regex) (c : cursor) : option found :=
  m r c [] (fun c' caps => Some (Found (consumed c c') caps c')).

(** [re.search]: the leftmost match. *)
Fixpoint search_from (r : regex) (p : option ascii) (s : string) : option found :=
  match match_at r (Cursor p s) with
  | Some f => Some f
  | None =>
      match s with
      | EmptyString => None
      | String a s' => search_from r (Some a) s'
      end
  end.

Definition search (r : regex) (s : string) : option found :=
  search_from r None s.

(** [re.findall]: the matches from left to right, without overlap.  None of
    the patterns below matches the empty string; an empty match steps one
    character on. *)
Fixpoint scan (r : regex) (fuel : nat) (c : cursor) : list found :=
  match fuel with
  | O => []
  | S fuel' =>
      let step := match advance c with
                  | Some c1 => scan r fuel' c1
                  | None => []
                  end in
      match match_at r c with
      | Some f =>
          if (remaining (after f) <? remaining c)%nat
          then f :: scan r fuel' (after f)
          else f :: step
      | None => step
      end
  end.

Definition finditer (r : regex) (s : string) : list found :=
  scan r (S (String.length s)) (start s).

(** [re.sub(r, '', s)]: the text outside the matches. *)
Fixpoint erase (r : regex) (fuel : nat) (c : cursor) : string :=
  match fuel with
  | O => EmptyString
  | S fuel' =>
      let keep := match rest c with
                  | String a s => String a (erase r fuel' (Cursor (Some a) s))
                  | EmptyString => EmptyString
                  end in
      match match_at r c with
      | Some f =>
          if (remaining (after f) <? remaining c)%nat
          then erase r fuel' (after f)
          else keep
      | None => keep
      end
  end.

Definition sub_empty (r : regex) (s : string) : string :=
  erase r (S (String.length s)) (start s).

(** Pattern combinators *)

Definition plus (r : regex) : regex := Seq r (Star r).
Definition opt (r : regex) : regex := Alt r Eps.

Fixpoint seqs (rs : list regex) : regex :=
  match rs with
  | [] => Eps
  | [r] => r
  | r :: rs' => Seq r (seqs rs')
  end.

Fixpoint alts (rs : list regex) : regex :=
  match rs with
  | [] => Chr (fun _ => false)
  | [r] => r
  | r :: rs' => Alt r (alts rs')
  end.

Definition char (a : ascii) : regex := Chr (Ascii.eqb a).

(** A character under [re.IGNORECASE]. *)
Definition char_i (a : ascii) : regex :=
  Chr (fun b => Ascii.eqb (Py.lower_char a) (Py.lower_char b)).

Fixpoint lit (s : string) : regex :=
  match s with
  | EmptyString => Eps
  | String a EmptyString => char a
  | String a s' => Seq (char a) (lit s')
  end.

Fixpoint lit_i (s : string) : regex :=
  match s with
  | EmptyString => Eps
  | String a EmptyString => char_i a
  | String a s' => Seq (char_i a) (lit_i s')
  end.

Definition digit : regex := Chr Py.is_digit.
Definition space : regex := Chr Py.is_space.
Definition word : regex := Chr Py.is_word.
Definition digits4 : regex := seqs [digit; digit; digit; digit].

End Re.

(** ** Python floats and numbers *)

(** The float builtins whose results depend on the binary representation.
    [float_of_str] raises [ValueError] on text that is not a number. *)
Class PyFloat : Type := {
  float_of_str : string -> result Q;
  round_nd : nat -> Q -> Q;
  fmt_f : nat -> Q -> string
}.

Definition Qltb (a b : Q) : bool := negb (Qle_bool b a).
Definition Qgeb (a b : Q) : bool := Qle_bool b a.

(** [min(a, b)] and [max(a, b)] as Python evaluates them: the first
    argument unless the second is strictly better. *)
Definition py_min (a b : Q) : Q := if Qltb b a then b else a.
Definition py_max (a b : Q) : Q := if Qltb a b then b else a.

Definition Zq (n : Z) : Q := inject_Z n.
Definition natq (n : nat) : Q := inject_Z (Z.of_nat n).

(** [int(x)] of a float: truncation towards zero. *)
Definition int_of_float (x : Q) : Z := Z.quot (Qnum x) (Zpos (Qden x)).

(** ** The oracle and the exception monad

    [messages.create] is a transition on an abstract oracle state: given the
    prompt and [max_tokens] it answers with text or raises. *)

Section Monad.
Context {St : Type}.

Definition Client : Type := string -> Z -> St -> result string * St.

Definition M (A : Type) : Type := St -> result A * St.

Definition ret {A} (a : A) : M A := fun s => (Ok a, s).

Definition raise {A} (e : string) : M A := fun s => (Raise e, s).

Definition bind {A B} (c : M A) (f : A -> M B) : M B :=
  fun s =>
    match c s with
    | (Ok a, s') => f a s'
    | (Raise e, s') => (Raise e, s')
    end.

(** [try: c  except Exception as e: h e] *)
Definition try_except {A} (c : M A) (h : string -> M A) : M A :=
  fun s =>
    match c s with
    | (Ok a, s') => (Ok a, s')
    | (Raise e, s') => h e s'
    end.

(** A pure computation that may raise. *)
Definition lift {A} (r : result A) : M A := fun s => (r, s).

End Monad.

Arguments Client St : clear implicits.
Arguments M St A : clear implicits.

Declare Scope monad_scope.
Delimit Scope monad_scope with monad.
Notation "x <- c ;; k" := (bind c (fun x => k))
  (at level 100, c at next level, right associativity) : monad_scope.

(** ** scoring/models.py *)

Module Models.

(** The values stored in [ScoreDetail.metadata]. *)
Inductive meta : Type :=
| MInt (n : Z)
| MFloat (x : Q)
| MBool (b : bool)
| MStr (s : string)
| MList (l : list string).

Record ScoreDetail : Type := mkScoreDetail {
  score : Q;
  max_score : Q;
  explanation : string;
  metadata : gmap string meta
}.

Record DeterministicScore : Type := mkDeterministicScore {
  skills_matching : ScoreDetail;
  experience_years : ScoreDetail;
  education_match : ScoreDetail;
  salary_fit : ScoreDetail;
  location_match : ScoreDetail
}.

Record SemanticScore : Type := mkSemanticScore {
  soft_skills_match : ScoreDetail;
  culture_fit : ScoreDetail;
  growth_potential : ScoreDetail;
  project_relevance : ScoreDetail
}.

Record BonusScore : Type := mkBonusScore {
  industry_experience : ScoreDetail;
  rare_skills_premium : ScoreDetail;
  career_trajectory : ScoreDetail
}.

Definition det_total (d : DeterministicScore) : Q :=
  (score (skills_matching d) + score (experience_years d)
   + score (education_match d) + score (salary_fit d)
   + score (location_match d))%Q.

Definition sem_total (s : SemanticScore) : Q :=
  (score (soft_skills_match s) + score (culture_fit s)
   + score (growth_potential s) + score (project_relevance s))%Q.

Definition bonus_total (b : BonusScore) : Q :=
  (score (industry_experience b) + score (rare_skills_premium b)
   + score (career_trajectory b))%Q.

Record ScoreBreakdown : Type := mkScoreBreakdown {
  deterministic : DeterministicScore;
  semantic : SemanticScore;
  bonus : BonusScore
}.

Definition total_score (sb : ScoreBreakdown) : Q :=
  (det_total (deterministic sb) + sem_total (semantic sb)
   + bonus_total (bonus sb))%Q.

Definition max_score_total (sb : ScoreBreakdown) : Q := 100.

Record DetailedMatch : Type := mkDetailedMatch {
  job_title : string;
  company : string;
  match_score : Q;
  score_breakdown : ScoreBreakdown;
  overall_explanation : string;
  strengths : list string;
  weaknesses : list string;
  recommendation : string;
  salary : Z;
  location : string
}.

End Models.

(** ** scoring/deterministic_scoring_tool.py *)

Module DeterministicScoringTool.
Import Models.

Definition TECH_SKILLS : gset string := list_to_set [
  "python"; "java"; "javascript"; "typescript"; "c++"; "c#"; "go"; "rust";
  "react"; "vue"; "angular"; "node.js"; "django"; "flask"; "fastapi";
  "postgresql"; "mysql"; "mongodb"; "redis"; "elasticsearch";
  "docker"; "kubernetes"; "aws"; "gcp"; "azure"; "terraform";
  "git"; "ci/cd"; "jenkins"; "github actions"; "gitlab";
  "machine learning"; "deep learning"; "nlp"; "computer vision";
  "data science"; "data engineering"; "etl"; "spark"; "hadoop";
  "agile"; "scrum"; "rest api"; "graphql"; "microservices" ].

Definition SOFT_SKILL_KEYWORDS : gset string := list_to_set [
  "ponctualite"; "punctuality"; "autonomie"; "autonomous"; "autonomy";
  "leadership"; "lead"; "communication"; "communicat";
  "esprit"; "equipe"; "team"; "teamwork"; "collaboration";
  "rigueur"; "rigor"; "rigorous"; "organisation"; "organiz";
  "adaptabilite"; "adaptability"; "flexible"; "flexibility";
  "proactivite"; "proactive"; "motivation"; "motivated";
  "relationnel"; "interpersonal"; "creativity"; "creative";
  "problem solving"; "critical thinking"; "initiative" ].

Definition stop_words : gset string := list_to_set [
  "a"; "an"; "the"; "of"; "and"; "or"; "in"; "on"; "at"; "to"; "for";
  "de"; "des"; "et"; "ou"; "à" ].

(** r'\b\w+\b' *)
Definition re_word_tokens : Re.regex :=
  Re.seqs [Re.WordB; Re.plus Re.word; Re.WordB].

(** The pattern [\b([A-Z]+\d* )\b], group 1 being the certificate code. *)
Definition re_cert_type : Re.regex :=
  Re.seqs [Re.WordB;
           Re.Group (Re.Seq (Re.plus (Re.Chr Py.is_upper)) (Re.Star Re.digit));
           Re.WordB].

(** The four patterns built around [cert], searched with [re.IGNORECASE].
    [cert] is letters and digits, so it stands for itself in the pattern. *)
Definition cert_patterns (cert : string) : list Re.regex :=
  [ Re.seqs [Re.WordB; Re.lit_i cert; Re.WordB];
    Re.seqs [Re.char ","; Re.Star Re.space; Re.lit_i cert; Re.WordB];
    Re.seqs [Re.WordB; Re.lit_i cert; Re.Star Re.space; Re.char ","];
    Re.seqs [Re.char "/"; Re.Star Re.space; Re.lit_i cert; Re.WordB] ].

(** r'[/\-\s]+' *)
Definition re_separators : Re.regex :=
  Re.plus (Re.Chr (fun c => Ascii.eqb c "/" || Ascii.eqb c "-" || Py.is_space c)).

Definition _smart_skill_match (skill_requirement resume_text : string) : bool :=
  let skill_lower := Py.lower skill_requirement in
  let resume_lower := Py.lower resume_text in
  if Py.contains skill_lower resume_lower then true
  else
    let skill_words :=
      List.filter (fun w => negb (bool_decide (w ∈ stop_words)))
             (map Re.whole (Re.finditer re_word_tokens skill_lower)) in
    if forallb (fun word => Py.contains word resume_lower) skill_words then true
    else
      let by_certificate :=
        if Py.contains "permis" skill_lower || Py.contains "license" skill_lower
        then match Re.search re_cert_type skill_requirement with
             | Some cert_type =>
                 let cert := nth 0 (Re.groups cert_type) "" in
                 existsb (fun pattern =>
                            match Re.search pattern resume_text with
                            | Some _ => true
                            | None => false
                            end)
                         (cert_patterns cert)
             | None => false
             end
        else false in
      if by_certificate then true
      else
        let skill_clean := Re.sub_empty re_separators skill_lower in
        let resume_clean := Re.sub_empty re_separators resume_lower in
        (String.length skill_clean <=? 10)%nat
        && Py.contains skill_clean resume_clean.

(** r'(?:à|a|to)' under IGNORECASE *)
Definition re_to : Re.regex := Re.alts [Re.lit_i "à"; Re.lit_i "a"; Re.lit_i "to"].

(** r'(\d{4})\s*[-–—]\s*(\d{4})' and r'(\d{4})\s+(?:à|a|to)\s+(\d{4})' *)
Definition date_range_patterns : list Re.regex :=
  [ Re.seqs [Re.Group Re.digits4; Re.Star Re.space;
             Re.alts [Re.char "-"; Re.lit "–"; Re.lit "—"];
             Re.Star Re.space; Re.Group Re.digits4];
    Re.seqs [Re.Group Re.digits4; Re.plus Re.space; re_to;
             Re.plus Re.space; Re.Group Re.digits4] ].

(** r'(?:[Dd]epuis|[Ss]ince)\s+(\d{4})' and
    r'(\d{4})\s+(?:à|a|to)\s+(?:aujourd\'?hui|present|now|maintenant)' *)
Definition ongoing_patterns : list Re.regex :=
  [ Re.seqs [Re.alts [Re.lit_i "depuis"; Re.lit_i "since"];
             Re.plus Re.space; Re.Group Re.digits4];
    Re.seqs [Re.Group Re.digits4; Re.plus Re.space; re_to; Re.plus Re.space;
             Re.alts [Re.seqs [Re.lit_i "aujourd"; Re.opt (Re.char "'"); Re.lit_i "hui"];
                      Re.lit_i "present"; Re.lit_i "now"; Re.lit_i "maintenant"]] ].

(** [re.findall]: the tuple of groups of each match. *)
Definition findall (pattern : Re.regex) (text : string) : list (list string) :=
  map Re.groups (Re.finditer pattern text).

Definition year_at (i : nat) (match_ : list string) : Z :=
  Py.int_of_digits (nth i match_ "").

(** The loop state: [total_years] and [found_dates]. *)
Definition date_state : Type := Z * gset (Z * Z).

Definition count_range (current_year : Z) (st : date_state) (match_ : list string)
    : date_state :=
  let '(total_years, found_dates) := st in
  let start_year := year_at 0 match_ in
  let end_year := year_at 1 match_ in
  if (1950 <=? start_year) && (start_year <=? current_year)
     && (start_year <=? end_year) && (end_year <=? current_year + 1)
  then
    let years := end_year - start_year in
    if bool_decide ((start_year, end_year) ∈ found_dates) then st
    else (total_years + years, {[ (start_year, end_year) ]} ∪ found_dates)
  else st.

Definition count_ongoing (current_year : Z) (st : date_state) (match_ : list string)
    : date_state :=
  let '(total_years, found_dates) := st in
  let start_year := year_at 0 match_ in
  if (1950 <=? start_year) && (start_year <=? current_year)
  then
    let years := current_year - start_year in
    if existsb (fun se => start_year =? fst se) (elements found_dates) then st
    else (total_years + years, {[ (start_year, current_year) ]} ∪ found_dates)
  else st.

(** [current_year] is [datetime.now().year]. *)
Definition _extract_experience_from_dates (current_year : Z) (resume_text : string) : Z :=
  let st0 : date_state := (0, ∅) in
  let st1 :=
    fold_left (fun st pattern =>
                 fold_left (count_range current_year) (findall pattern resume_text) st)
              date_range_patterns st0 in
  let st2 :=
    fold_left (fun st pattern =>
                 fold_left (count_ongoing current_year) (findall pattern resume_text) st)
              ongoing_patterns st1 in
  fst st2.

Import Py.

Definition soft_skills_prompt (skills_str job_description resume_text : string) : string :=
  Py.unlines [
    "Analyze whether the candidate demonstrates the following soft skills/qualities based on their resume.";
    EmptyString;
    "SOFT SKILLS TO EVALUATE:";
    skills_str;
    EmptyString;
    "JOB CONTEXT:";
    job_description;
    EmptyString;
    "CANDIDATE RESUME:";
    resume_text;
    EmptyString;
    "INSTRUCTIONS:";
    "For each soft skill, determine if the candidate's resume DEMONSTRATES this quality, either:";
    Py.cat ["1. Explicitly mentioned (e.g., "; dq; "Punctual"; dq; ", "; dq; "Autonomous"; dq; ")"];
    Py.cat ["2. Implicitly demonstrated (e.g., "; dq; "Managed team of 5"; dq; " shows Leadership)"];
    Py.cat ["3. Evidenced by achievements (e.g., "; dq; "Delivered projects on time"; dq; " shows Punctuality)"];
    EmptyString;
    "Be reasonable but not overly generous. Look for concrete evidence.";
    EmptyString;
    "Examples:";
    Py.cat ["- "; dq; "Ponctualite"; dq; " / "; dq; "Punctuality"; dq; ": Look for "; dq; "on-time delivery"; dq; ", "; dq; "respect des delais"; dq; ", "; dq; "punctual"; dq];
    Py.cat ["- "; dq; "Autonomie"; dq; " / "; dq; "Autonomy"; dq; ": Look for "; dq; "independent work"; dq; ", "; dq; "self-managed"; dq; ", "; dq; "autonome"; dq];
    Py.cat ["- "; dq; "Leadership"; dq; ": Look for "; dq; "managed"; dq; ", "; dq; "led"; dq; ", "; dq; "coordinated"; dq; ", "; dq; "team lead"; dq];
    EmptyString;
    "Provide your evaluation in this EXACT format:";
    "MATCHED: [skill1, skill2, skill3]";
    EmptyString;
    "If no soft skills are demonstrated, respond:";
    "MATCHED: []";
    EmptyString;
    "Example response:";
    "MATCHED: [Autonomie, Leadership]";
    EmptyString ].

Definition relevant_experience_prompt (job_title job_description resume_text : string) : string :=
  Py.unlines [
    "Analyze the candidate's work experience and determine how many years of RELEVANT, DIRECTLY APPLICABLE experience they have for this specific job.";
    EmptyString;
    Py.cat ["JOB TITLE: "; job_title];
    EmptyString;
    "JOB DESCRIPTION:";
    job_description;
    EmptyString;
    "CANDIDATE RESUME:";
    resume_text;
    EmptyString;
    "CRITICAL INSTRUCTIONS:";
    "1. Only count experience that is DIRECTLY relevant and applicable to the target job";
    "2. Consider domain/industry alignment, technical skills relevance, and functional area match";
    "3. Examples:";
    Py.cat ["   - 12 years as truck driver for "; dq; "Truck Driver"; dq; " job = 12 relevant years"];
    Py.cat ["   - 12 years as truck driver for "; dq; "Software Developer"; dq; " job = 0 relevant years (completely different field)"];
    Py.cat ["   - 3 years as Data Scientist for "; dq; "Truck Driver"; dq; " job = 0 relevant years (no driving experience)"];
    Py.cat ["   - 5 years in team management + 3 years as developer for "; dq; "Engineering Manager"; dq; " = 5-6 relevant years (partial)"];
    Py.cat ["   - 2 years Python dev + 3 years Java dev for "; dq; "Python Developer"; dq; " = 5 relevant years (all programming)"];
    EmptyString;
    "4. Transferable skills count partially:";
    "   - Leadership roles can transfer across industries (50-75% credit)";
    "   - Technical skills in similar domains (75-100% credit)";
    "   - Completely different domains = 0% credit";
    EmptyString;
    "Evaluate carefully:";
    "- Job titles and responsibilities";
    "- Domain/industry alignment";
    "- Technical skills overlap";
    "- Functional area match (engineering vs sales vs operations, etc.)";
    EmptyString;
    "Provide:";
    "1. Number of relevant years (0 to 50, can be decimal like 2.5)";
    "2. Brief explanation (2-3 sentences max) justifying the count";
    EmptyString;
    "Format your response EXACTLY as:";
    "RELEVANT_YEARS: [number]";
    "EXPLANATION: [your explanation]";
    EmptyString;
    "Example responses:";
    "RELEVANT_YEARS: 0";
    "EXPLANATION: The candidate has 12 years of experience as a truck driver, but the target job is Software Developer. These are completely different fields with no transferable skills.";
    EmptyString;
    "RELEVANT_YEARS: 8";
    "EXPLANATION: The candidate has 10 years as a Data Scientist, directly applicable to the Data Scientist role. All experience is highly relevant.";
    EmptyString ].

(** r'(?:years?|ans?)' and r'(?:experience|expérience)' *)
Definition re_years_unit : Re.regex :=
  Re.alts [Re.Seq (Re.lit "year") (Re.opt (Re.char "s"));
           Re.Seq (Re.lit "an") (Re.opt (Re.char "s"))].

Definition re_experience : Re.regex :=
  Re.alts [Re.lit "experience"; Re.lit "expérience"].

(** The count is group 1 in each of the patterns below:
    - digits, [+] or not, spaces, years or ans, spaces, [of] or not, experience;
    - experience, spaces, [:] or not, spaces, digits, [+] or not, spaces, years or ans;
    - digits, [+] or not, spaces, years or ans, spaces, in or dans or en. *)
Definition re_years_experience : Re.regex :=
  Re.seqs [Re.Group (Re.plus Re.digit); Re.opt (Re.char "+"); Re.Star Re.space;
           re_years_unit; Re.plus Re.space;
           Re.opt (Re.Seq (Re.lit "of") (Re.plus Re.space)); re_experience].

Definition years_patterns : list Re.regex :=
  [ re_years_experience;
    Re.seqs [re_experience; Re.Star Re.space; Re.opt (Re.char ":"); Re.Star Re.space;
             Re.Group (Re.plus Re.digit); Re.opt (Re.char "+"); Re.Star Re.space;
             re_years_unit];
    Re.seqs [Re.Group (Re.plus Re.digit); Re.opt (Re.char "+"); Re.Star Re.space;
             re_years_unit; Re.plus Re.space;
             Re.alts [Re.lit "in"; Re.lit "dans"; Re.lit "en"]] ].

(** The second is [minimum], spaces, [of] or not, digits, spaces, years or
    ans; the third is [at least], spaces, digits, spaces, years or ans. *)
Definition required_years_patterns : list Re.regex :=
  [ re_years_experience;
    Re.seqs [Re.lit "minimum"; Re.plus Re.space;
             Re.opt (Re.Seq (Re.lit "of") (Re.plus Re.space));
             Re.Group (Re.plus Re.digit); Re.Star Re.space; re_years_unit];
    Re.seqs [Re.lit "at least"; Re.plus Re.space;
             Re.Group (Re.plus Re.digit); Re.Star Re.space; re_years_unit] ].

(** The loop [for pattern in patterns: match = re.search(pattern, text);
    if match: n = max(n, int(match.group(1)))]. *)
Definition max_over_patterns (patterns : list Re.regex) (text : string) (n0 : Z) : Z :=
  fold_left (fun n pattern =>
               match Re.search pattern text with
               | Some match_ => Z.max n (int_of_digits (nth 0 (Re.groups match_) ""))
               | None => n
               end)
            patterns n0.

(** The scoring block of [_score_experience_years]: the score and the
    [base_explanation] from the two year counts. *)
Definition experience_band (resume_years required_years : Z) : Q * string :=
  if resume_years >=? required_years then
    if resume_years <=? required_years + 5 then
      (10%Q, cat [str_of_Z resume_years; " ans d'experience pertinente, excellent profil"])
    else if resume_years <=? required_years + 10 then
      (9%Q, cat [str_of_Z resume_years; " ans d'experience pertinente, tres experimente"])
    else if resume_years <=? required_years + 15 then
      (8%Q, cat [str_of_Z resume_years; " ans d'experience pertinente, tres senior"])
    else
      (7%Q, cat [str_of_Z resume_years; " ans d'experience pertinente, profil tres senior"])
  else
    let gap := required_years - resume_years in
    (Zq (Z.max 0 (10 - gap * 2)),
     cat [str_of_Z resume_years; " ans d'experience pertinente, ";
          str_of_Z required_years; " requis"]).

(** [int / int]: true division. *)
Definition py_truediv (a b : Z) : result Q :=
  if b =? 0 then Raise "division by zero" else Ok (Zq a / Zq b)%Q.

Definition education_levels : list (string * Z) :=
  [ ("phd", 5); ("doctorate", 5); ("doctorat", 5);
    ("master", 4); ("msc", 4); ("mba", 4);
    ("bachelor", 3); ("licence", 3); ("degree", 3);
    ("diploma", 2); ("diplôme", 2) ].

(** The loop keeping the highest level whose keyword passes [test]. *)
Definition highest_level (test : string -> bool) : Z * string :=
  fold_left (fun best entry =>
               let '(degree, level) := entry in
               if test degree && (level >? fst best)
               then (level, capitalize degree) else best)
            education_levels (0, "Non spécifié").

Definition _score_education_match (resume_text : string)
    (job_requirements : list string) (job_description : string) : ScoreDetail :=
  let resume_lower := lower resume_text in
  let job_text := lower (cat [job_description; " "; Py.join " " job_requirements]) in
  let '(candidate_level, candidate_degree) :=
    highest_level (fun degree => contains degree resume_lower) in
  let '(required_level0, required_degree0) :=
    highest_level (fun degree =>
      contains degree job_text
      && (contains "required" job_text || contains "requis" job_text
          || contains "minimum" job_text)) in
  let '(required_level, required_degree) :=
    if required_level0 =? 0 then (3, "Bachelor (par défaut)")
    else (required_level0, required_degree0) in
  let '(score, explanation) :=
    if candidate_level >=? required_level then
      (5%Q, cat [candidate_degree; " correspond aux attentes ("; required_degree; ")"])
    else if candidate_level >=? required_level - 1 then
      (3%Q, cat [candidate_degree; " légèrement en dessous de "; required_degree])
    else
      (1%Q, cat [candidate_degree; " en dessous de "; required_degree]) in
  mkScoreDetail score 5 explanation
    (list_to_map [ ("candidate_level", MInt candidate_level);
                   ("required_level", MInt required_level) ]).

Definition countries : list string :=
  ["france"; "paris"; "lyon"; "marseille"; "toulouse"; "bordeaux"].

(** The last listed name that occurs in [loc], if any. *)
Definition country_of (loc : string) : option string :=
  fold_left (fun found country => if contains country loc then Some country else found)
            countries None.

Definition _score_location_match (job_location : string)
    (candidate_location : option string) : ScoreDetail :=
  match candidate_location with
  | None | Some EmptyString =>
      mkScoreDetail 3 5 "Localisation non spécifiée"
        (list_to_map [("job_location", MStr job_location)])
  | Some candidate_loc =>
      let job_loc_lower := lower job_location in
      let candidate_loc_lower := lower candidate_loc in
      let '(score, explanation) :=
        if contains "remote" job_loc_lower || contains "télétravail" job_loc_lower then
          (5%Q, "Poste en remote, flexible")
        else if contains "remote" candidate_loc_lower
                && negb (contains "remote" job_loc_lower) then
          (1%Q, "Candidat recherche remote, poste sur site")
        else if contains candidate_loc_lower job_loc_lower
                || contains job_loc_lower candidate_loc_lower then
          (5%Q, "Localisation parfaitement alignée")
        else
          match country_of candidate_loc_lower, country_of job_loc_lower with
          | Some candidate_country, Some job_country =>
              if String.eqb candidate_country job_country
              then (3%Q, "Même région mais pas même ville")
              else (1%Q, "Localisations différentes")
          | _, _ => (1%Q, "Localisations différentes")
          end in
      mkScoreDetail score 5 explanation
        (list_to_map [ ("job_location", MStr job_location);
                       ("candidate_location", MStr candidate_loc) ])
  end.

Section Tool.
Context {PF : PyFloat} {St : Type}.

Definition _score_salary_fit (job_salary : Z)
    (candidate_salary_expectation : option Z) : result ScoreDetail :=
  let unspecified :=
    Ok (mkScoreDetail 5 5 "Salaire non spécifié, assumé acceptable"
          (list_to_map [("job_salary", MInt job_salary)])) in
  match candidate_salary_expectation with
  | None => unspecified
  | Some expectation =>
      if expectation =? 0 then unspecified
      else
        match py_truediv (job_salary - expectation) expectation with
        | Raise e => Raise e
        | Ok ratio =>
            let diff_percent := (ratio * 100)%Q in
            let '(score, explanation) :=
              if Qgeb diff_percent 10 then
                (5%Q, cat ["Salaire offert supérieur aux attentes (+";
                           fmt_f 0 diff_percent; "%)"])
              else if Qgeb diff_percent 0 then
                (5%Q, cat ["Salaire offert correspond aux attentes (±";
                           fmt_f 0 (Qabs diff_percent); "%)"])
              else if Qgeb diff_percent (-10) then
                (4%Q, cat ["Salaire légèrement en dessous des attentes (";
                           fmt_f 0 diff_percent; "%)"])
              else if Qgeb diff_percent (-20) then
                (2%Q, cat ["Salaire en dessous des attentes (";
                           fmt_f 0 diff_percent; "%)"])
              else
                (0%Q, cat ["Salaire très en dessous des attentes (";
                           fmt_f 0 diff_percent; "%)"]) in
            Ok (mkScoreDetail score 5 explanation
                  (list_to_map [ ("job_salary", MInt job_salary);
                                 ("candidate_expectation", MInt expectation);
                                 ("diff_percent", MFloat (round_nd 2 diff_percent)) ]))
        end
  end.


(** The object: [self.use_semantic_experience] and [self.client]. *)
Record tool : Type := mkTool {
  use_semantic_experience : bool;
  client : option (Client St)
}.

Definition has_client (self : tool) : bool :=
  match client self with Some _ => true | None => false end.

Local Open Scope monad_scope.

(** The [except] clause prints and re-raises. *)
Definition _call_claude (self : tool) (prompt : string) (max_tokens : Z) : M St string :=
  match client self with
  | None => raise "Claude client not initialized. Cannot call semantic methods."
  | Some messages_create =>
      try_except (messages_create prompt max_tokens) (fun e => raise e)
  end.

(** The loop over the lines up to the [break] at the first [MATCHED:] line. *)
Fixpoint parse_matched (lines : list string) : list string :=
  match lines with
  | [] => []
  | line :: lines' =>
      if startswith "MATCHED:" line then
        let matched_str := strip (remove_all "MATCHED:" line) in
        let matched_str := strip_chars "[]" matched_str in
        if truthy matched_str then map strip (split_on "," matched_str) else []
      else parse_matched lines'
  end.

Definition _evaluate_soft_skills_semantic (self : tool) (resume_text : string)
    (soft_skills : list string) (job_description : string) : M St (list string) :=
  if negb (has_client self) || (length soft_skills =? 0)%nat then ret []
  else
    let skills_str := Py.join ", " soft_skills in
    let prompt := soft_skills_prompt skills_str job_description resume_text in
    try_except
      (response <- _call_claude self prompt 256 ;;
       let matched := parse_matched (split_on (ascii_of_nat 10) (strip response)) in
       ret (List.filter truthy matched))
      (fun e => ret []).

Definition is_soft_skill (req : string) : bool :=
  let req_lower := lower req in
  existsb (fun keyword => contains keyword req_lower) (elements SOFT_SKILL_KEYWORDS).

(** The loop sorting [skills] into matched and missing. *)
Definition match_skills (skills : list string) (resume_text : string)
    : list string * list string :=
  partition (fun skill => _smart_skill_match skill resume_text) skills.

Definition _score_skills_matching (self : tool) (resume_text : string)
    (job_requirements : list string) (job_description : string) : M St ScoreDetail :=
  let resume_lower := lower resume_text in
  let job_desc_lower := lower job_description in
  let '(soft_skills, hard_skills) := partition is_soft_skill job_requirements in
  let tech_skills_in_desc : gset string :=
    list_to_set (List.filter (fun skill => contains skill job_desc_lower)
                        (elements TECH_SKILLS)) in
  let all_hard_skills : gset string :=
    list_to_set (map (fun s => strip (lower s)) hard_skills) ∪ tech_skills_in_desc in
  let all_hard_skills : gset string :=
    if bool_decide (all_hard_skills = ∅)
    then list_to_set (map (fun req => strip (lower req))
                          (List.filter (fun req => negb (mem req soft_skills)) job_requirements))
    else all_hard_skills in
  let all_hard_skills : gset string :=
    if bool_decide (all_hard_skills = ∅) && (length soft_skills =? 0)%nat
    then list_to_set ["programming"; "development"; "engineering"]
    else all_hard_skills in
  let '(matched_hard, missing_hard) := match_skills (elements all_hard_skills) resume_text in
  soft <-
    (if (0 <? length soft_skills)%nat then
       if has_client self && use_semantic_experience self then
         try_except
           (matched_soft <- _evaluate_soft_skills_semantic self resume_text
                              soft_skills job_description ;;
            ret (matched_soft, List.filter (fun s => negb (mem s matched_soft)) soft_skills))
           (fun e => ret (match_skills soft_skills resume_text))
       else ret (match_skills soft_skills resume_text)
     else ret ([], [])) ;;
  let '(matched_soft, missing_soft) := soft in
  let total_required := (size all_hard_skills + length soft_skills)%nat in
  let total_matched := (length matched_hard + length matched_soft)%nat in
  let '(score, match_ratio) :=
    if (0 <? total_required)%nat then
      let match_ratio := (natq total_matched / natq total_required)%Q in
      let score := (match_ratio * 15)%Q in
      let bonus_skills :=
        List.filter (fun skill => contains skill resume_lower
                             && negb (bool_decide (skill ∈ all_hard_skills)))
               (elements TECH_SKILLS) in
      let bonus := py_min 2 (natq (length bonus_skills) * (2 # 10))%Q in
      (py_min 15 (score + bonus)%Q, match_ratio)
    else (10%Q, (67 # 100)%Q) in
  let all_matched := (matched_hard ++ matched_soft)%list in
  let all_missing := (missing_hard ++ missing_soft)%list in
  let explanation :=
    cat [str_of_Z (Z.of_nat total_matched); "/"; str_of_Z (Z.of_nat total_required);
         " competences requises maitrisees"] in
  let explanation :=
    if (0 <? length all_matched)%nat
    then cat [explanation; ". Matchees: "; Py.join ", " (firstn 5 all_matched)]
    else explanation in
  let explanation :=
    if (0 <? length all_missing)%nat
    then cat [explanation; ". Manquantes: "; Py.join ", " (firstn 3 all_missing)]
    else explanation in
  ret (mkScoreDetail score 15 explanation
         (list_to_map [
            ("matched_skills", MList (firstn 10 all_matched));
            ("missing_skills", MList (firstn 10 all_missing));
            ("match_ratio", MFloat (round_nd 2 match_ratio));
            ("hard_skills_matched", MInt (Z.of_nat (length matched_hard)));
            ("soft_skills_matched", MInt (Z.of_nat (length matched_soft)));
            ("semantic_soft_skills",
             MBool (has_client self && (0 <? length soft_skills)%nat)) ])).

(** The parsing loop of [_extract_relevant_experience_years]: the state is
    [relevant_years] and [explanation]; a [ValueError] of the conversion is
    caught and leaves the state as it is. *)
Definition parse_relevant_line (st : Z * string) (line : string) : Z * string :=
  let '(relevant_years, explanation) := st in
  if startswith "RELEVANT_YEARS:" line then
    let years_text := strip (remove_all "RELEVANT_YEARS:" line) in
    match float_of_str years_text with
    | Ok x => (Z.max 0 (Z.min (int_of_float x) 50), explanation)
    | Raise _ => st
    end
  else if startswith "EXPLANATION:" line then
    (relevant_years, strip (remove_all "EXPLANATION:" line))
  else st.

Definition _extract_relevant_experience_years (self : tool) (current_year : Z)
    (resume_text job_title job_description : string) : M St (Z * string) :=
  if negb (has_client self) || negb (use_semantic_experience self) then
    ret (_extract_experience_from_dates current_year resume_text,
         "Total experience (semantic evaluation unavailable)")
  else
    let prompt := relevant_experience_prompt job_title job_description resume_text in
    try_except
      (response <- _call_claude self prompt 512 ;;
       let lines := split_on (ascii_of_nat 10) (strip response) in
       let '(relevant_years, explanation) :=
         fold_left parse_relevant_line lines (0, "Could not parse Claude response") in
       if (relevant_years =? 0) && contains "Could not parse" explanation then
         let total_years := _extract_experience_from_dates current_year resume_text in
         ret (total_years,
              cat ["Fallback: "; str_of_Z total_years; " years total experience"])
       else ret (relevant_years, explanation))
      (fun e =>
         let total_years := _extract_experience_from_dates current_year resume_text in
         ret (total_years,
              cat ["Fallback due to error: "; str_of_Z total_years;
                   " years total experience"])).

Definition _score_experience_years (self : tool) (current_year : Z)
    (resume_text job_description job_title : string) : M St ScoreDetail :=
  let resume_lower := lower resume_text in
  let job_desc_lower := lower job_description in
  extracted <-
    (if use_semantic_experience self && has_client self && truthy job_title then
       try_except
         (ye <- _extract_relevant_experience_years self current_year
                  resume_text job_title job_description ;;
          ret (fst ye, Some (snd ye), true))
         (fun e => ret (_extract_experience_from_dates current_year resume_text,
                        None, false))
     else
       let resume_years := _extract_experience_from_dates current_year resume_text in
       let resume_years :=
         if resume_years =? 0
         then max_over_patterns years_patterns resume_lower resume_years
         else resume_years in
       ret (resume_years, None, false)) ;;
  let '(resume_years, semantic_explanation, using_semantic) := extracted in
  let required_years := max_over_patterns required_years_patterns job_desc_lower 0 in
  let required_years :=
    if required_years =? 0 then
      if contains "senior" job_desc_lower || contains "lead" job_desc_lower then 5
      else if contains "junior" job_desc_lower || contains "graduate" job_desc_lower then 1
      else 3
    else required_years in
  let '(score, base_explanation) := experience_band resume_years required_years in
  let explanation :=
    match semantic_explanation with
    | Some e => if truthy e && using_semantic then e else base_explanation
    | None => base_explanation
    end in
  ret (mkScoreDetail score 10 explanation
         (list_to_map [ ("resume_years", MInt resume_years);
                        ("required_years", MInt required_years);
                        ("semantic_evaluation", MBool using_semantic) ])).

Definition score_resume_job_match (self : tool) (current_year : Z)
    (resume_text : string) (job_requirements : list string)
    (job_description job_location : string) (job_salary : Z)
    (candidate_location : option string) (candidate_salary_expectation : option Z)
    (job_title : string) : M St DeterministicScore :=
  skills_score <- _score_skills_matching self resume_text job_requirements job_description ;;
  experience_score <- _score_experience_years self current_year resume_text
                        job_description job_title ;;
  let education_score := _score_education_match resume_text job_requirements job_description in
  salary_score <- lift (_score_salary_fit job_salary candidate_salary_expectation) ;;
  let location_score := _score_location_match job_location candidate_location in
  ret (mkDeterministicScore skills_score experience_score education_score
         salary_score location_score).

End Tool.

End DeterministicScoringTool.

(** ** scoring/semantic_scoring_tool.py *)

Module SemanticScoringTool.
Import Models Py.

Definition soft_skills_prompt (job_title job_description resume_text : string) : string :=
  Py.unlines [
    EmptyString;
    "Analyze the soft skills match between this resume and job position.";
    EmptyString;
    Py.cat ["JOB TITLE: "; job_title];
    EmptyString;
    "JOB DESCRIPTION:";
    job_description;
    EmptyString;
    "CANDIDATE RESUME:";
    resume_text;
    EmptyString;
    "Evaluate the candidate's soft skills based on:";
    "1. Leadership: Ability to lead projects, teams, or initiatives";
    "2. Communication: Written and verbal communication skills";
    "3. Teamwork: Collaboration and working with others";
    "4. Problem-solving: Analytical thinking and solution-oriented approach";
    "5. Initiative: Proactiveness and self-motivation";
    EmptyString;
    "Provide:";
    "1. A score from 0 to 15 (15 = exceptional soft skills match)";
    "2. A concise explanation (2-3 sentences) justifying the score";
    EmptyString;
    "Format your response EXACTLY as:";
    "SCORE: [number]";
    "EXPLANATION: [your explanation]";
    EmptyString ].

Definition culture_fit_prompt (job_description culture_context resume_text : string) : string :=
  Py.unlines [
    EmptyString;
    "Analyze the culture fit between this candidate and the company/role.";
    EmptyString;
    "JOB DESCRIPTION:";
    Py.cat [job_description; culture_context];
    EmptyString;
    "CANDIDATE RESUME:";
    resume_text;
    EmptyString;
    "Evaluate the candidate's culture fit based on:";
    "1. Values alignment: Do the candidate's values match the company's?";
    "2. Work style: Does the candidate's approach match the role expectations?";
    "3. Environment preference: Does the candidate thrive in this type of environment?";
    "4. Long-term fit: Is this a mutually beneficial match?";
    EmptyString;
    "Provide:";
    "1. A score from 0 to 10 (10 = perfect culture fit)";
    "2. A concise explanation (2-3 sentences) justifying the score";
    EmptyString;
    "Format your response EXACTLY as:";
    "SCORE: [number]";
    "EXPLANATION: [your explanation]";
    EmptyString ].

Definition growth_potential_prompt (job_title resume_text : string) : string :=
  Py.unlines [
    EmptyString;
    "Analyze the candidate's growth potential for this role.";
    EmptyString;
    Py.cat ["JOB TITLE: "; job_title];
    EmptyString;
    "CANDIDATE RESUME:";
    resume_text;
    EmptyString;
    "Evaluate the candidate's growth potential based on:";
    "1. Learning capacity: Evidence of continuous learning, certifications, new skills";
    "2. Career progression: Trajectory showing increasing responsibilities";
    "3. Adaptability: Ability to adapt to new technologies, roles, or environments";
    "4. Future potential: Likelihood of excelling and growing in this role";
    EmptyString;
    "Provide:";
    "1. A score from 0 to 10 (10 = exceptional growth potential)";
    "2. A concise explanation (2-3 sentences) justifying the score";
    EmptyString;
    "Format your response EXACTLY as:";
    "SCORE: [number]";
    "EXPLANATION: [your explanation]";
    EmptyString ].

Definition project_relevance_prompt (job_description resume_text : string) : string :=
  Py.unlines [
    EmptyString;
    "Analyze the relevance of the candidate's past projects to this job.";
    EmptyString;
    "JOB DESCRIPTION:";
    job_description;
    EmptyString;
    "CANDIDATE RESUME:";
    resume_text;
    EmptyString;
    "Evaluate project relevance based on:";
    "1. Domain similarity: Are the projects in a similar domain/industry?";
    "2. Technical similarity: Do the projects use similar technologies?";
    "3. Scope similarity: Are the project scopes comparable?";
    "4. Impact: Did the projects have measurable, relevant impact?";
    EmptyString;
    "Provide:";
    "1. A score from 0 to 5 (5 = highly relevant projects)";
    "2. A concise explanation (1-2 sentences) justifying the score";
    EmptyString;
    "Format your response EXACTLY as:";
    "SCORE: [number]";
    "EXPLANATION: [your explanation]";
    EmptyString ].


(** Digits, a dot or not, digits: the pattern of the salvaged number. *)
Definition re_number : Re.regex :=
  Re.seqs [Re.plus Re.digit; Re.opt (Re.char "."); Re.Star Re.digit].

Section Tool.
Context {PF : PyFloat} {St : Type}.

(** The object: [self.client]; the constructor raises without an API key. *)
Record tool : Type := mkTool { client : Client St }.

(** The [except] clause prints and re-raises. *)
Definition _call_claude (self : tool) (prompt : string) (max_tokens : Z) : M St string :=
  try_except (client self prompt max_tokens) (fun e => raise e).

(** One turn of the loop over the lines; the state is [score] and
    [explanation], [None] at the start.  [float] may raise. *)
Definition parse_line (st : option Q * option string) (line : string)
    : result (option Q * option string) :=
  let '(score, explanation) := st in
  if startswith "SCORE:" line then
    let score_text := strip (remove_all "SCORE:" line) in
    let score_text := strip (hd EmptyString (split_on "/" score_text)) in
    match float_of_str score_text with
    | Ok x => Ok (Some x, explanation)
    | Raise e => Raise e
    end
  else if startswith "EXPLANATION:" line then
    Ok (score, Some (strip (remove_all "EXPLANATION:" line)))
  else Ok st.

Fixpoint parse_lines (lines : list string) (st : option Q * option string)
    : result (option Q * option string) :=
  match lines with
  | [] => Ok st
  | line :: lines' =>
      match parse_line st line with
      | Ok st' => parse_lines lines' st'
      | Raise e => Raise e
      end
  end.

(** The body of the [try]. *)
Definition parse_body (response : string) (max_score : Q) : result (Q * string) :=
  let lines := split_on (ascii_of_nat 10) (strip response) in
  match parse_lines lines (None, None) with
  | Raise e => Raise e
  | Ok (score, explanation) =>
      let validated :=
        match score with
        | Some x => Ok x
        | None =>
            match map Re.whole (Re.finditer re_number response) with
            | number :: _ => float_of_str number
            | [] => Ok 0%Q
            end
        end in
      match validated with
      | Raise e => Raise e
      | Ok x =>
          let score := py_max 0 (py_min x max_score) in
          let explanation :=
            match explanation with
            | Some e => if truthy e then e else strip response
            | None => strip response
            end in
          Ok (score, explanation)
      end
  end.

Definition _parse_score_response (response : string) (max_score : Q) : Q * string :=
  match parse_body response max_score with
  | Ok r => r
  | Raise e => (0%Q, cat ["Error parsing response: "; e])
  end.

Definition _score_soft_skills (self : tool)
    (resume_text job_description job_title : string) : M St ScoreDetail :=
  let prompt := soft_skills_prompt job_title job_description resume_text in
  bind (_call_claude self prompt 1024) (fun response =>
  let '(score, explanation) := _parse_score_response response 15 in
  ret (mkScoreDetail score 15 explanation ∅)).

Definition _score_culture_fit (self : tool) (resume_text job_description : string)
    (company_culture : option string) : M St ScoreDetail :=
  let culture_context :=
    match company_culture with
    | Some culture =>
        if truthy culture then cat [nl; "COMPANY CULTURE:"; nl; culture] else EmptyString
    | None => EmptyString
    end in
  let prompt := culture_fit_prompt job_description culture_context resume_text in
  bind (_call_claude self prompt 1024) (fun response =>
  let '(score, explanation) := _parse_score_response response 10 in
  ret (mkScoreDetail score 10 explanation ∅)).

Definition _score_growth_potential (self : tool) (resume_text job_title : string)
    : M St ScoreDetail :=
  let prompt := growth_potential_prompt job_title resume_text in
  bind (_call_claude self prompt 1024) (fun response =>
  let '(score, explanation) := _parse_score_response response 10 in
  ret (mkScoreDetail score 10 explanation ∅)).

Definition _score_project_relevance (self : tool) (resume_text job_description : string)
    : M St ScoreDetail :=
  let prompt := project_relevance_prompt job_description resume_text in
  bind (_call_claude self prompt 1024) (fun response =>
  let '(score, explanation) := _parse_score_response response 5 in
  ret (mkScoreDetail score 5 explanation ∅)).

Local Open Scope monad_scope.

Definition score_resume_job_match (self : tool)
    (resume_text job_description job_title : string) (company_culture : option string)
    : M St SemanticScore :=
  soft_skills <- _score_soft_skills self resume_text job_description job_title ;;
  culture_fit <- _score_culture_fit self resume_text job_description company_culture ;;
  growth_potential <- _score_growth_potential self resume_text job_title ;;
  project_relevance <- _score_project_relevance self resume_text job_description ;;
  ret (mkSemanticScore soft_skills culture_fit growth_potential project_relevance).

End Tool.

End SemanticScoringTool.

(** ** scoring/bonus_scoring_tool.py *)

Module BonusScoringTool.
Import Models Py.

Definition industry_experience_prompt (job_description industry_context resume_text : string) : string :=
  Py.unlines [
    EmptyString;
    "Analyze the candidate's industry-specific experience for this job.";
    EmptyString;
    "JOB DESCRIPTION:";
    Py.cat [job_description; industry_context];
    EmptyString;
    "CANDIDATE RESUME:";
    resume_text;
    EmptyString;
    "Evaluate the candidate's industry experience based on:";
    "1. Years in the specific industry: How long has the candidate worked in this industry?";
    "2. Domain knowledge: Does the candidate understand industry-specific challenges?";
    "3. Relevant projects: Has the candidate worked on industry-relevant projects?";
    "4. Industry-specific skills: Does the candidate have specialized domain skills?";
    EmptyString;
    "Scoring guidelines:";
    "- 10 points: 5+ years in the exact industry with deep domain expertise";
    "- 7-9 points: 3-5 years in the industry or related fields";
    "- 4-6 points: 1-3 years or transferable experience from adjacent industries";
    "- 1-3 points: No direct industry experience but relevant skills";
    "- 0 points: No relevant industry experience";
    EmptyString;
    "Provide:";
    "1. A score from 0 to 10";
    "2. A concise explanation (2-3 sentences) justifying the score";
    EmptyString;
    "Format your response EXACTLY as:";
    "SCORE: [number]";
    "EXPLANATION: [your explanation]";
    EmptyString ].

Definition rare_skills_prompt (job_title job_description resume_text : string) : string :=
  Py.unlines [
    EmptyString;
    "Analyze the candidate's rare and highly sought-after skills FOR THIS SPECIFIC JOB.";
    EmptyString;
    Py.cat ["JOB TITLE: "; job_title];
    EmptyString;
    "JOB DESCRIPTION:";
    job_description;
    EmptyString;
    "CANDIDATE RESUME:";
    resume_text;
    EmptyString;
    "CRITICAL INSTRUCTION: Only award points for rare skills that are RELEVANT and VALUABLE for this specific job position.";
    "Rare skills that are irrelevant to the job should score 0 points.";
    EmptyString;
    "For example:";
    "- AI/ML skills are rare and valuable for a Data Scientist job (high score)";
    "- AI/ML skills are irrelevant for a Truck Driver job (0 points)";
    "- CDL license + hazmat certification are rare for a Truck Driver (high score)";
    "- CDL license is irrelevant for a Data Scientist (0 points)";
    EmptyString;
    "Evaluate rare skills based on:";
    "1. Relevance FIRST: Is this skill valuable for THIS job?";
    "2. Rarity: Is this skill hard to find in candidates for this position?";
    "3. Market demand: Is this skill in high demand for this role?";
    "4. Competitive advantage: Does this skill differentiate the candidate?";
    EmptyString;
    "Scoring guidelines:";
    "- 5 points: Multiple rare skills that are extremely hard to find AND highly relevant";
    "- 4 points: At least one rare skill in high demand AND relevant to the job";
    "- 3 points: Some specialized skills that add value to this position";
    "- 1-2 points: Minor differentiating skills";
    "- 0 points: No rare skills OR skills are irrelevant to this job";
    EmptyString;
    "Provide:";
    "1. A score from 0 to 5";
    "2. A concise explanation (1-2 sentences) listing the rare skills and their relevance";
    EmptyString;
    "Format your response EXACTLY as:";
    "SCORE: [number]";
    "EXPLANATION: [your explanation]";
    EmptyString ].

Definition career_trajectory_prompt (job_title resume_text : string) : string :=
  Py.unlines [
    EmptyString;
    "Analyze the candidate's career trajectory and progression.";
    EmptyString;
    Py.cat ["JOB TITLE: "; job_title];
    EmptyString;
    "CANDIDATE RESUME:";
    resume_text;
    EmptyString;
    "Evaluate career trajectory based on:";
    "1. Coherence: Is there a logical progression and story?";
    "2. Advancement: Has the candidate taken on increasing responsibilities?";
    "3. Consistency: No unexplained gaps or frequent job-hopping?";
    "4. Fit: Is this next position a natural next step?";
    EmptyString;
    "Scoring guidelines:";
    "- 5 points: Clear, coherent progression with steady advancement";
    "- 4 points: Good progression with minor gaps or pivots";
    "- 3 points: Acceptable trajectory with some inconsistencies";
    "- 1-2 points: Fragmented career or unclear direction";
    "- 0 points: Incoherent trajectory or major red flags";
    EmptyString;
    "Provide:";
    "1. A score from 0 to 5";
    "2. A concise explanation (1-2 sentences) justifying the score";
    EmptyString;
    "Format your response EXACTLY as:";
    "SCORE: [number]";
    "EXPLANATION: [your explanation]";
    EmptyString ].


(** Digits, a dot or not, digits: the pattern of the salvaged number. *)
Definition re_number : Re.regex :=
  Re.seqs [Re.plus Re.digit; Re.opt (Re.char "."); Re.Star Re.digit].

Section Tool.
Context {PF : PyFloat} {St : Type}.

(** The object: [self.client]; the constructor raises without an API key. *)
Record tool : Type := mkTool { client : Client St }.

(** The [except] clause prints and re-raises. *)
Definition _call_claude (self : tool) (prompt : string) (max_tokens : Z) : M St string :=
  try_except (client self prompt max_tokens) (fun e => raise e).

(** One turn of the loop over the lines; the state is [score] and
    [explanation], [None] at the start.  [float] may raise. *)
Definition parse_line (st : option Q * option string) (line : string)
    : result (option Q * option string) :=
  let '(score, explanation) := st in
  if startswith "SCORE:" line then
    let score_text := strip (remove_all "SCORE:" line) in
    let score_text := strip (hd EmptyString (split_on "/" score_text)) in
    match float_of_str score_text with
    | Ok x => Ok (Some x, explanation)
    | Raise e => Raise e
    end
  else if startswith "EXPLANATION:" line then
    Ok (score, Some (strip (remove_all "EXPLANATION:" line)))
  else Ok st.

Fixpoint parse_lines (lines : list string) (st : option Q * option string)
    : result (option Q * option string) :=
  match lines with
  | [] => Ok st
  | line :: lines' =>
      match parse_line st line with
      | Ok st' => parse_lines lines' st'
      | Raise e => Raise e
      end
  end.

(** The body of the [try]. *)
Definition parse_body (response : string) (max_score : Q) : result (Q * string) :=
  let lines := split_on (ascii_of_nat 10) (strip response) in
  match parse_lines lines (None, None) with
  | Raise e => Raise e
  | Ok (score, explanation) =>
      let validated :=
        match score with
        | Some x => Ok x
        | None =>
            match map Re.whole (Re.finditer re_number response) with
            | number :: _ => float_of_str number
            | [] => Ok 0%Q
            end
        end in
      match validated with
      | Raise e => Raise e
      | Ok x =>
          let score := py_max 0 (py_min x max_score) in
          let explanation :=
            match explanation with
            | Some e => if truthy e then e else strip response
            | None => strip response
            end in
          Ok (score, explanation)
      end
  end.

Definition _parse_score_response (response : string) (max_score : Q) : Q * string :=
  match parse_body response max_score with
  | Ok r => r
  | Raise e => (0%Q, cat ["Error parsing response: "; e])
  end.

Definition _score_industry_experience (self : tool) (resume_text job_description : string)
    (industry : option string) : M St ScoreDetail :=
  let industry_context :=
    match industry with
    | Some name => if truthy name then cat [nl; "INDUSTRY: "; name] else EmptyString
    | None => EmptyString
    end in
  let prompt := industry_experience_prompt job_description industry_context resume_text in
  bind (_call_claude self prompt 1024) (fun response =>
  let '(score, explanation) := _parse_score_response response 10 in
  ret (mkScoreDetail score 10 explanation ∅)).

Definition _score_rare_skills (self : tool)
    (resume_text job_description job_title : string) : M St ScoreDetail :=
  let prompt := rare_skills_prompt job_title job_description resume_text in
  bind (_call_claude self prompt 1024) (fun response =>
  let '(score, explanation) := _parse_score_response response 5 in
  ret (mkScoreDetail score 5 explanation ∅)).

Definition _score_career_trajectory (self : tool) (resume_text job_title : string)
    : M St ScoreDetail :=
  let prompt := career_trajectory_prompt job_title resume_text in
  bind (_call_claude self prompt 1024) (fun response =>
  let '(score, explanation) := _parse_score_response response 5 in
  ret (mkScoreDetail score 5 explanation ∅)).

Local Open Scope monad_scope.

Definition score_resume_job_match (self : tool)
    (resume_text job_description job_title : string) (industry : option string)
    : M St BonusScore :=
  industry_exp <- _score_industry_experience self resume_text job_description industry ;;
  rare_skills <- _score_rare_skills self resume_text job_description job_title ;;
  career_trajectory <- _score_career_trajectory self resume_text job_title ;;
  ret (mkBonusScore industry_exp rare_skills career_trajectory).

End Tool.

End BonusScoringTool.

(** ** scoring/score_explainer.py *)

Module ScoreExplainer.
Import Models Py.

(** [metadata.get(key, [])] and [metadata.get(key, 0)]; the scorers store a
    list, respectively an integer, under the keys read here. *)
Definition get_list (md : gmap string meta) (key : string) : list string :=
  match md !! key with Some (MList l) => l | _ => [] end.

Definition get_int (md : gmap string meta) (key : string) : Z :=
  match md !! key with Some (MInt n) => n | _ => 0 end.

(** Tuples [(ratio, name)] compare by ratio, then by name. *)
Definition pair_ltb (a b : Q * string) : bool :=
  Qltb (fst a) (fst b) || (Qeq_bool (fst a) (fst b) && String.ltb (snd a) (snd b)).

(** [list.sort(reverse=True)]: descending, equal elements in their order. *)
Fixpoint insert_desc (x : Q * string) (l : list (Q * string)) : list (Q * string) :=
  match l with
  | [] => [x]
  | y :: l' => if pair_ltb x y then y :: insert_desc x l' else x :: l
  end.

Definition sort_desc (l : list (Q * string)) : list (Q * string) :=
  fold_right insert_desc [] l.

(** [l[-n:]] *)
Definition lastn {A} (n : nat) (l : list A) : list A := skipn (length l - n) l.

(** The tier label of the fallback sentence. *)
Definition fallback_quality (total : Q) : string :=
  if Qgeb total 80 then "Excellent"
  else if Qgeb total 65 then "Good"
  else if Qgeb total 50 then "Moderate"
  else "Weak".

(** The five dimensions the fallback ranks: score, name, maximum. *)
Definition fallback_scores (det : DeterministicScore) (sem : SemanticScore)
    (bonus : BonusScore) : list (Q * string * Q) :=
  [ (score (skills_matching det), "skills", 15%Q);
    (score (experience_years det), "experience", 10%Q);
    (score (soft_skills_match sem), "soft skills", 15%Q);
    (score (culture_fit sem), "culture fit", 10%Q);
    (score (rare_skills_premium bonus), "rare skills", 5%Q) ].

Definition fallback_percentages (det : DeterministicScore) (sem : SemanticScore)
    (bonus : BonusScore) : list (Q * string) :=
  sort_desc (map (fun s => (fst (fst s) / snd s, snd (fst s))%Q)
                 (fallback_scores det sem bonus)).

Definition _generate_recommendation (total_score : Q)
    (strengths weaknesses : list string) : string :=
  if Qgeb total_score 85 then
    "Strongly recommended - Excellent candidate, proceed to interview immediately"
  else if Qgeb total_score 75 then
    "Recommended - Strong candidate, proceed to interview"
  else if Qgeb total_score 65 then
    "Consider for interview - Good candidate with minor gaps"
  else if Qgeb total_score 50 then
    "Moderate fit - Review carefully before proceeding"
  else
    "Not recommended - Significant gaps in requirements".

(** [if cond: out.append(text)] *)
Definition when (cond : bool) (text : string) : list string :=
  if cond then [text] else [].

Definition _extract_strengths (score_breakdown : ScoreBreakdown) : list string :=
  let det := deterministic score_breakdown in
  let sem := semantic score_breakdown in
  let bonus := Models.bonus score_breakdown in
  let matched := length (get_list (metadata (skills_matching det)) "matched_skills") in
  let years := get_int (metadata (experience_years det)) "resume_years" in
  let strengths := concat [
    when (Qgeb (score (skills_matching det)) 12)
      (cat ["Strong technical skills with "; str_of_Z (Z.of_nat matched);
            "+ matched competencies"]);
    when (Qgeb (score (experience_years det)) 8)
      (cat ["Excellent experience level ("; str_of_Z years; "+ years)"]);
    when (Qgeb (score (education_match det)) 4) "Strong educational background";
    when (Qgeb (score (salary_fit det)) 4) "Salary expectations well-aligned";
    when (Qgeb (score (location_match det)) 4) "Excellent location fit";
    when (Qgeb (score (soft_skills_match sem)) 12) "Outstanding soft skills and communication";
    when (Qgeb (score (culture_fit sem)) 8) "Excellent cultural alignment";
    when (Qgeb (score (growth_potential sem)) 8) "High growth potential and adaptability";
    when (Qgeb (score (project_relevance sem)) 4) "Highly relevant project experience";
    when (Qgeb (score (industry_experience bonus)) 7) "Strong industry-specific experience";
    when (Qgeb (score (rare_skills_premium bonus)) 4)
      "Rare and highly valuable technical skills";
    when (Qgeb (score (career_trajectory bonus)) 4) "Coherent and progressive career path" ] in
  let strengths := if (5 <? length strengths)%nat then firstn 5 strengths else strengths in
  match strengths with
  | [] => ["Meets basic requirements"]
  | _ => strengths
  end.

Definition _extract_weaknesses (score_breakdown : ScoreBreakdown) : list string :=
  let det := deterministic score_breakdown in
  let sem := semantic score_breakdown in
  let bonus := Models.bonus score_breakdown in
  let missing := length (get_list (metadata (skills_matching det)) "missing_skills") in
  let req_years := get_int (metadata (experience_years det)) "required_years" in
  let weaknesses := concat [
    when (Qltb (score (skills_matching det)) 10 && (0 <? missing)%nat)
      (cat ["Missing "; str_of_Z (Z.of_nat missing); " key technical skills"]);
    when (Qltb (score (experience_years det)) 5)
      (cat ["Experience level below requirement ("; str_of_Z req_years; " years needed)"]);
    when (Qltb (score (education_match det)) 3) "Education level could be higher";
    when (Qltb (score (salary_fit det)) 3) "Salary expectations may not align";
    when (Qltb (score (location_match det)) 3) "Location not optimal";
    when (Qltb (score (soft_skills_match sem)) 10) "Soft skills need development";
    when (Qltb (score (culture_fit sem)) 6) "Cultural fit uncertain";
    when (Qltb (score (growth_potential sem)) 6) "Growth potential unclear";
    when (Qltb (score (project_relevance sem)) 3) "Limited relevant project experience";
    when (Qltb (score (industry_experience bonus)) 5) "Limited industry-specific experience";
    when (Qltb (score (rare_skills_premium bonus)) 2) "Few rare or specialized skills";
    when (Qltb (score (career_trajectory bonus)) 3) "Career progression unclear" ] in
  let weaknesses := if (4 <? length weaknesses)%nat then firstn 4 weaknesses else weaknesses in
  match weaknesses with
  | [] => ["No significant weaknesses identified"]
  | _ => weaknesses
  end.

Section Explainer.
Context {PF : PyFloat} {St : Type}.

(** The object: [self.client]. *)
Record explainer : Type := mkExplainer { client : Client St }.

Definition score_summary (total : Q) (det : DeterministicScore) (sem : SemanticScore)
    (bonus : BonusScore) : string :=
  Py.unlines [
    EmptyString;
    Py.cat ["TOTAL SCORE: "; (fmt_f 1 total); "/100"];
    EmptyString;
    "BREAKDOWN:";
    Py.cat ["1. Deterministic Score: "; (fmt_f 1 (det_total det)); "/40"];
    Py.cat ["   - Skills Matching: "; (fmt_f 1 (score (skills_matching det))); "/15"];
    Py.cat ["   - Experience Years: "; (fmt_f 1 (score (experience_years det))); "/10"];
    Py.cat ["   - Education Match: "; (fmt_f 1 (score (education_match det))); "/5"];
    Py.cat ["   - Salary Fit: "; (fmt_f 1 (score (salary_fit det))); "/5"];
    Py.cat ["   - Location Match: "; (fmt_f 1 (score (location_match det))); "/5"];
    EmptyString;
    Py.cat ["2. Semantic Score: "; (fmt_f 1 (sem_total sem)); "/40"];
    Py.cat ["   - Soft Skills: "; (fmt_f 1 (score (soft_skills_match sem))); "/15"];
    Py.cat ["   - Culture Fit: "; (fmt_f 1 (score (culture_fit sem))); "/10"];
    Py.cat ["   - Growth Potential: "; (fmt_f 1 (score (growth_potential sem))); "/10"];
    Py.cat ["   - Project Relevance: "; (fmt_f 1 (score (project_relevance sem))); "/5"];
    EmptyString;
    Py.cat ["3. Bonus Score: "; (fmt_f 1 (bonus_total bonus)); "/20"];
    Py.cat ["   - Industry Experience: "; (fmt_f 1 (score (industry_experience bonus))); "/10"];
    Py.cat ["   - Rare Skills: "; (fmt_f 1 (score (rare_skills_premium bonus))); "/5"];
    Py.cat ["   - Career Trajectory: "; (fmt_f 1 (score (career_trajectory bonus))); "/5"];
    EmptyString ].

Definition overall_explanation_prompt (job_title score_summary : string) : string :=
  Py.unlines [
    EmptyString;
    "Generate a concise overall explanation (2-3 sentences) for this resume-job match.";
    EmptyString;
    Py.cat ["JOB TITLE: "; job_title];
    EmptyString;
    score_summary;
    EmptyString;
    "Provide a concise summary that:";
    "1. States the overall match quality (excellent/good/moderate/weak)";
    "2. Highlights the top 2-3 strengths (highest scores)";
    "3. Mentions 1-2 areas for improvement (lowest scores)";
    EmptyString;
    "Keep it professional, factual, and actionable. Maximum 3 sentences.";
    EmptyString ].


Definition _fallback_explanation (total : Q) (det : DeterministicScore)
    (sem : SemanticScore) (bonus : BonusScore) : string :=
  let quality := fallback_quality total in
  let percentages := fallback_percentages det sem bonus in
  let top_strengths := map snd (firstn 2 percentages) in
  let weaknesses := map snd (lastn 2 percentages) in
  cat [quality; " candidate with "; fmt_f 0 total; "/100. ";
       "Strong "; Py.join " and " top_strengths; ". ";
       "Could improve "; Py.join " and " weaknesses; "."].

Local Open Scope monad_scope.

Definition _generate_overall_explanation (self : explainer)
    (score_breakdown : ScoreBreakdown) (job_title : string)
    (resume_text job_description : option string) : M St string :=
  let total := total_score score_breakdown in
  let det := deterministic score_breakdown in
  let sem := semantic score_breakdown in
  let bonus := Models.bonus score_breakdown in
  let prompt := overall_explanation_prompt job_title (score_summary total det sem bonus) in
  try_except
    (text <- client self prompt 512 ;; ret (strip text))
    (fun e => ret (_fallback_explanation total det sem bonus)).

Definition generate_detailed_match (self : explainer) (job_title company : string)
    (salary : Z) (location : string) (deterministic_score : DeterministicScore)
    (semantic_score : SemanticScore) (bonus_score : BonusScore)
    (resume_text job_description : option string) : M St DetailedMatch :=
  let score_breakdown := mkScoreBreakdown deterministic_score semantic_score bonus_score in
  let total_score := total_score score_breakdown in
  overall_explanation <- _generate_overall_explanation self score_breakdown job_title
                           resume_text job_description ;;
  let strengths := _extract_strengths score_breakdown in
  let weaknesses := _extract_weaknesses score_breakdown in
  let recommendation := _generate_recommendation total_score strengths weaknesses in
  ret (mkDetailedMatch job_title company total_score score_breakdown
         overall_explanation strengths weaknesses recommendation salary location).

End Explainer.

End ScoreExplainer.

(** ** scoring/scoring_agent.py *)

Module ScoringAgent.
Import Models.

Section Agent.
Context {PF : PyFloat} {St : Type}.

Record agent : Type := mkAgent {
  deterministic_tool : @DeterministicScoringTool.tool St;
  semantic_tool : @SemanticScoringTool.tool St;
  bonus_tool : @BonusScoringTool.tool St;
  explainer : @ScoreExplainer.explainer St
}.

Local Open Scope monad_scope.

(** [current_year] is the clock read by the deterministic tool. *)
Definition score_candidate (self : agent) (current_year : Z)
    (resume_text job_title company job_description : string)
    (job_requirements : list string) (job_location : string) (job_salary : Z)
    (candidate_location : option string) (candidate_salary_expectation : option Z)
    (industry company_culture : option string) : M St DetailedMatch :=
  deterministic_score <-
    DeterministicScoringTool.score_resume_job_match (deterministic_tool self)
      current_year resume_text job_requirements job_description job_location
      job_salary candidate_location candidate_salary_expectation job_title ;;
  semantic_score <-
    SemanticScoringTool.score_resume_job_match (semantic_tool self)
      resume_text job_description job_title company_culture ;;
  bonus_score <-
    BonusScoringTool.score_resume_job_match (bonus_tool self)
      resume_text job_description job_title industry ;;
  ScoreExplainer.generate_detailed_match (explainer self) job_title company
    job_salary job_location deterministic_score semantic_score bonus_score
    (Some resume_text) (Some job_description).

End Agent.

End ScoringAgent.

(** ** agents/conversational_agent.py *)

Module ConversationalJobAgent.
Import Py.

(** A job offer is a dict; a missing key is [None]. *)
Record Job : Type := mkJob {
  title : option string;
  company : option string;
  location : option string;
  salary : option Z;
  industry : option string;
  description : option string;
  requirements : option (list string)
}.

(** [job.get(key, default)] and [job[key]] *)
Definition get {A} (field : option A) (default : A) : A :=
  match field with Some v => v | None => default end.

Definition item {A} (key : string) (field : option A) : result A :=
  match field with
  | Some v => Ok v
  | None => Raise (cat ["KeyError: '"; key; "'"])
  end.

(** [session["collected_info"]], the entries the search reads. *)
Record Collected : Type := mkCollected {
  resume_text : option string;
  c_industry : option string;
  c_location : option string;
  c_salary : option string
}.

Definition set_of_words (s : string) : gset string := list_to_set (words s).

Definition _quick_score (resume_text : string) (job : Job) : Q :=
  let resume_lower := lower resume_text in
  let score := 50%Q in
  let requirements := get (requirements job) [] in
  let score :=
    if (0 <? length requirements)%nat then
      let matched :=
        length (List.filter (fun req => contains (lower req) resume_lower) requirements) in
      let req_score := (natq matched / natq (length requirements) * 30)%Q in
      (score + req_score)%Q
    else score in
  let job_desc := lower (get (description job) "") in
  let common_words : gset string := set_of_words job_desc ∩ set_of_words resume_lower in
  let score :=
    if (0 <? size common_words)%nat then
      let desc_score := py_min 20 (natq (size common_words) * (5 # 10))%Q in
      (score + desc_score)%Q
    else score in
  py_min 100 score.

(** The dict [_advanced_score] returns, without its [breakdown]. *)
Record Advanced : Type := mkAdvanced {
  a_total : Q;
  a_deterministic : Q;
  a_semantic : Q;
  a_bonus : Q;
  using_fallback : bool
}.

Definition quick_fallback (resume_text : string) (job : Job) : Advanced :=
  let quick := _quick_score resume_text job in
  mkAdvanced quick (quick * (4 # 10))%Q (quick * (4 # 10))%Q (quick * (2 # 10))%Q true.

(** [scorer.score_resume_job_match(...)]: the class [ScoringAgent] defines
    [score_candidate], [score_candidate_simple] and
    [get_score_breakdown_dict] only, so the attribute lookup raises. *)
Definition scorer_score_resume_job_match : result Advanced :=
  Raise "'ScoringAgent' object has no attribute 'score_resume_job_match'".

(** [scorer_loaded]: whether [_get_advanced_scorer] obtained a scorer. *)
Definition _advanced_score (scorer_loaded : bool) (resume_text : string) (job : Job)
    : Advanced :=
  if negb scorer_loaded then quick_fallback resume_text job
  else
    match scorer_score_resume_job_match with
    | Ok result => result
    | Raise e => quick_fallback resume_text job
    end.

(** An entry of the answer: with scores, or the bare offer. *)
Record Scored : Type := mkScored {
  s_title : string;
  s_company : string;
  s_location : string;
  s_salary : Z;
  s_industry : string;
  s_description : string;
  s_requirements : list string;
  s_match_score : Q;
  s_deterministic : Q;
  s_semantic : Q;
  s_bonus : Q;
  using_advanced_scoring : bool
}.

Record Basic : Type := mkBasic {
  b_title : string;
  b_company : string;
  b_location : string;
  b_salary : Z;
  b_industry : string;
  b_description : string
}.

Inductive Entries : Type :=
| ScoredJobs (jobs : list Scored)
| BasicJobs (jobs : list Basic).

Definition entries_count (e : Entries) : nat :=
  match e with ScoredJobs l => length l | BasicJobs l => length l end.

(** The JSON object of the answer. *)
Inductive Answer : Type :=
| NoMatch (count : nat) (message : string)
| Matches (count : nat) (jobs : Entries).

(** [[^\d]]: the characters [re.sub] removes from the salary text. *)
Definition digits_only (s : string) : string :=
  string_of_list_ascii (List.filter is_digit (list_ascii_of_string s)).

Definition min_salary_of (salary : option string) : option Z :=
  match salary with
  | Some text =>
      if truthy text then
        let salary_clean := digits_only text in
        if truthy salary_clean then
          let min_salary := int_of_digits salary_clean in
          Some (if min_salary <? 1000 then min_salary * 1000 else min_salary)
        else None
      else None
  | None => None
  end.

Definition some_truthy (s : option string) : option string :=
  match s with
  | Some t => if truthy t then Some t else None
  | None => None
  end.

(** The criteria loop: [true] when the job is kept. *)
Definition passes_criteria (industry location : option string) (min_salary : option Z)
    (job : Job) : bool :=
  let industry_ok :=
    match some_truthy industry with
    | Some wanted => String.eqb (lower (get (ConversationalJobAgent.industry job) ""))
                                (lower wanted)
    | None => true
    end in
  let salary_ok :=
    match min_salary with
    | Some m => if m =? 0 then true else negb (get (salary job) 0 <? m)
    | None => true
    end in
  let location_ok :=
    match some_truthy location with
    | Some wanted =>
        let job_location := lower (get (ConversationalJobAgent.location job) "") in
        let location_lower := lower wanted in
        if negb (contains "remote" location_lower) && negb (contains "remote" job_location)
        then contains location_lower job_location
        else true
    | None => true
    end in
  industry_ok && salary_ok && location_ok.

(** [sort(key=lambda x: x[1], reverse=True)] *)
Fixpoint insert_by_score (x : Job * Q) (l : list (Job * Q)) : list (Job * Q) :=
  match l with
  | [] => [x]
  | y :: l' => if Qltb (snd x) (snd y) then y :: insert_by_score x l' else x :: l
  end.

Definition sort_by_score (l : list (Job * Q)) : list (Job * Q) :=
  fold_right insert_by_score [] l.

(** [for x in xs: out.append(f(x))] where [f] may raise. *)
Fixpoint map_result {A B} (f : A -> result B) (l : list A) : result (list B) :=
  match l with
  | [] => Ok []
  | x :: l' =>
      match f x with
      | Raise e => Raise e
      | Ok y => match map_result f l' with
                | Raise e => Raise e
                | Ok ys => Ok (y :: ys)
                end
      end
  end.

Section Agent.
Context {PF : PyFloat}.

(** The quick triage: the jobs scoring at least 45, with their score. *)
Definition quick_filter (resume : string) (matched_jobs : list Job) : list (Job * Q) :=
  List.filter (fun jq => Qgeb (snd jq) 45)
         (map (fun job => (job, _quick_score resume job)) matched_jobs).

Definition scored_entry (scorer_loaded : bool) (resume : string) (job : Job)
    : result Scored :=
  let advanced_result := _advanced_score scorer_loaded resume job in
  match item "title" (title job), item "company" (company job),
        item "location" (location job), item "salary" (salary job) with
  | Ok t, Ok c, Ok l, Ok s =>
      Ok (mkScored t c l s
            (get (industry job) "")
            (take 200 (get (description job) ""))
            (get (requirements job) [])
            (round_nd 1 (a_total advanced_result))
            (round_nd 1 (a_deterministic advanced_result))
            (round_nd 1 (a_semantic advanced_result))
            (round_nd 1 (a_bonus advanced_result))
            (negb (using_fallback advanced_result)))
  | Raise e, _, _, _ => Raise e
  | _, Raise e, _, _ => Raise e
  | _, _, Raise e, _ => Raise e
  | _, _, _, Raise e => Raise e
  end.

Definition basic_entry (job : Job) : result Basic :=
  match item "title" (title job), item "company" (company job),
        item "location" (location job), item "salary" (salary job) with
  | Ok t, Ok c, Ok l, Ok s =>
      Ok (mkBasic t c l s (get (industry job) "") (take 200 (get (description job) "")))
  | Raise e, _, _, _ => Raise e
  | _, Raise e, _, _ => Raise e
  | _, _, Raise e, _ => Raise e
  | _, _, _, Raise e => Raise e
  end.

(** [job_database] and [scorer_loaded] are the agent's; [collected] is the
    session's. *)
Definition search_matching_jobs (job_database : list Job) (scorer_loaded : bool)
    (collected : Collected) : result Answer :=
  let industry := c_industry collected in
  let location := c_location collected in
  let min_salary := min_salary_of (c_salary collected) in
  let matched_jobs := List.filter (passes_criteria industry location min_salary) job_database in
  let matched_jobs := firstn 20 matched_jobs in
  let entries :=
    match some_truthy (resume_text collected) with
    | Some resume =>
        let quick_scored := sort_by_score (quick_filter resume matched_jobs) in
        let top_candidates := firstn 3 quick_scored in
        match map_result (fun jq => scored_entry scorer_loaded resume (fst jq))
                         top_candidates with
        | Ok final_scored => Ok (ScoredJobs final_scored)
        | Raise e => Raise e
        end
    | None =>
        match map_result basic_entry (firstn 5 matched_jobs) with
        | Ok l => Ok (BasicJobs l)
        | Raise e => Raise e
        end
    end in
  match entries with
  | Raise e => Raise e
  | Ok matched_jobs =>
      if (entries_count matched_jobs =? 0)%nat
      then Ok (NoMatch 0 "No matching jobs found. Try broadening your criteria.")
      else Ok (Matches (entries_count matched_jobs) matched_jobs)
  end.

End Agent.

End ConversationalJobAgent.

(** ** A reading of the float builtins on plain decimal text

    [float] of an optional sign, digits and an optional fraction; [round]
    and [:.nf] by rounding half to even.  The theorems hold for every
    instance of [PyFloat]; the examples are evaluated with this one. *)

Module PlainFloat.
Import Py.

Fixpoint span_digits (s : string) : string * string :=
  match s with
  | String c s' =>
      if is_digit c then let '(d, r) := span_digits s' in (String c d, r)
      else (EmptyString, s)
  | EmptyString => (EmptyString, EmptyString)
  end.

Definition pow10 (n : nat) : Z := 10 ^ Z.of_nat n.

Definition decimal_value (int_part frac_part : string) : Q :=
  (Zq (int_of_digits (int_part ++ frac_part)) / Zq (pow10 (String.length frac_part)))%Q.

Definition unsigned_float (s : string) : option Q :=
  let '(a, r) := span_digits s in
  match r with
  | EmptyString => if truthy a then Some (decimal_value a EmptyString) else None
  | String c r' =>
      if Ascii.eqb c "." then
        let '(b, r'') := span_digits r' in
        if negb (truthy r'') && (truthy a || truthy b)
        then Some (decimal_value a b) else None
      else None
  end.

Definition float_of_plain (s : string) : result Q :=
  let t := strip s in
  let parsed :=
    match t with
    | String c t' =>
        if Ascii.eqb c "-" then option_map Qopp (unsigned_float t')
        else if Ascii.eqb c "+" then unsigned_float t'
        else unsigned_float t
    | EmptyString => None
    end in
  match parsed with
  | Some x => Ok x
  | None => Raise (cat ["could not convert string to float: '"; s; "'"])
  end.

Definition round_half_even (x : Q) : Z :=
  let f := Qfloor x in
  let r := (x - Zq f)%Q in
  if Qltb r (1 # 2) then f
  else if Qltb (1 # 2) r then f + 1
  else if Z.even f then f else f + 1.

Definition scaled (n : nat) (x : Q) : Z := round_half_even (x * Zq (pow10 n))%Q.

Definition round_plain (n : nat) (x : Q) : Q := (Zq (scaled n x) / Zq (pow10 n))%Q.

Fixpoint zeros (n : nat) : string :=
  match n with O => EmptyString | S n' => String "0" (zeros n') end.

Definition fmt_plain (n : nat) (x : Q) : string :=
  let a := Z.abs (scaled n x) in
  let sign := if Qltb x 0 then "-" else EmptyString in
  let int_part := str_of_Z (a / pow10 n) in
  let frac := str_of_Z (a mod pow10 n) in
  match n with
  | O => cat [sign; int_part]
  | _ => cat [sign; int_part; "."; zeros (n - String.length frac); frac]
  end.

#[export] Instance plain : PyFloat := {
  float_of_str := float_of_plain;
  round_nd := round_plain;
  fmt_f := fmt_plain
}.

End PlainFloat.

(** ** agents/conversational_agent.py: the sessions and the profile tools

    The closures [analyze_resume_completeness], [update_candidate_info] and
    [get_current_profile] of [_create_tools] read and write the dict
    [session["collected_info"]]: they are computations in the monad [M] over
    that dict, an item access on a missing key being the [KeyError].  The
    objects they pass to [json.dumps] are given as records. *)

Module SessionTools.
Import Py.

(** [session["collected_info"]]: each key holds [None] or a string. *)
Abbreviation Info := (gmap string (option string)).

(** [collected[key]] and [collected.get(key)] *)
Definition item (key : string) (collected : Info) : result (option string) :=
  match collected !! key with
  | Some value => Ok value
  | None => Raise (cat ["KeyError: '"; key; "'"])
  end.

Definition get (key : string) (collected : Info) : option string :=
  match collected !! key with
  | Some value => value
  | None => None
  end.

(** Truth value of [None] or a string. *)
Definition truthy_value (value : option string) : bool :=
  match value with
  | Some text => truthy text
  | None => false
  end.

Local Open Scope monad_scope.

Definition read (key : string) : M Info (option string) :=
  fun collected => (item key collected, collected).

Definition peek (key : string) : M Info (option string) :=
  fun collected => (Ok (get key collected), collected).

(** [collected[key] = value] *)
Definition write (key : string) (value : string) : M Info unit :=
  fun collected => (Ok tt, <[key := Some value]> collected).






(** [s.split(sep, 1)] unpacked into two names: [None] when [sep] does not
    occur, where the unpacking raises. *)
Fixpoint split_once (sep : ascii) (s : string) : option (string * string) :=
  match s with
  | EmptyString => None
  | String c s' =>
      if Ascii.eqb c sep then Some (EmptyString, s')
      else match split_once sep s' with
           | Some (before, after) => Some (String c before, after)
           | None => None
           end
  end.

Definition field_mapping : gmap string string := list_to_map [
  ("salary", "salary");
  ("salary_expectation", "salary");
  ("location", "location");
  ("location_preference", "location");
  ("industry", "industry");
  ("industry_preference", "industry");
  ("job_title", "job_title_preference");
  ("role", "job_title_preference") ].

Definition update_candidate_info (input_str : string) : M Info string :=
  if negb (contains "|" input_str) then
    ret "Error: Input must be in format 'field|value'"
  else
    match split_once "|" input_str with
    | None => raise "not enough values to unpack (expected 2, got 1)"
    | Some (field, value) =>
        let field := strip (lower field) in
        let value := strip value in
        match field_mapping !! field with
        | Some actual_field =>
            _ <- write actual_field value ;;
            ret (cat ["Updated "; actual_field; " to: "; value])
        | None => ret (cat ["Unknown field: "; field])
        end
    end.

(** The dict of [get_current_profile]. *)
Record Profile : Type := mkProfile {
  resume_provided : bool;
  industry : option string;
  location : option string;
  salary : option string;
  job_title_preference : option string;
  experience_level : option string
}.

Definition get_current_profile (unused_input : string) : M Info Profile :=
  stored <- read "resume_text" ;;
  industry <- peek "industry" ;;
  location <- peek "location" ;;
  salary <- peek "salary" ;;
  job_title_preference <- peek "job_title_preference" ;;
  experience_level <- peek "experience_level" ;;
  ret (mkProfile (truthy_value stored) industry location salary
         job_title_preference experience_level).

(** What the closure [search_matching_jobs] reads of the dict. *)
Definition search_criteria (collected : Info) : result ConversationalJobAgent.Collected :=
  match item "resume_text" collected with
  | Raise e => Raise e
  | Ok stored =>
      Ok (ConversationalJobAgent.mkCollected stored (get "industry" collected)
            (get "location" collected) (get "salary" collected))
  end.

Section Sessions.
(** [Memory] is the class [ConversationBufferMemory], [new_memory] a new
    object of it. *)
Context {Memory : Type} (new_memory : Memory).

Record Session : Type := mkSession {
  session_id : string;
  created_at : string;
  memory : Memory;
  candidate_profile : gmap string string;
  state : string;
  collected_info : Info
}.

Definition new_collected_info : Info := list_to_map [
  ("resume_text", None);
  ("industry", None);
  ("location", None);
  ("salary", None);
  ("job_title_preference", None);
  ("experience_level", None) ].

(** [now] is [datetime.now().isoformat()]. *)
Definition create_session (now : string) (id : string) (sessions : gmap string Session)
    : Session * gmap string Session :=
  match sessions !! id with
  | Some session => (session, sessions)
  | None =>
      let session :=
        mkSession id now new_memory ∅ "COLLECTING_INFO" new_collected_info in
      (session, <[id := session]> sessions)
  end.

Definition get_session (id : string) (sessions : gmap string Session) : option Session :=
  sessions !! id.

Definition reset_session (id : string) (sessions : gmap string Session)
    : gmap string Session :=
  match sessions !! id with
  | Some _ => delete id sessions
  | None => sessions
  end.

End Sessions.

End SessionTools.

(** ** scoring/scoring_agent.py: the dictionary interface *)

Module ScoringAgentDict.
Import Models.

(** [job_data]: a missing key is [None]. *)
Record JobData : Type := mkJobData {
  title : option string;
  company : option string;
  description : option string;
  requirements : option (list string);
  location : option string;
  salary : option Z;
  candidate_location : option string;
  candidate_salary : option Z;
  industry : option string;
  culture : option string
}.

Section Agent.
Context {PF : PyFloat} {St : Type}.

Definition score_candidate_simple (self : @ScoringAgent.agent St) (current_year : Z)
    (resume_text : string) (job_data : JobData) : M St DetailedMatch :=
  ScoringAgent.score_candidate self current_year resume_text
    (ConversationalJobAgent.get (title job_data) "")
    (ConversationalJobAgent.get (company job_data) "")
    (ConversationalJobAgent.get (description job_data) "")
    (ConversationalJobAgent.get (requirements job_data) [])
    (ConversationalJobAgent.get (location job_data) "")
    (ConversationalJobAgent.get (salary job_data) 0)
    (candidate_location job_data)
    (candidate_salary job_data)
    (industry job_data)
    (culture job_data).

End Agent.

End ScoringAgentDict.

(** * Vocabulary of the statements *)

(** A detail as the scorers build it for a dimension of maximum [mx]. *)
Definition detail_within (mx : Q) (sd : Models.ScoreDetail) : Prop :=
  Models.max_score sd = mx /\ (0 <= Models.score sd <= Models.max_score sd)%Q.

(** The breakdowns of the pipeline: every detail carries the maximum of its
    dimension and a score within it. *)
Definition pipeline_breakdown (sb : Models.ScoreBreakdown) : Prop :=
  let det := Models.deterministic sb in
  let sem := Models.semantic sb in
  let bonus := Models.bonus sb in
  detail_within 15 (Models.skills_matching det)
  /\ detail_within 10 (Models.experience_years det)
  /\ detail_within 5 (Models.education_match det)
  /\ detail_within 5 (Models.salary_fit det)
  /\ detail_within 5 (Models.location_match det)
  /\ detail_within 15 (Models.soft_skills_match sem)
  /\ detail_within 10 (Models.culture_fit sem)
  /\ detail_within 10 (Models.growth_potential sem)
  /\ detail_within 5 (Models.project_relevance sem)
  /\ detail_within 10 (Models.industry_experience bonus)
  /\ detail_within 5 (Models.rare_skills_premium bonus)
  /\ detail_within 5 (Models.career_trajectory bonus).


(** The parser of the oracle's answers, said in words: what the SCORE: and
    EXPLANATION: lines of the stripped response determine. *)
Module ParserSpec.
Import Py.

Section Spec.
Context {PF : PyFloat}.

Definition response_lines (response : string) : list string :=
  split_on (ascii_of_nat 10) (strip response).

(** The text converted on a SCORE: line: the marker removed, stripped, cut
    at the first slash, stripped. *)
Definition score_text (line : string) : string :=
  strip (hd EmptyString (split_on "/" (strip (remove_all "SCORE:" line)))).

Definition explanation_text (line : string) : string :=
  strip (remove_all "EXPLANATION:" line).

Definition score_texts (response : string) : list string :=
  map score_text (List.filter (startswith "SCORE:") (response_lines response)).

Definition explanation_texts (response : string) : list string :=
  map explanation_text
      (List.filter (startswith "EXPLANATION:") (response_lines response)).

(** The exception of the first text that is not a number, if any. *)
Fixpoint first_raise (texts : list string) : option string :=
  match texts with
  | [] => None
  | t :: ts =>
      match float_of_str t with
      | Raise e => Some e
      | Ok _ => first_raise ts
      end
  end.

Definition value_of (text : string) : option Q :=
  match float_of_str text with Ok x => Some x | Raise _ => None end.

(** The first number-like token anywhere in the response, else 0. *)
Definition salvage (response : string) : result Q :=
  match map Re.whole (Re.finditer SemanticScoringTool.re_number response) with
  | number :: _ => float_of_str number
  | [] => Ok 0%Q
  end.

Definition parse_error (e : string) : Q * string :=
  (0%Q, cat ["Error parsing response: "; e]).

Definition parser_spec (response : string) (max_score : Q) : Q * string :=
  match first_raise (score_texts response) with
  | Some e => parse_error e
  | None =>
      let found :=
        match List.last (map value_of (score_texts response)) None with
        | Some x => Ok x
        | None => salvage response
        end in
      match found with
      | Raise e => parse_error e
      | Ok x =>
          (py_max 0 (py_min x max_score),
           match List.last (map Some (explanation_texts response)) None with
           | Some e => if truthy e then e else strip response
           | None => strip response
           end)
      end
  end.

End Spec.

End ParserSpec.

(** The oracle calls of a scorer, in order, up to the first that raises. *)
Fixpoint ask_all {St : Type} (client : Client St) (prompts : list string) (st : St)
    : result (list string) * St :=
  match prompts with
  | [] => (Ok [], st)
  | prompt :: prompts' =>
      match client prompt 1024 st with
      | (Raise e, st') => (Raise e, st')
      | (Ok response, st') =>
          match ask_all client prompts' st' with
          | (Raise e, st'') => (Raise e, st'')
          | (Ok responses, st'') => (Ok (response :: responses), st'')
          end
      end
  end.

(** The prompts of the four semantic dimensions and of the three bonus
    dimensions, in the order of the calls. *)
Definition semantic_prompts (resume_text job_description job_title : string)
    (company_culture : option string) : list string :=
  let culture_context :=
    match company_culture with
    | Some culture =>
        if Py.truthy culture
        then Py.cat [Py.nl; "COMPANY CULTURE:"; Py.nl; culture] else EmptyString
    | None => EmptyString
    end in
  [ SemanticScoringTool.soft_skills_prompt job_title job_description resume_text;
    SemanticScoringTool.culture_fit_prompt job_description culture_context resume_text;
    SemanticScoringTool.growth_potential_prompt job_title resume_text;
    SemanticScoringTool.project_relevance_prompt job_description resume_text ].

Definition bonus_prompts (resume_text job_description job_title : string)
    (industry : option string) : list string :=
  let industry_context :=
    match industry with
    | Some name =>
        if Py.truthy name then Py.cat [Py.nl; "INDUSTRY: "; name] else EmptyString
    | None => EmptyString
    end in
  [ BonusScoringTool.industry_experience_prompt job_description industry_context resume_text;
    BonusScoringTool.rare_skills_prompt job_title job_description resume_text;
    BonusScoringTool.career_trajectory_prompt job_title resume_text ].

(** An oracle that is down, and the agent built on it. *)
Definition oracle_down : Client unit :=
  fun prompt max_tokens st => (Raise "oracle unavailable", st).


(** An oracle that answers every prompt with the same two lines, and an
    agent whose deterministic tool has no client and whose explainer has no
    oracle. *)
Definition oracle_canned : Client unit :=
  fun prompt max_tokens st =>
    (Ok (Py.unlines ["SCORE: 4"; "EXPLANATION: fine"]), st).

Definition agent_degraded : @ScoringAgent.agent unit :=
  ScoringAgent.mkAgent
    (DeterministicScoringTool.mkTool true None)
    (SemanticScoringTool.mkTool oracle_canned)
    (BonusScoringTool.mkTool oracle_canned)
    (ScoreExplainer.mkExplainer oracle_down).

(** A job of the fintech industry, and a search of a candidate who gave a
    resume and asked for another industry. *)
Definition fintech_job : ConversationalJobAgent.Job :=
  ConversationalJobAgent.mkJob (Some "Data Engineer") (Some "Acme") (Some "Paris")
    (Some 50000) (Some "fintech") (Some "Build data pipelines in python")
    (Some ["Python"; "SQL"]).

Definition health_search : ConversationalJobAgent.Collected :=
  ConversationalJobAgent.mkCollected (Some "Python developer, 2015-2024")
    (Some "health") None None.

(** The same candidate asking for the fintech industry, Paris and 45K. *)
Definition fintech_search : ConversationalJobAgent.Collected :=
  ConversationalJobAgent.mkCollected (Some "Python developer, 2015-2024")
    (Some "Fintech") (Some "paris") (Some "45K").

(** A breakdown of total 81. *)
Definition detail (score max_score : Q) : Models.ScoreDetail :=
  Models.mkScoreDetail score max_score EmptyString ∅.

Definition det_81 : Models.DeterministicScore :=
  Models.mkDeterministicScore (detail 12 15) (detail 10 10) (detail 5 5)
    (detail 5 5) (detail 5 5).

Definition sem_81 : Models.SemanticScore :=
  Models.mkSemanticScore (detail 9 15) (detail 8 10) (detail 8 10) (detail 2 5).

Definition bonus_81 : Models.BonusScore :=
  Models.mkBonusScore (detail 9 10) (detail 3 5) (detail 5 5).

(** The ratio and the name of a ranked dimension. *)
Definition ratio_of (s : Q * string * Q) : Q * string :=
  (fst (fst s) / snd s, snd (fst s))%Q.

(** Descending by ratio. *)
Definition ratio_ge (a b : Q * string) : Prop := (fst b <= fst a)%Q.

(** * Vocabulary of the further properties *)

(** A text without a decimal digit. *)
Fixpoint no_digit (s : string) : bool :=
  match s with
  | EmptyString => true
  | String c s' => negb (Py.is_digit c) && no_digit s'
  end.

(** A pattern that cannot match in a text without a digit. *)
Definition needs_digit (r : Re.regex) : Prop :=
  forall (R : Type) (c : Re.cursor) (caps : list string)
         (k : Re.cursor -> list string -> option R),
    no_digit (Re.rest c) = true -> Re.m r c caps k = None.

(** The step of the loop of [highest_level]. *)
Definition level_step (test : string -> bool) (best : Z * string) (entry : string * Z)
    : Z * string :=
  let '(degree, level) := entry in
  if test degree && (level >? fst best) then (level, Py.capitalize degree) else best.

(** A job dict holding the four keys the answer reads by item access. *)
Definition has_keys (job : ConversationalJobAgent.Job) : bool :=
  match ConversationalJobAgent.title job, ConversationalJobAgent.company job,
        ConversationalJobAgent.location job, ConversationalJobAgent.salary job with
  | Some _, Some _, Some _, Some _ => true
  | _, _, _, _ => false
  end.

(** The jobs the search keeps for a candidate, before any scoring. *)
Definition criteria_matches (job_database : list ConversationalJobAgent.Job)
    (collected : ConversationalJobAgent.Collected) : list ConversationalJobAgent.Job :=
  firstn 20 (List.filter
    (ConversationalJobAgent.passes_criteria
       (ConversationalJobAgent.c_industry collected)
       (ConversationalJobAgent.c_location collected)
       (ConversationalJobAgent.min_salary_of (ConversationalJobAgent.c_salary collected)))
    job_database).

(** Descending by quick score. *)
Definition score_ge (a b : ConversationalJobAgent.Job * Q) : Prop := (snd b <= snd a)%Q.

(** The entry of the answer built from [job] scored [quick]. *)
Definition entry_of {PF : PyFloat} (job : ConversationalJobAgent.Job) (quick : Q)
    (entry : ConversationalJobAgent.Scored) : Prop :=
  ConversationalJobAgent.title job = Some (ConversationalJobAgent.s_title entry)
  /\ ConversationalJobAgent.company job = Some (ConversationalJobAgent.s_company entry)
  /\ ConversationalJobAgent.location job = Some (ConversationalJobAgent.s_location entry)
  /\ ConversationalJobAgent.salary job = Some (ConversationalJobAgent.s_salary entry)
  /\ ConversationalJobAgent.s_industry entry
     = ConversationalJobAgent.get (ConversationalJobAgent.industry job) ""
  /\ ConversationalJobAgent.s_match_score entry = round_nd 1 quick
  /\ ConversationalJobAgent.s_deterministic entry = round_nd 1 (quick * (4 # 10))%Q
  /\ ConversationalJobAgent.s_semantic entry = round_nd 1 (quick * (4 # 10))%Q
  /\ ConversationalJobAgent.s_bonus entry = round_nd 1 (quick * (2 # 10))%Q
  /\ ConversationalJobAgent.using_advanced_scoring entry = false.

(** The messages of the [KeyError] raised for a job that lacks a key. *)
Definition key_errors : list string :=
  map (fun key => Py.cat ["KeyError: '"; key; "'"])
      ["title"; "company"; "location"; "salary"].

(** The keys of the dict of a session, and a dict that holds them. *)
Definition info_keys : list string :=
  ["resume_text"; "industry"; "location"; "salary"; "job_title_preference";
   "experience_level"].

Definition holds_keys (collected : SessionTools.Info) : bool :=
  forallb (fun key => match collected !! key with Some _ => true | None => false end)
          info_keys.


(** The entry of the profile kept under a key of the dict. *)
Definition profile_value (profile : SessionTools.Profile) (key : string) : option string :=
  if String.eqb key "industry" then SessionTools.industry profile
  else if String.eqb key "location" then SessionTools.location profile
  else if String.eqb key "salary" then SessionTools.salary profile
  else if String.eqb key "job_title_preference"
       then SessionTools.job_title_preference profile
  else if String.eqb key "experience_level" then SessionTools.experience_level profile
  else None.

(** The industry of an entry of an answer of the search. *)
Definition entry_industries (entries : ConversationalJobAgent.Entries) : list string :=
  match entries with
  | ConversationalJobAgent.ScoredJobs scored => map ConversationalJobAgent.s_industry scored
  | ConversationalJobAgent.BasicJobs basic => map ConversationalJobAgent.b_industry basic
  end.

(** The detail a semantic or bonus dimension builds from an answer. *)
Definition parsed_detail {PF : PyFloat} (response : string) (max_score : Q)
    : Models.ScoreDetail :=
  Models.mkScoreDetail
    (fst (SemanticScoringTool._parse_score_response response max_score)) max_score
    (snd (SemanticScoringTool._parse_score_response response max_score)) ∅.

(** * Properties *)

(** ** Computations in the monad *)

Section MonadLemmas.
Context {St : Type}.



Lemma bind_ok_inv {A B} (c : M St A) (f : A -> M St B) (st st' : St) (b : B) :
  bind c f st = (Ok b, st') -> exists a s1, c st = (Ok a, s1) /\ f a s1 = (Ok b, st').
Proof.
  unfold bind. destruct (c st) as [[a | e] s1]; [| discriminate].
  intros H. exists a, s1. split; [reflexivity | exact H].
Qed.


End MonadLemmas.

(** ** The skill matcher *)

(** The first requirement is not a substring of the text; its two words
    are, which is the second link of the chain. *)
Lemma permis_c_matches_by_words :
  Py.contains (Py.lower "Permis C") (Py.lower "Permis B, C, CE") = false
  /\ map Re.whole (Re.finditer DeterministicScoringTool.re_word_tokens "permis c")
     = ["permis"; "c"]
  /\ forallb (fun w => Py.contains w "permis b, c, ce") ["permis"; "c"] = true.
Proof. split; [| split]; vm_compute; reflexivity. Qed.

(** C7.  The matcher accepts the requirement "Permis C" against the text
    "Permis B, C, CE" and the requirement "FIMO" against "FIMO / FCO". *)
Theorem certification_requirements_match :
  DeterministicScoringTool._smart_skill_match "Permis C" "Permis B, C, CE" = true
  /\ DeterministicScoringTool._smart_skill_match "FIMO" "FIMO / FCO" = true.
Proof. split; vm_compute; reflexivity. Qed.

(** ** Experience from date ranges *)

Section DateRanges.
Import DeterministicScoringTool.

Lemma fold_patterns {S : Type} (f : S -> list string -> S)
    (patterns : list Re.regex) (text : string) (st : S) :
  fold_left (fun st pattern => fold_left f (findall pattern text) st) patterns st
  = fold_left (fun st ms => fold_left f ms st)
              (map (fun pattern => findall pattern text) patterns) st.
Proof.
  revert st. induction patterns as [|p ps IH]; intros st; simpl; [reflexivity|].
  apply IH.
Qed.

(** The function in terms of the matches of the four patterns. *)
Lemma extract_by_matches (cy : Z) (text : string) :
  _extract_experience_from_dates cy text
  = fst (fold_left (fun st ms => fold_left (count_ongoing cy) ms st)
           (map (fun p => findall p text) ongoing_patterns)
           (fold_left (fun st ms => fold_left (count_range cy) ms st)
              (map (fun p => findall p text) date_range_patterns) (0, ∅))).
Proof.
  unfold _extract_experience_from_dates. rewrite !fold_patterns. reflexivity.
Qed.

Lemma count_range_fresh (cy t : Z) (found : gset (Z * Z)) (m : list string) (s e : Z) :
  year_at 0 m = s -> year_at 1 m = e ->
  1950 <= s <= cy -> s <= e <= cy + 1 -> (s, e) ∉ found ->
  count_range cy (t, found) m = (t + (e - s), {[ (s, e) ]} ∪ found).
Proof.
  intros Hs He [H1 H2] [H3 H4] Hnew. unfold count_range. rewrite Hs, He.
  replace (1950 <=? s) with true by (symmetry; apply Z.leb_le; lia).
  replace (s <=? cy) with true by (symmetry; apply Z.leb_le; lia).
  replace (s <=? e) with true by (symmetry; apply Z.leb_le; lia).
  replace (e <=? cy + 1) with true by (symmetry; apply Z.leb_le; lia).
  cbn [andb]. rewrite bool_decide_eq_false_2 by exact Hnew. reflexivity.
Qed.

Lemma count_range_seen (cy t : Z) (found : gset (Z * Z)) (m : list string) (s e : Z) :
  year_at 0 m = s -> year_at 1 m = e -> (s, e) ∈ found ->
  count_range cy (t, found) m = (t, found).
Proof.
  intros Hs He Hin. unfold count_range. rewrite Hs, He.
  rewrite bool_decide_eq_true_2 by exact Hin.
  destruct (_ && _); reflexivity.
Qed.

Lemma count_ongoing_fresh (cy t : Z) (m : list string) (s : Z) :
  year_at 0 m = s -> 1950 <= s <= cy ->
  count_ongoing cy (t, ∅) m = (t + (cy - s), {[ (s, cy) ]} ∪ ∅).
Proof.
  intros Hs [H1 H2]. unfold count_ongoing. rewrite Hs.
  replace (1950 <=? s) with true by (symmetry; apply Z.leb_le; lia).
  replace (s <=? cy) with true by (symmetry; apply Z.leb_le; lia).
  cbn [andb]. rewrite elements_empty. reflexivity.
Qed.

(** The matches of the patterns in the four texts. *)
Lemma matches_single :
  map (fun p => findall p "2015-2024") date_range_patterns = [[["2015"; "2024"]]; []]
  /\ map (fun p => findall p "2015-2024") ongoing_patterns = [[]; []].
Proof. split; vm_compute; reflexivity. Qed.

Lemma matches_depuis :
  map (fun p => findall p "Depuis 2015") date_range_patterns = [[]; []]
  /\ map (fun p => findall p "Depuis 2015") ongoing_patterns = [[["2015"]]; []].
Proof. split; vm_compute; reflexivity. Qed.

Lemma matches_twice :
  map (fun p => findall p "2015-2024, 2015-2024") date_range_patterns
  = [[["2015"; "2024"]; ["2015"; "2024"]]; []]
  /\ map (fun p => findall p "2015-2024, 2015-2024") ongoing_patterns = [[]; []].
Proof. split; vm_compute; reflexivity. Qed.

Lemma matches_overlap :
  map (fun p => findall p "2015-2024, 2016-2024") date_range_patterns
  = [[["2015"; "2024"]; ["2016"; "2024"]]; []]
  /\ map (fun p => findall p "2015-2024, 2016-2024") ongoing_patterns = [[]; []].
Proof. split; vm_compute; reflexivity. Qed.

End DateRanges.

(** C3, as the claim states it, at the reference year 2024: the same range
    mentioned twice counts 9 years, not 18. *)
Lemma duplicate_range_counted_once :
  DeterministicScoringTool._extract_experience_from_dates 2024 "2015-2024, 2015-2024" = 9
  /\ DeterministicScoringTool._extract_experience_from_dates 2024 "2015-2024, 2015-2024"
     <> 18.
Proof. split; vm_compute; [reflexivity | discriminate]. Qed.

(** C3, amended.  For a reference year from 2023 on: the text "2015-2024"
    gives 9; "Depuis 2015" gives the years since 2015, 9 at the reference
    year 2024; the range 2015-2024 mentioned twice gives 9, the pair being
    counted once; two distinct overlapping ranges are summed, not merged:
    2015-2024 and 2016-2024 give 17. *)
Theorem extract_years_sums_distinct_ranges (cy : Z) (Hcy : 2023 <= cy) :
  DeterministicScoringTool._extract_experience_from_dates cy "2015-2024" = 9
  /\ DeterministicScoringTool._extract_experience_from_dates cy "Depuis 2015" = cy - 2015
  /\ DeterministicScoringTool._extract_experience_from_dates 2024 "Depuis 2015" = 9
  /\ DeterministicScoringTool._extract_experience_from_dates cy "2015-2024, 2015-2024" = 9
  /\ DeterministicScoringTool._extract_experience_from_dates cy "2015-2024, 2016-2024" = 17.
Proof.
  split; [| split; [| split; [| split]]].
  - rewrite extract_by_matches. destruct matches_single as [-> ->]. cbn [fold_left].
    rewrite (count_range_fresh cy 0 ∅ _ 2015 2024);
      [reflexivity | reflexivity | reflexivity | lia | lia | set_solver].
  - rewrite extract_by_matches. destruct matches_depuis as [-> ->]. cbn [fold_left].
    rewrite (count_ongoing_fresh cy 0 _ 2015); [reflexivity | reflexivity | lia].
  - vm_compute. reflexivity.
  - rewrite extract_by_matches. destruct matches_twice as [-> ->]. cbn [fold_left].
    rewrite (count_range_fresh cy 0 ∅ _ 2015 2024);
      [| reflexivity | reflexivity | lia | lia | set_solver].
    rewrite (count_range_seen cy _ _ _ 2015 2024);
      [reflexivity | reflexivity | reflexivity | set_solver].
  - rewrite extract_by_matches. destruct matches_overlap as [-> ->]. cbn [fold_left].
    rewrite (count_range_fresh cy 0 ∅ _ 2015 2024);
      [| reflexivity | reflexivity | lia | lia | set_solver].
    rewrite (count_range_fresh cy _ _ _ 2016 2024);
      [reflexivity | reflexivity | reflexivity | lia | lia |].
    intros [Hin%elem_of_singleton | Hin%elem_of_empty]%elem_of_union;
      [discriminate Hin | exact Hin].
Qed.

Lemma extract_years_at_2024 :
  2023 <= 2024
  /\ DeterministicScoringTool._extract_experience_from_dates 2024 "2015-2024, 2016-2024" = 17.
Proof.
  split; [lia | apply (extract_years_sums_distinct_ranges 2024); lia].
Defined.

(** ** The experience band *)

Section ExperienceYears.
Context {PF : PyFloat} {St : Type}.
Import Models.

Lemma experience_band_within (c r : Z) :
  (0 <= fst (DeterministicScoringTool.experience_band c r) <= 10)%Q.
Proof.
  unfold DeterministicScoringTool.experience_band.
  destruct (Z.geb_spec c r) as [Hge | Hlt].
  - destruct (c <=? r + 5); [| destruct (c <=? r + 10); [| destruct (c <=? r + 15)]];
      cbn [fst]; split; discriminate.
  - cbn [fst]. unfold Zq, Qle. cbn. lia.
Qed.

Lemma experience_detail_within (self : @DeterministicScoringTool.tool St)
    current_year resume_text job_description job_title st sd st' :
  DeterministicScoringTool._score_experience_years self current_year resume_text
    job_description job_title st = (Ok sd, st') ->
  detail_within 10 sd
  /\ exists c r,
       score sd = fst (DeterministicScoringTool.experience_band c r)
       /\ metadata sd !! "resume_years" = Some (MInt c)
       /\ metadata sd !! "required_years" = Some (MInt r).
Proof.
  unfold DeterministicScoringTool._score_experience_years.
  intros H. apply bind_ok_inv in H as ([[resume_years semantic_explanation] using_semantic]
                                        & s1 & _ & H).
  cbv beta iota zeta in H.
  match type of H with
  | context [DeterministicScoringTool.experience_band ?c ?r] =>
      set (required_years := r) in H;
      pose proof (experience_band_within c required_years) as Hband;
      assert (Hscore : fst (DeterministicScoringTool.experience_band c required_years)
                       = fst (DeterministicScoringTool.experience_band c required_years))
        by reflexivity;
      destruct (DeterministicScoringTool.experience_band c required_years)
        as [band_score base] in H, Hband, Hscore at 1
  end.
  unfold ret in H. injection H as <- _.
  split; [split; [reflexivity | exact Hband] |].
  exists resume_years, required_years. split; [exact Hscore |].
  cbn [metadata list_to_map foldr uncurry fst snd].
  split; [apply lookup_insert_eq |].
  rewrite lookup_insert_ne by discriminate. apply lookup_insert_eq.
Qed.


End ExperienceYears.



(** ** Salary fit *)



(** ** The deterministic stage *)

Section DeterministicStage.
Context {PF : PyFloat} {St : Type}.



End DeterministicStage.

(** ** Comparisons and bounds on rationals *)

Lemma Qltb_lt (a b : Q) : Qltb a b = true <-> (a < b)%Q.
Proof.
  unfold Qltb. rewrite negb_true_iff. split.
  - intros H. apply Qnot_le_lt. intros Hle. apply Qle_bool_iff in Hle. congruence.
  - intros H. destruct (Qle_bool b a) eqn:E; [| reflexivity].
    apply Qle_bool_iff in E. exfalso. exact (Qlt_not_le _ _ H E).
Qed.

Lemma Qltb_ge (a b : Q) : Qltb a b = false <-> (b <= a)%Q.
Proof.
  unfold Qltb. rewrite negb_false_iff. apply Qle_bool_iff.
Qed.

Lemma Qgeb_ge (a b : Q) : Qgeb a b = true <-> (b <= a)%Q.
Proof. apply Qle_bool_iff. Qed.

Lemma Qgeb_lt (a b : Q) : Qgeb a b = false <-> (a < b)%Q.
Proof.
  unfold Qgeb. split.
  - intros H. apply Qnot_le_lt. intros Hle. apply Qle_bool_iff in Hle. congruence.
  - intros H. destruct (Qle_bool b a) eqn:E; [| reflexivity].
    apply Qle_bool_iff in E. exfalso. exact (Qlt_not_le _ _ H E).
Qed.

Lemma py_min_bounds (lo a b : Q) :
  (lo <= a)%Q -> (lo <= b)%Q -> (lo <= py_min a b <= a)%Q.
Proof.
  intros Ha Hb. unfold py_min. destruct (Qltb b a) eqn:E.
  - apply Qltb_lt in E. split; [exact Hb | apply Qlt_le_weak; exact E].
  - split; [exact Ha | apply Qle_refl].
Qed.

Lemma py_min_le_r (a b : Q) : (py_min a b <= b)%Q.
Proof.
  unfold py_min. destruct (Qltb b a) eqn:E; [apply Qle_refl |].
  apply Qltb_ge in E. exact E.
Qed.

Lemma py_max_bounds (a b hi : Q) :
  (a <= hi)%Q -> (b <= hi)%Q -> (a <= py_max a b <= hi)%Q.
Proof.
  intros Ha Hb. unfold py_max. destruct (Qltb a b) eqn:E.
  - apply Qltb_lt in E. split; [apply Qlt_le_weak; exact E | exact Hb].
  - split; [apply Qle_refl | exact Ha].
Qed.

Lemma natq_nonneg (n : nat) : (0 <= natq n)%Q.
Proof. unfold natq, Qle. cbn. lia. Qed.

Lemma natq_ratio_nonneg (m n : nat) : (0 <= natq m / natq n)%Q.
Proof.
  unfold Qdiv. apply Qmult_le_0_compat; [apply natq_nonneg |].
  apply Qinv_le_0_compat, natq_nonneg.
Qed.

(** ** The quick score of the triage *)

Section QuickScore.
Import ConversationalJobAgent.

Lemma quick_score_range (resume : string) (job : Job) :
  (50 <= _quick_score resume job <= 100)%Q.
Proof.
  unfold _quick_score.
  set (reqs := get (requirements job) []).
  set (matched := length (List.filter _ reqs)).
  set (common := size _).
  pose proof (natq_ratio_nonneg matched (length reqs)) as Hreq.
  pose proof (natq_nonneg common) as Hcommon.
  assert (Hdesc : (0 <= py_min 20 (natq common * (5 # 10)))%Q).
  { apply py_min_bounds; [discriminate | lra]. }
  split.
  - apply py_min_bounds; [discriminate |].
    destruct (0 <? length reqs)%nat, (0 <? common)%nat; lra.
  - pose proof (py_min_bounds 0 100
      (if (0 <? common)%nat
       then (if (0 <? length reqs)%nat
             then 50 + natq matched / natq (length reqs) * 30 else 50)
            + py_min 20 (natq common * (5 # 10))
       else if (0 <? length reqs)%nat
            then 50 + natq matched / natq (length reqs) * 30 else 50)%Q) as H.
    apply H; [discriminate |].
    destruct (0 <? length reqs)%nat, (0 <? common)%nat; lra.
Qed.

End QuickScore.

Lemma quick_filter_keeps_all (resume : string) (jobs : list ConversationalJobAgent.Job) :
  ConversationalJobAgent.quick_filter resume jobs
  = map (fun j => (j, ConversationalJobAgent._quick_score resume j)) jobs.
Proof.
  unfold ConversationalJobAgent.quick_filter.
  induction jobs as [| j jobs IH]; [reflexivity |].
  cbn [map List.filter snd].
  replace (Qgeb (ConversationalJobAgent._quick_score resume j) 45) with true.
  - f_equal. exact IH.
  - symmetry. apply Qgeb_ge.
    pose proof (quick_score_range resume j) as [H _]. lra.
Qed.

(** C9.  The quick score lies between 50 and 100, so it reaches the filter
    threshold of 45 for every resume and job; the quick filter keeps every
    job it is given. *)
Theorem quick_score_never_filtered (resume : string) (job : ConversationalJobAgent.Job) :
  (50 <= ConversationalJobAgent._quick_score resume job <= 100)%Q
  /\ Qgeb (ConversationalJobAgent._quick_score resume job) 45 = true
  /\ forall jobs,
       ConversationalJobAgent.quick_filter resume jobs
       = map (fun j => (j, ConversationalJobAgent._quick_score resume j)) jobs.
Proof.
  split; [apply quick_score_range |]. split.
  - apply Qgeb_ge. pose proof (quick_score_range resume job) as [H _]. lra.
  - intros jobs. apply quick_filter_keeps_all.
Qed.

(** ** The parser of the oracle's answers *)

Section Parser.
Context {PF : PyFloat}.
Import Py ParserSpec.

Lemma last_cons {A} (a d : A) (l : list A) : List.last (a :: l) d = List.last l a.
Proof.
  revert a d. induction l as [| b l IH]; intros a d; [reflexivity |].
  change (List.last (a :: b :: l) d) with (List.last (b :: l) d).
  rewrite (IH b d), (IH b a). reflexivity.
Qed.

Lemma score_line_not_explanation (line : string) :
  startswith "SCORE:" line = true -> startswith "EXPLANATION:" line = false.
Proof.
  destruct line as [| c line]; [discriminate |]. cbn [startswith].
  destruct (Ascii.eqb_spec "S" c) as [<- |]; [reflexivity | discriminate].
Qed.

(** The loop over the lines: it stops at the first SCORE: line that is not
    a number, and otherwise keeps the last score and the last explanation. *)
Lemma parse_lines_last (lines : list string) (s0 : option Q) (e0 : option string) :
  SemanticScoringTool.parse_lines lines (s0, e0)
  = match first_raise (map score_text (List.filter (startswith "SCORE:") lines)) with
    | Some e => Raise e
    | None =>
        Ok (List.last (map value_of (map score_text
                    (List.filter (startswith "SCORE:") lines))) s0,
            List.last (map Some (map explanation_text
                    (List.filter (startswith "EXPLANATION:") lines))) e0)
    end.
Proof.
  revert s0 e0. induction lines as [| line lines IH]; intros s0 e0; [reflexivity |].
  cbn [SemanticScoringTool.parse_lines SemanticScoringTool.parse_line List.filter].
  destruct (startswith "SCORE:" line) eqn:Hs.
  - rewrite (score_line_not_explanation line Hs).
    cbn [map first_raise]. fold (score_text line).
    destruct (float_of_str (score_text line)) as [x | e] eqn:Hf; [| reflexivity].
    rewrite IH, last_cons.
    replace (value_of (score_text line)) with (Some x)
      by (unfold value_of; rewrite Hf; reflexivity).
    reflexivity.
  - destruct (startswith "EXPLANATION:" line) eqn:He.
    + rewrite IH. cbn [map]. fold (explanation_text line).
      rewrite last_cons. reflexivity.
    + apply IH.
Qed.

Lemma parse_score_response_spec (response : string) (max_score : Q) :
  SemanticScoringTool._parse_score_response response max_score
  = parser_spec response max_score.
Proof.
  unfold SemanticScoringTool._parse_score_response, SemanticScoringTool.parse_body,
    parser_spec, score_texts, explanation_texts, response_lines, salvage, parse_error.
  rewrite parse_lines_last.
  destruct (first_raise _) as [e |]; [reflexivity |].
  destruct (List.last (map value_of _) None) as [x |].
  - reflexivity.
  - destruct (map Re.whole _) as [| number rest]; [reflexivity |].
    destruct (float_of_str number); reflexivity.
Qed.

Lemma bonus_parser_is_semantic_parser (response : string) (max_score : Q) :
  BonusScoringTool._parse_score_response response max_score
  = SemanticScoringTool._parse_score_response response max_score.
Proof. reflexivity. Qed.

Lemma clamp_within (x max_score : Q) :
  (0 <= max_score)%Q -> (0 <= py_max 0 (py_min x max_score) <= max_score)%Q.
Proof.
  intros Hmax. apply py_max_bounds; [exact Hmax | apply py_min_le_r].
Qed.

Lemma parser_spec_within (response : string) (max_score : Q) :
  (0 <= max_score)%Q ->
  (0 <= fst (parser_spec response max_score) <= max_score)%Q.
Proof.
  intros Hmax. unfold parser_spec, parse_error.
  destruct (first_raise _); [cbn [fst]; split; [apply Qle_refl | exact Hmax] |].
  destruct (match List.last _ None with Some x => Ok x | None => _ end);
    cbn [fst]; [apply clamp_within; exact Hmax | split; [apply Qle_refl | exact Hmax]].
Qed.

End Parser.

(** C4, as the claim states it, with the plain reading of floats: of two
    SCORE: lines the last one gives the score, not the first; a SCORE: line
    that is not a number gives score 0 with an error text as explanation,
    although the response holds a number and no EXPLANATION: line; without
    an EXPLANATION: line the explanation is the stripped response, not the
    raw one. *)
Lemma parser_takes_last_score_line :
  ParserSpec.value_of (PF := PlainFloat.plain) (ParserSpec.score_text "SCORE: 3") = Some 3%Q
  /\ SemanticScoringTool._parse_score_response (PF := PlainFloat.plain)
       (Py.unlines ["SCORE: 3"; "SCORE: 7"]) 10
     = (7%Q, Py.unlines ["SCORE: 3"; "SCORE: 7"])
  /\ SemanticScoringTool._parse_score_response (PF := PlainFloat.plain)
       "SCORE: about 8" 10
     = (0%Q, "Error parsing response: could not convert string to float: 'about 8'")
  /\ SemanticScoringTool._parse_score_response (PF := PlainFloat.plain)
       "  worth 6 points  " 10
     = (6%Q, "worth 6 points").
Proof. split; [| split; [| split]]; vm_compute; reflexivity. Qed.

(** C4, amended.  For every response and maximum, for both tools: every
    line of the stripped response that starts with SCORE: is converted (the
    marker removed, stripped, cut at the first slash, stripped), and the
    last of them gives the score; if one of them is not a number the result
    is score 0 with the explanation "Error parsing response: " followed by
    the exception; without a SCORE: line the first number-like token of the
    response gives the score, and 0 if there is none; the score is clamped
    to [0, max] when max is not negative; the explanation is the text of
    the last EXPLANATION: line, or the stripped response when there is none
    or it is empty. *)
Theorem parser_reads_last_score_and_clamps {PF : PyFloat} (response : string)
    (max_score : Q) :
  SemanticScoringTool._parse_score_response response max_score
  = ParserSpec.parser_spec response max_score
  /\ BonusScoringTool._parse_score_response response max_score
     = ParserSpec.parser_spec response max_score
  /\ ((0 <= max_score)%Q ->
      (0 <= fst (SemanticScoringTool._parse_score_response response max_score)
       <= max_score)%Q).
Proof.
  split; [apply parse_score_response_spec |]. split.
  - rewrite bonus_parser_is_semantic_parser. apply parse_score_response_spec.
  - intros Hmax. rewrite parse_score_response_spec.
    apply parser_spec_within. exact Hmax.
Qed.

Lemma parser_clamps_at_15 :
  (0 <= 15)%Q
  /\ (0 <= fst (SemanticScoringTool._parse_score_response (PF := PlainFloat.plain)
                  "I would give 42 points" 15) <= 15)%Q.
Proof.
  split; [discriminate |].
  apply (parser_reads_last_score_and_clamps (PF := PlainFloat.plain)
           "I would give 42 points" 15).
  discriminate.
Defined.

(** ** Oracle failures in the semantic and bonus scorers *)

Section OracleFailure.
Context {PF : PyFloat} {St : Type}.

(** A dimension scorer: one oracle call, then the parser. *)
Lemma semantic_dimension (client : Client St) (prompt : string) (mx : Q) (st : St) :
  bind (SemanticScoringTool._call_claude (SemanticScoringTool.mkTool client) prompt 1024)
       (fun response =>
          let '(score, explanation) :=
            SemanticScoringTool._parse_score_response response mx in
          ret (Models.mkScoreDetail score mx explanation ∅)) st
  = match client prompt 1024 st with
    | (Ok response, st') =>
        (Ok (Models.mkScoreDetail
               (fst (SemanticScoringTool._parse_score_response response mx)) mx
               (snd (SemanticScoringTool._parse_score_response response mx)) ∅), st')
    | (Raise e, st') => (Raise e, st')
    end.
Proof.
  unfold bind, SemanticScoringTool._call_claude, try_except, raise, ret.
  cbn [SemanticScoringTool.client].
  destruct (client prompt 1024 st) as [[response | e] st']; [| reflexivity].
  destruct (SemanticScoringTool._parse_score_response response mx). reflexivity.
Qed.

Lemma bonus_dimension (client : Client St) (prompt : string) (mx : Q) (st : St) :
  bind (BonusScoringTool._call_claude (BonusScoringTool.mkTool client) prompt 1024)
       (fun response =>
          let '(score, explanation) :=
            BonusScoringTool._parse_score_response response mx in
          ret (Models.mkScoreDetail score mx explanation ∅)) st
  = match client prompt 1024 st with
    | (Ok response, st') =>
        (Ok (Models.mkScoreDetail
               (fst (BonusScoringTool._parse_score_response response mx)) mx
               (snd (BonusScoringTool._parse_score_response response mx)) ∅), st')
    | (Raise e, st') => (Raise e, st')
    end.
Proof.
  unfold bind, BonusScoringTool._call_claude, try_except, raise, ret.
  cbn [BonusScoringTool.client].
  destruct (client prompt 1024 st) as [[response | e] st']; [| reflexivity].
  destruct (BonusScoringTool._parse_score_response response mx). reflexivity.
Qed.




End OracleFailure.




(** ** The triage without candidates *)

(** A search that keeps a job: the quick score is 50, plus 15 for one
    requirement of two, plus 0.5 for one common word; the advanced score
    falls back to it. *)
Example search_scores_the_kept_job :
  (ConversationalJobAgent._quick_score "Python developer, 2015-2024" fintech_job
   == 65.5)%Q
  /\ exists entry,
       ConversationalJobAgent.search_matching_jobs (PF := PlainFloat.plain)
         [fintech_job] true fintech_search
       = Ok (ConversationalJobAgent.Matches 1 (ConversationalJobAgent.ScoredJobs [entry]))
       /\ ConversationalJobAgent.s_title entry = "Data Engineer"
       /\ (ConversationalJobAgent.s_match_score entry == 65.5)%Q
       /\ ConversationalJobAgent.using_advanced_scoring entry = false.
Proof.
  split; [vm_compute; reflexivity |].
  eexists. split; [vm_compute; reflexivity |].
  split; [reflexivity | split; [vm_compute; reflexivity | reflexivity]].
Qed.

(** C2, as the claim states it: a resume is present, the database holds a
    job, no job passes the quick filter, and the answer is the empty one;
    nothing of the database is scored. *)
Lemma search_returns_empty_without_fallback :
  ConversationalJobAgent.resume_text health_search = Some "Python developer, 2015-2024"
  /\ ConversationalJobAgent.quick_filter "Python developer, 2015-2024"
       (firstn 20 (List.filter
          (ConversationalJobAgent.passes_criteria (Some "health") None None)
          [fintech_job])) = []
  /\ ConversationalJobAgent.search_matching_jobs (PF := PlainFloat.plain)
       [fintech_job] true health_search
     = Ok (ConversationalJobAgent.NoMatch 0
             "No matching jobs found. Try broadening your criteria.").
Proof. split; [| split]; vm_compute; reflexivity. Qed.

(** C2, amended.  When a resume text is present and no job passes the quick
    filter, nothing is deep-scored and the answer is the empty one, of count
    0; the search has no fallback to the unfiltered jobs.  The quick filter
    keeping every job, this is the case exactly when no job of the database
    meets the search criteria. *)
Theorem search_without_candidates_is_empty {PF : PyFloat}
    (job_database : list ConversationalJobAgent.Job) (scorer_loaded : bool)
    (collected : ConversationalJobAgent.Collected) (resume : string) :
  let matched_jobs :=
    firstn 20 (List.filter
      (ConversationalJobAgent.passes_criteria
         (ConversationalJobAgent.c_industry collected)
         (ConversationalJobAgent.c_location collected)
         (ConversationalJobAgent.min_salary_of (ConversationalJobAgent.c_salary collected)))
      job_database) in
  ConversationalJobAgent.some_truthy (ConversationalJobAgent.resume_text collected)
  = Some resume ->
  ConversationalJobAgent.quick_filter resume matched_jobs = [] ->
  ConversationalJobAgent.search_matching_jobs job_database scorer_loaded collected
  = Ok (ConversationalJobAgent.NoMatch 0
          "No matching jobs found. Try broadening your criteria.")
  /\ matched_jobs = [].
Proof.
  intros matched_jobs Hresume Hnone. split.
  - unfold ConversationalJobAgent.search_matching_jobs.
    rewrite Hresume. fold matched_jobs. rewrite Hnone. reflexivity.
  - rewrite quick_filter_keeps_all in Hnone.
    destruct matched_jobs; [reflexivity | discriminate Hnone].
Qed.

Lemma search_without_candidates_health :
  ConversationalJobAgent.some_truthy (ConversationalJobAgent.resume_text health_search)
  = Some "Python developer, 2015-2024"
  /\ ConversationalJobAgent.search_matching_jobs (PF := PlainFloat.plain)
       [fintech_job] true health_search
     = Ok (ConversationalJobAgent.NoMatch 0
             "No matching jobs found. Try broadening your criteria.").
Proof.
  split; [reflexivity |].
  apply (search_without_candidates_is_empty (PF := PlainFloat.plain)
           [fintech_job] true health_search "Python developer, 2015-2024");
    vm_compute; reflexivity.
Defined.

(** ** The fallback explanation *)

Section Fallback.
Import ScoreExplainer.

Lemma pair_ltb_ratio (x y : Q * string) : pair_ltb x y = true -> ratio_ge y x.
Proof.
  unfold pair_ltb, ratio_ge. intros H. apply orb_true_iff in H as [H | H].
  - apply Qltb_lt in H. apply Qlt_le_weak. exact H.
  - apply andb_true_iff in H as [H _]. apply Qeq_bool_iff in H.
    rewrite H. apply Qle_refl.
Qed.

Lemma not_pair_ltb_ratio (x y : Q * string) : pair_ltb x y = false -> ratio_ge x y.
Proof.
  unfold pair_ltb, ratio_ge. intros H. apply orb_false_iff in H as [H _].
  apply Qltb_ge in H. exact H.
Qed.

Lemma insert_desc_perm (x : Q * string) (l : list (Q * string)) :
  Permutation (insert_desc x l) (x :: l).
Proof.
  induction l as [| y l IH]; [apply Permutation_refl |].
  cbn [insert_desc]. destruct (pair_ltb x y); [| apply Permutation_refl].
  eapply perm_trans; [apply perm_skip, IH | apply perm_swap].
Qed.

Lemma sort_desc_perm (l : list (Q * string)) : Permutation (sort_desc l) l.
Proof.
  induction l as [| x l IH]; [apply perm_nil |].
  cbn [sort_desc fold_right]. fold (sort_desc l).
  eapply perm_trans; [apply insert_desc_perm | apply perm_skip, IH].
Qed.

Lemma insert_desc_hd (z x : Q * string) (l : list (Q * string)) :
  ratio_ge z x -> HdRel ratio_ge z l -> HdRel ratio_ge z (insert_desc x l).
Proof.
  intros Hzx Hzl. destruct l as [| y l]; cbn [insert_desc]; [constructor; exact Hzx |].
  destruct (pair_ltb x y); constructor; [| exact Hzx].
  inversion Hzl; assumption.
Qed.

Lemma insert_desc_sorted (x : Q * string) (l : list (Q * string)) :
  Sorted ratio_ge l -> Sorted ratio_ge (insert_desc x l).
Proof.
  induction l as [| y l IH]; intros Hs; cbn [insert_desc].
  - constructor; constructor.
  - destruct (pair_ltb x y) eqn:E.
    + inversion Hs as [| ? ? Hl Hy]; subst. constructor; [apply IH; exact Hl |].
      apply insert_desc_hd; [apply pair_ltb_ratio; exact E | exact Hy].
    + constructor; [exact Hs |]. constructor. apply not_pair_ltb_ratio. exact E.
Qed.

Lemma sort_desc_sorted (l : list (Q * string)) : Sorted ratio_ge (sort_desc l).
Proof.
  induction l as [| x l IH]; [constructor |].
  cbn [sort_desc fold_right]. fold (sort_desc l).
  apply insert_desc_sorted. exact IH.
Qed.

Lemma fallback_quality_bands (total : Q) :
  ((80 <= total)%Q -> fallback_quality total = "Excellent")
  /\ ((65 <= total < 80)%Q -> fallback_quality total = "Good")
  /\ ((50 <= total < 65)%Q -> fallback_quality total = "Moderate")
  /\ ((total < 50)%Q -> fallback_quality total = "Weak").
Proof.
  unfold fallback_quality.
  destruct (Qgeb total 80) eqn:E80;
    [apply Qgeb_ge in E80 | apply Qgeb_lt in E80];
  (destruct (Qgeb total 65) eqn:E65;
    [apply Qgeb_ge in E65 | apply Qgeb_lt in E65]);
  (destruct (Qgeb total 50) eqn:E50;
    [apply Qgeb_ge in E50 | apply Qgeb_lt in E50]);
  (split; [| split; [| split]]); intros H; try reflexivity; exfalso; lra.
Qed.

Lemma fallback_percentages_ranked (det : Models.DeterministicScore)
    (sem : Models.SemanticScore) (bonus : Models.BonusScore) :
  exists p1 p2 p3 p4 p5,
    fallback_percentages det sem bonus = [p1; p2; p3; p4; p5]
    /\ Permutation [p1; p2; p3; p4; p5] (map ratio_of (fallback_scores det sem bonus))
    /\ (fst p5 <= fst p4 /\ fst p4 <= fst p3 /\ fst p3 <= fst p2 /\ fst p2 <= fst p1)%Q.
Proof.
  pose proof (sort_desc_perm (map ratio_of (fallback_scores det sem bonus))) as Hperm.
  pose proof (sort_desc_sorted (map ratio_of (fallback_scores det sem bonus))) as Hsorted.
  change (fallback_percentages det sem bonus)
    with (sort_desc (map ratio_of (fallback_scores det sem bonus))).
  assert (Hlen : length (sort_desc (map ratio_of (fallback_scores det sem bonus)))
                 = 5%nat)
    by (rewrite (Permutation_length Hperm); reflexivity).
  destruct (sort_desc (map ratio_of (fallback_scores det sem bonus)))
    as [| p1 [| p2 [| p3 [| p4 [| p5 [| p6 rest]]]]]]; try discriminate Hlen.
  exists p1, p2, p3, p4, p5. split; [reflexivity |]. split; [exact Hperm |].
  repeat match goal with
         | H : Sorted _ (_ :: _) |- _ => inversion H; subst; clear H
         | H : HdRel _ _ (_ :: _) |- _ => inversion H; subst; clear H
         end.
  unfold ratio_ge in *. repeat split; assumption.
Qed.

End Fallback.

(** C8, as the claim states it, with the plain reading of floats, on a
    breakdown of total 81: the label is the one of the top tier although 81
    is in the second band of the recommendation; 76, in the same band, gets
    another label; education, at its maximum, is above the dimension named
    second, and project relevance, the lowest ratio, is not named. *)
Lemma fallback_label_and_ranking_at_81 :
  (Models.total_score (Models.mkScoreBreakdown det_81 sem_81 bonus_81) == 81)%Q
  /\ ScoreExplainer._fallback_explanation (PF := PlainFloat.plain) 81 det_81 sem_81 bonus_81
     = "Excellent candidate with 81/100. Strong experience and skills. Could improve soft skills and rare skills."
  /\ ScoreExplainer._generate_recommendation 81 [] []
     = "Recommended - Strong candidate, proceed to interview"
  /\ ScoreExplainer._generate_recommendation 76 [] []
     = "Recommended - Strong candidate, proceed to interview"
  /\ ScoreExplainer.fallback_quality 76 = "Good"
  /\ (Models.score (Models.skills_matching det_81) / 15
      < Models.score (Models.education_match det_81) / 5)%Q
  /\ (Models.score (Models.project_relevance sem_81) / 5
      < Models.score (Models.rare_skills_premium bonus_81) / 5)%Q.
Proof.
  split; [reflexivity |].
  do 4 (split; [vm_compute; reflexivity |]).
  split; reflexivity.
Qed.

(** C8, amended.  The fallback explanation takes its label from bands of
    its own on the total, at least 80 Excellent, at least 65 Good, at least
    50 Moderate, else Weak, where the recommendation has the bands 85, 75, 65
    and 50; it ranks five dimensions only, skills, experience, soft skills,
    culture fit and rare skills, by their ratio of score to maximum, and
    names the two highest of these as strengths and the two lowest as
    areas to improve. *)
Theorem fallback_explanation_ranks_five {PF : PyFloat} (total : Q)
    (det : Models.DeterministicScore) (sem : Models.SemanticScore)
    (bonus : Models.BonusScore) :
  (((80 <= total)%Q -> ScoreExplainer.fallback_quality total = "Excellent")
   /\ ((65 <= total < 80)%Q -> ScoreExplainer.fallback_quality total = "Good")
   /\ ((50 <= total < 65)%Q -> ScoreExplainer.fallback_quality total = "Moderate")
   /\ ((total < 50)%Q -> ScoreExplainer.fallback_quality total = "Weak"))
  /\ exists p1 p2 p3 p4 p5,
       Permutation [p1; p2; p3; p4; p5]
         (map ratio_of (ScoreExplainer.fallback_scores det sem bonus))
       /\ (fst p5 <= fst p4 /\ fst p4 <= fst p3 /\ fst p3 <= fst p2 /\ fst p2 <= fst p1)%Q
       /\ ScoreExplainer._fallback_explanation total det sem bonus
          = Py.cat [ScoreExplainer.fallback_quality total; " candidate with ";
                    fmt_f 0 total; "/100. ";
                    "Strong "; Py.join " and " [snd p1; snd p2]; ". ";
                    "Could improve "; Py.join " and " [snd p4; snd p5]; "."].
Proof.
  split; [apply fallback_quality_bands |].
  destruct (fallback_percentages_ranked det sem bonus)
    as (p1 & p2 & p3 & p4 & p5 & Hp & Hperm & Hord).
  exists p1, p2, p3, p4, p5. split; [exact Hperm |]. split; [exact Hord |].
  unfold ScoreExplainer._fallback_explanation. rewrite Hp. reflexivity.
Qed.

Lemma fallback_explanation_at_82 :
  (80 <= 82)%Q /\ ScoreExplainer.fallback_quality 82 = "Excellent".
Proof.
  split; [discriminate |].
  destruct (fallback_explanation_ranks_five (PF := PlainFloat.plain) 82
              det_81 sem_81 bonus_81) as ((H & _) & _).
  apply H. discriminate.
Defined.

(** ** The breakdowns of the pipeline *)

Section Pipeline.
Context {PF : PyFloat} {St : Type}.
Import Models.

Lemma skills_detail_within (self : @DeterministicScoringTool.tool St)
    resume_text job_requirements job_description st sd st' :
  DeterministicScoringTool._score_skills_matching self resume_text job_requirements
    job_description st = (Ok sd, st') ->
  detail_within 15 sd.
Proof.
  unfold DeterministicScoringTool._score_skills_matching.
  destruct (partition _ job_requirements) as [soft_skills hard_skills].
  match goal with
  | |- context [DeterministicScoringTool.match_skills ?a ?b] =>
      destruct (DeterministicScoringTool.match_skills a b) as [matched_hard missing_hard]
  end.
  intros H. apply bind_ok_inv in H as ([matched_soft missing_soft] & s1 & _ & H).
  match type of H with
  | context [if (0 <? ?n)%nat then (_, _) else (_, _)] => destruct (0 <? n)%nat
  end; cbv beta iota zeta in H; unfold ret in H; injection H as <- _;
    (split; [reflexivity |]); cbn [score max_score].
  - match goal with
    | |- (0 <= py_min 15 (natq ?a / natq ?b * 15 + py_min 2 (natq ?n * ?k)) <= _)%Q =>
        pose proof (natq_ratio_nonneg a b); pose proof (natq_nonneg n);
        assert (0 <= py_min 2 (natq n * k))%Q by (apply py_min_bounds; [discriminate | lra]);
        apply py_min_bounds; [discriminate | lra]
    end.
  - split; discriminate.
Qed.

Lemma education_detail_within resume_text job_requirements job_description :
  detail_within 5
    (DeterministicScoringTool._score_education_match resume_text job_requirements
       job_description).
Proof.
  unfold DeterministicScoringTool._score_education_match.
  repeat match goal with
         | |- context [DeterministicScoringTool.highest_level ?t] =>
             destruct (DeterministicScoringTool.highest_level t) as [? ?]
         end.
  destruct (_ =? 0);
    repeat match goal with
           | |- context [if ?b then (_, _) else _] => destruct b
           end;
    (split; [reflexivity | split; discriminate]).
Qed.

Lemma salary_detail_within job_salary expectation sd :
  DeterministicScoringTool._score_salary_fit job_salary expectation = Ok sd ->
  detail_within 5 sd.
Proof.
  unfold DeterministicScoringTool._score_salary_fit,
    DeterministicScoringTool.py_truediv.
  destruct expectation as [e |];
    [destruct (e =? 0) |];
    repeat match goal with
           | |- context [if ?b then (_, _) else _] => destruct b
           end;
    intros [= <-]; (split; [reflexivity | split; discriminate]).
Qed.

Lemma location_detail_within job_location candidate_location :
  detail_within 5
    (DeterministicScoringTool._score_location_match job_location candidate_location).
Proof.
  unfold DeterministicScoringTool._score_location_match.
  destruct candidate_location as [[| ch rest] |];
    try (split; [reflexivity | split; discriminate]).
  repeat match goal with
         | |- context [if ?b then (_, _) else _] => destruct b
         | |- context [match ?o with Some _ => _ | None => _ end] => destruct o
         end;
    (split; [reflexivity | split; discriminate]).
Qed.

Lemma deterministic_details_within (self : @DeterministicScoringTool.tool St)
    current_year resume_text job_requirements job_description job_location
    job_salary candidate_location expectation job_title st det st' :
  DeterministicScoringTool.score_resume_job_match self current_year resume_text
    job_requirements job_description job_location job_salary candidate_location
    expectation job_title st = (Ok det, st') ->
  detail_within 15 (skills_matching det)
  /\ detail_within 10 (experience_years det)
  /\ detail_within 5 (education_match det)
  /\ detail_within 5 (salary_fit det)
  /\ detail_within 5 (location_match det).
Proof.
  unfold DeterministicScoringTool.score_resume_job_match. intros H.
  apply bind_ok_inv in H as (skills & s1 & Hskills & H).
  apply bind_ok_inv in H as (experience & s2 & Hexperience & H).
  apply bind_ok_inv in H as (salary & s3 & Hsalary & H).
  unfold ret in H. injection H as <- _.
  unfold lift in Hsalary. injection Hsalary as Hsalary _.
  cbn [skills_matching experience_years education_match salary_fit location_match].
  split; [eapply skills_detail_within; exact Hskills |].
  split; [eapply experience_detail_within; exact Hexperience |].
  split; [apply education_detail_within |].
  split; [eapply salary_detail_within; exact Hsalary | apply location_detail_within].
Qed.

Lemma parsed_detail_within (response : string) (mx : Q) (text : string)
    (md : gmap string meta) :
  (0 <= mx)%Q ->
  detail_within mx
    (mkScoreDetail (fst (SemanticScoringTool._parse_score_response response mx)) mx
       text md).
Proof.
  intros Hmx. split; [reflexivity |]. cbn [score max_score].
  rewrite parse_score_response_spec. apply parser_spec_within. exact Hmx.
Qed.

Ltac dimension_returned client H :=
  let d := fresh "d" in
  let s := fresh "s" in
  let Hd := fresh "Hd" in
  apply bind_ok_inv in H as (d & s & Hd & H);
  (rewrite semantic_dimension in Hd || rewrite bonus_dimension in Hd);
  match type of Hd with
  | context [client ?prompt 1024 ?st] =>
      destruct (client prompt 1024 st) as [[? | ?] ?]; [| discriminate Hd]
  end;
  injection Hd as <- <-.

Lemma semantic_details_within (self : @SemanticScoringTool.tool St)
    resume_text job_description job_title company_culture st sem st' :
  SemanticScoringTool.score_resume_job_match self resume_text job_description
    job_title company_culture st = (Ok sem, st') ->
  detail_within 15 (soft_skills_match sem)
  /\ detail_within 10 (culture_fit sem)
  /\ detail_within 10 (growth_potential sem)
  /\ detail_within 5 (project_relevance sem).
Proof.
  destruct self as [client].
  unfold SemanticScoringTool.score_resume_job_match,
    SemanticScoringTool._score_soft_skills, SemanticScoringTool._score_culture_fit,
    SemanticScoringTool._score_growth_potential,
    SemanticScoringTool._score_project_relevance.
  cbv zeta. intros H.
  do 4 dimension_returned client H.
  unfold ret in H. injection H as <- _.
  cbn [soft_skills_match culture_fit growth_potential project_relevance].
  repeat split; try reflexivity;
    try (rewrite parse_score_response_spec; apply parser_spec_within; discriminate).
Qed.

Lemma bonus_details_within (self : @BonusScoringTool.tool St)
    resume_text job_description job_title industry st bonus st' :
  BonusScoringTool.score_resume_job_match self resume_text job_description
    job_title industry st = (Ok bonus, st') ->
  detail_within 10 (industry_experience bonus)
  /\ detail_within 5 (rare_skills_premium bonus)
  /\ detail_within 5 (career_trajectory bonus).
Proof.
  destruct self as [client].
  unfold BonusScoringTool.score_resume_job_match,
    BonusScoringTool._score_industry_experience, BonusScoringTool._score_rare_skills,
    BonusScoringTool._score_career_trajectory.
  cbv zeta. intros H.
  do 3 dimension_returned client H.
  unfold ret in H. injection H as <- _.
  cbn [industry_experience rare_skills_premium career_trajectory].
  repeat split; try reflexivity;
    try (rewrite bonus_parser_is_semantic_parser, parse_score_response_spec;
         apply parser_spec_within; discriminate).
Qed.

Lemma pipeline_breakdown_within_100 (sb : ScoreBreakdown) :
  pipeline_breakdown sb -> (0 <= total_score sb <= 100)%Q.
Proof.
  unfold pipeline_breakdown, detail_within. cbv zeta.
  intros H.
  repeat match goal with
         | D : _ /\ _ |- _ => destruct D
         end.
  repeat match goal with
         | E : max_score _ = _ |- _ => rewrite E in *; clear E
         end.
  unfold total_score, det_total, sem_total, bonus_total.
  split; lra.
Qed.

(** Every match the agent returns carries a breakdown of the pipeline, and
    its score is the total of that breakdown. *)
Lemma score_candidate_breakdown (self : @ScoringAgent.agent St) current_year
    resume_text job_title company job_description job_requirements job_location
    job_salary candidate_location expectation industry company_culture st dm st' :
  ScoringAgent.score_candidate self current_year resume_text job_title company
    job_description job_requirements job_location job_salary candidate_location
    expectation industry company_culture st = (Ok dm, st') ->
  pipeline_breakdown (score_breakdown dm)
  /\ match_score dm = total_score (score_breakdown dm).
Proof.
  unfold ScoringAgent.score_candidate. intros H.
  apply bind_ok_inv in H as (det & s1 & Hdet & H).
  apply bind_ok_inv in H as (sem & s2 & Hsem & H).
  apply bind_ok_inv in H as (bonus & s3 & Hbonus & H).
  unfold ScoreExplainer.generate_detailed_match in H.
  apply bind_ok_inv in H as (overall & s4 & _ & H).
  unfold ret in H. injection H as <- _.
  cbn [score_breakdown match_score]. split; [| reflexivity].
  apply deterministic_details_within in Hdet.
  apply semantic_details_within in Hsem.
  apply bonus_details_within in Hbonus.
  unfold pipeline_breakdown. cbn [deterministic semantic Models.bonus].
  tauto.
Qed.

End Pipeline.

(** A run of the agent to its end: the semantic and bonus oracles answer,
    the explainer's oracle is down and the fallback sentence is used. *)
Example score_candidate_degraded_run :
  exists dm,
    ScoringAgent.score_candidate (PF := PlainFloat.plain) agent_degraded 2024
      "Chauffeur routier 2015-2024. Permis B, C, CE. FIMO / FCO" "Chauffeur"
      "Transports Martin" "Chauffeur poids lourd" ["Permis C"; "FIMO"] "Lyon" 30000
      None None None None tt = (Ok dm, tt)
    /\ (Models.match_score dm == 61)%Q
    /\ Models.overall_explanation dm
       = "Moderate candidate with 61/100. Strong skills and experience. Could improve culture fit and soft skills."
    /\ Models.recommendation dm = "Moderate fit - Review carefully before proceeding".
Proof.
  eexists. split; [vm_compute; reflexivity |].
  split; [vm_compute; reflexivity |]. split; vm_compute; reflexivity.
Qed.

(** ** The total of a breakdown *)

(** C6.  The total of a breakdown is the sum of the totals of its three
    groups; for a breakdown of the pipeline, whose details each carry a
    score between 0 and the maximum of their dimension, the total lies
    between 0 and 100; the breakdown of every match the scoring agent
    returns is such a breakdown, and the score of the match is its total. *)
Theorem total_score_is_sum_within_100 {PF : PyFloat} {St : Type} :
  (forall sb,
      Models.total_score sb
      = (Models.det_total (Models.deterministic sb)
         + Models.sem_total (Models.semantic sb)
         + Models.bonus_total (Models.bonus sb))%Q)
  /\ (forall sb, pipeline_breakdown sb -> (0 <= Models.total_score sb <= 100)%Q)
  /\ (forall (self : @ScoringAgent.agent St) current_year resume_text job_title
             company job_description job_requirements job_location job_salary
             candidate_location expectation industry company_culture st dm st',
        ScoringAgent.score_candidate self current_year resume_text job_title company
          job_description job_requirements job_location job_salary
          candidate_location expectation industry company_culture st = (Ok dm, st') ->
        pipeline_breakdown (Models.score_breakdown dm)
        /\ Models.match_score dm = Models.total_score (Models.score_breakdown dm)
        /\ (0 <= Models.match_score dm <= 100)%Q).
Proof.
  split; [reflexivity |]. split; [apply pipeline_breakdown_within_100 |].
  intros self cy resume_text job_title company job_description job_requirements
    job_location job_salary candidate_location expectation industry culture
    st dm st' H.
  apply score_candidate_breakdown in H as [Hpipe Hscore].
  split; [exact Hpipe |]. split; [exact Hscore |].
  rewrite Hscore. apply pipeline_breakdown_within_100. exact Hpipe.
Qed.

Lemma total_score_of_81_within_100 :
  pipeline_breakdown (Models.mkScoreBreakdown det_81 sem_81 bonus_81)
  /\ (0 <= Models.total_score (Models.mkScoreBreakdown det_81 sem_81 bonus_81) <= 100)%Q.
Proof.
  assert (H : pipeline_breakdown (Models.mkScoreBreakdown det_81 sem_81 bonus_81)).
  { unfold pipeline_breakdown, detail_within. cbn.
    repeat split; try reflexivity; unfold Qle; cbn; lia. }
  split; [exact H |].
  destruct (total_score_is_sum_within_100 (PF := PlainFloat.plain) (St := unit))
    as (_ & Hbound & _).
  apply Hbound. exact H.
Defined.

(** * Further properties *)

(** ** Strings *)

Section StringLemmas.
Import Py.


Lemma startswith_app (x b : string) : startswith x (x ++ b) = true.
Proof.
  induction x as [| c x IH]; [reflexivity |].
  simpl. rewrite Ascii.eqb_refl. exact IH.
Qed.

Lemma contains_here (x s : string) : startswith x s = true -> contains x s = true.
Proof. intros H. destruct s; simpl; rewrite H; reflexivity. Qed.

Lemma contains_later (x a s : string) : contains x s = true -> contains x (a ++ s) = true.
Proof.
  intros H. induction a as [| c a IH]; [exact H |].
  simpl. rewrite IH. apply orb_true_r.
Qed.

Lemma contains_middle (x a b : string) : contains x (a ++ x ++ b) = true.
Proof. apply contains_later, contains_here, startswith_app. Qed.

Lemma contains_refl (x : string) : contains x x = true.
Proof.
  apply contains_here. induction x as [| c x IH]; [reflexivity |].
  simpl. rewrite Ascii.eqb_refl. exact IH.
Qed.

End StringLemmas.

(** ** The skill matcher on a text that holds the requirement *)



(** ** Patterns that need a digit *)

Section NeedsDigit.
Import Re.

Lemma no_digit_tail (a : ascii) (s : string) :
  no_digit (String a s) = true -> no_digit s = true.
Proof. simpl. intros [_ H]%andb_prop. exact H. Qed.

(** A match succeeds only through its continuation. *)
Lemma m_fails_through {R : Type} (r : regex) :
  forall (c : cursor) (caps : list string) (k : cursor -> list string -> option R),
    no_digit (rest c) = true ->
    (forall c' caps', no_digit (rest c') = true -> k c' caps' = None) ->
    m r c caps k = None.
Proof.
  induction r as [| p | r1 IH1 r2 IH2 | r1 IH1 r2 IH2 | r1 IH1 | r1 IH1 |];
    intros c caps k Hc Hk; simpl.
  - apply Hk, Hc.
  - destruct (rest c) as [| a s] eqn:Hr; [reflexivity |].
    destruct (p a); [| reflexivity]. apply Hk. simpl. eapply no_digit_tail, Hc.
  - apply IH1; [exact Hc |]. intros c' caps' Hc'. apply IH2; assumption.
  - rewrite IH1 by assumption. apply IH2; assumption.
  - generalize (remaining c) as fuel. intros fuel. revert c caps Hc.
    induction fuel as [| fuel IHf]; intros c caps Hc; [apply Hk, Hc |].
    rewrite IH1; [apply Hk, Hc | exact Hc |].
    intros c' caps' Hc'. destruct (remaining c' <? remaining c)%nat; [| reflexivity].
    apply IHf, Hc'.
  - apply IH1; [exact Hc |]. intros c' caps' Hc'. apply Hk, Hc'.
  - destruct (at_boundary c); [apply Hk, Hc | reflexivity].
Qed.

Lemma needs_digit_digit : needs_digit digit.
Proof.
  intros R c caps k Hc. simpl. destruct (rest c) as [| a s]; [reflexivity |].
  simpl in Hc. apply andb_prop in Hc as [Ha _].
  apply negb_true_iff in Ha. rewrite Ha. reflexivity.
Qed.

Lemma needs_digit_seq_l (r1 r2 : regex) : needs_digit r1 -> needs_digit (Seq r1 r2).
Proof. intros H R c caps k Hc. simpl. apply H, Hc. Qed.

Lemma needs_digit_seq_r (r1 r2 : regex) : needs_digit r2 -> needs_digit (Seq r1 r2).
Proof.
  intros H R c caps k Hc. simpl. apply m_fails_through; [exact Hc |].
  intros c' caps' Hc'. apply H, Hc'.
Qed.

Lemma needs_digit_alt (r1 r2 : regex) :
  needs_digit r1 -> needs_digit r2 -> needs_digit (Alt r1 r2).
Proof. intros H1 H2 R c caps k Hc. simpl. rewrite H1 by exact Hc. apply H2, Hc. Qed.

Lemma needs_digit_group (r : regex) : needs_digit r -> needs_digit (Group r).
Proof. intros H R c caps k Hc. simpl. apply H, Hc. Qed.

Lemma scan_without_digit (r : regex) (fuel : nat) :
  needs_digit r -> forall c, no_digit (rest c) = true -> scan r fuel c = [].
Proof.
  intros Hr. induction fuel as [| fuel IH]; intros c Hc; [reflexivity |].
  simpl. unfold match_at. rewrite Hr by exact Hc.
  unfold advance. destruct (rest c) as [| a s] eqn:Hs; [reflexivity |].
  apply IH. simpl. eapply no_digit_tail, Hc.
Qed.

Lemma finditer_without_digit (r : regex) (s : string) :
  needs_digit r -> no_digit s = true -> finditer r s = [].
Proof. intros Hr Hs. apply scan_without_digit; assumption. Qed.


End NeedsDigit.

Ltac solve_needs_digit :=
  repeat first
    [ apply needs_digit_digit
    | apply needs_digit_group
    | apply needs_digit_alt
    | apply needs_digit_seq_l; solve [solve_needs_digit]
    | apply needs_digit_seq_r ].

(** ** Experience read from the dates *)

Section Dates.
Import DeterministicScoringTool.

Lemma count_range_nonneg (cy : Z) (st : date_state) (match_ : list string) :
  0 <= fst st -> 0 <= fst (count_range cy st match_).
Proof.
  destruct st as [total seen]. unfold count_range. intros H.
  destruct (_ && _) eqn:Hc; [| exact H].
  destruct (bool_decide _); [exact H |]. simpl in *.
  apply andb_prop in Hc as [Hc _]. apply andb_prop in Hc as [_ Hc]. lia.
Qed.

Lemma count_ongoing_nonneg (cy : Z) (st : date_state) (match_ : list string) :
  0 <= fst st -> 0 <= fst (count_ongoing cy st match_).
Proof.
  destruct st as [total seen]. unfold count_ongoing. intros H.
  destruct (_ && _) eqn:Hc; [| exact H].
  destruct (existsb _ _); [exact H |]. simpl in *.
  apply andb_prop in Hc as [_ Hc]. lia.
Qed.

Lemma fold_nonneg (f : date_state -> list string -> date_state) :
  (forall st x, 0 <= fst st -> 0 <= fst (f st x)) ->
  forall (l : list (list string)) st, 0 <= fst st -> 0 <= fst (fold_left f l st).
Proof.
  intros Hf l. induction l as [| x l IH]; intros st H; [exact H |].
  simpl. apply IH, Hf, H.
Qed.

Lemma date_range_patterns_need_digit : Forall needs_digit date_range_patterns.
Proof. repeat constructor; cbn; solve_needs_digit. Qed.

Lemma ongoing_patterns_need_digit : Forall needs_digit ongoing_patterns.
Proof. repeat constructor; cbn; solve_needs_digit. Qed.

Lemma years_patterns_need_digit : Forall needs_digit years_patterns.
Proof. repeat constructor; cbn; solve_needs_digit. Qed.



End Dates.

(** ** The deterministic tool and the oracle *)

Section DeterministicOracle.
Context {PF : PyFloat} {St : Type}.
Import Models DeterministicScoringTool.

Lemma parse_relevant_line_range (st : Z * string) (line : string) :
  0 <= fst st <= 50 -> 0 <= fst (parse_relevant_line st line) <= 50.
Proof.
  destruct st as [y e]. unfold parse_relevant_line. intros H.
  destruct (Py.startswith "RELEVANT_YEARS:" line).
  - destruct (float_of_str _); cbn [fst] in *; lia.
  - destruct (Py.startswith "EXPLANATION:" line); exact H.
Qed.

Lemma parse_relevant_lines_range (lines : list string) (st : Z * string) :
  0 <= fst st <= 50 -> 0 <= fst (fold_left parse_relevant_line lines st) <= 50.
Proof.
  revert st. induction lines as [| l ls IH]; intros st H; [exact H |].
  simpl. apply IH, parse_relevant_line_range, H.
Qed.

Lemma dates_nonneg (cy : Z) (text : string) :
  0 <= _extract_experience_from_dates cy text.
Proof.
  unfold _extract_experience_from_dates.
  cbn [date_range_patterns ongoing_patterns fold_left].
  repeat (apply fold_nonneg;
          [first [apply count_range_nonneg | apply count_ongoing_nonneg] |]).
  simpl. lia.
Qed.

(** The semantic reading of the experience, case by case. *)
Lemma relevant_years_cases (self : @tool St) (cy : Z)
    (resume_text job_title job_description : string) (st : St) :
  let dates := _extract_experience_from_dates cy resume_text in
  exists y e st',
    _extract_relevant_experience_years self cy resume_text job_title job_description st
    = (Ok (y, e), st')
    /\ (0 <= y <= 50 \/ y = dates)
    /\ (has_client self = false \/ use_semantic_experience self = false ->
        y = dates /\ e = "Total experience (semantic evaluation unavailable)" /\ st' = st)
    /\ (forall messages_create msg s1,
          client self = Some messages_create ->
          use_semantic_experience self = true ->
          messages_create
            (relevant_experience_prompt job_title job_description resume_text) 512 st
          = (Raise msg, s1) ->
          y = dates
          /\ e = Py.cat ["Fallback due to error: "; Py.str_of_Z dates;
                         " years total experience"]
          /\ st' = s1).
Proof.
  intros dates. unfold _extract_relevant_experience_years, has_client.
  destruct self as [sem [c |]]; cbn [client use_semantic_experience];
    [destruct sem |]; cbn [negb orb].
  - unfold try_except, bind, _call_claude. cbn [client].
    unfold try_except.
    destruct (c _ 512 st) as [[response | msg] s1] eqn:Hc.
    + pose proof (parse_relevant_lines_range
                    (Py.split_on (ascii_of_nat 10) (Py.strip response))
                    (0, "Could not parse Claude response")) as Hr.
      destruct (fold_left _ _ _) as [ry ex]. cbn [fst] in Hr.
      destruct (_ && _).
      * eexists _, _, _. split; [reflexivity |]. split; [right; reflexivity |].
        split; [intros [H | H]; discriminate H |].
        intros c' msg s1' [= <-] _ Hc'. rewrite Hc in Hc'. discriminate Hc'.
      * eexists _, _, _. split; [reflexivity |]. split; [left; apply Hr; lia |].
        split; [intros [H | H]; discriminate H |].
        intros c' msg s1' [= <-] _ Hc'. rewrite Hc in Hc'. discriminate Hc'.
    + eexists _, _, _. split; [reflexivity |]. split; [right; reflexivity |].
      split; [intros [H | H]; discriminate H |].
      intros c' msg' s1' [= <-] _ Hc'. rewrite Hc in Hc'.
      injection Hc' as _ <-. split; [reflexivity | split; reflexivity].
  - eexists _, _, _. split; [reflexivity |]. split; [right; reflexivity |].
    split; [intros _; split; [reflexivity | split; reflexivity] |].
    intros c' msg s1 _ Hs. discriminate Hs.
  - eexists _, _, _. split; [reflexivity |]. split; [right; reflexivity |].
    split; [intros _; split; [reflexivity | split; reflexivity] |].
    intros c' msg s1 Hc'. discriminate Hc'.
Qed.

End DeterministicOracle.

(** X2.  The reading of the relevant experience never raises.  The years it
    returns are the oracle's, clamped to 0..50, or the years read from the
    dates; they are the latter, with the matching notice, when the tool has
    no client or the semantic evaluation is off (the oracle is then not
    consulted) and when the oracle raises. *)
Theorem relevant_experience_degrades {PF : PyFloat} {St : Type}
    (self : @DeterministicScoringTool.tool St) (current_year : Z)
    (resume_text job_title job_description : string) (st : St) :
  let dates :=
    DeterministicScoringTool._extract_experience_from_dates current_year resume_text in
  exists y e st',
    DeterministicScoringTool._extract_relevant_experience_years self current_year
      resume_text job_title job_description st = (Ok (y, e), st')
    /\ 0 <= y
    /\ (0 <= y <= 50 \/ y = dates)
    /\ (DeterministicScoringTool.has_client self = false
        \/ DeterministicScoringTool.use_semantic_experience self = false ->
        y = dates /\ e = "Total experience (semantic evaluation unavailable)" /\ st' = st)
    /\ (forall messages_create msg s1,
          DeterministicScoringTool.client self = Some messages_create ->
          DeterministicScoringTool.use_semantic_experience self = true ->
          messages_create
            (DeterministicScoringTool.relevant_experience_prompt job_title
               job_description resume_text) 512 st
          = (Raise msg, s1) ->
          y = dates
          /\ e = Py.cat ["Fallback due to error: "; Py.str_of_Z dates;
                         " years total experience"]
          /\ st' = s1).
Proof.
  intros dates.
  destruct (relevant_years_cases self current_year resume_text job_title
              job_description st) as (y & e & st' & Hrun & Hy & Hoff & Hraise).
  exists y, e, st'. split; [exact Hrun |].
  split; [| split; [exact Hy | split; [exact Hoff | exact Hraise]]].
  destruct Hy as [Hy | ->]; [lia | apply dates_nonneg].
Qed.

Lemma relevant_experience_degrades_when_down :
  exists y e,
    DeterministicScoringTool._extract_relevant_experience_years
      (PF := PlainFloat.plain)
      (DeterministicScoringTool.mkTool true (Some oracle_down)) 2024
      "Developer 2015-2020" "Developer" "Build things" tt = (Ok (y, e), tt)
    /\ y = 5
    /\ e = "Fallback due to error: 5 years total experience".
Proof.
  destruct (relevant_experience_degrades (PF := PlainFloat.plain)
              (DeterministicScoringTool.mkTool true (Some oracle_down)) 2024
              "Developer 2015-2020" "Developer" "Build things" tt)
    as (y & e & st' & Hrun & _ & _ & _ & Hraise).
  destruct (Hraise oracle_down "oracle unavailable" tt eq_refl eq_refl eq_refl)
    as (Hy & He & Hst).
  exists y, e. subst st'. split; [exact Hrun |].
  split; [rewrite Hy; vm_compute; reflexivity | rewrite He; vm_compute; reflexivity].
Defined.

(** X3.  The years read from the dates of a resume are never negative, and
    a resume without a digit gives none. *)
Theorem dates_experience_nonneg (current_year : Z) (resume_text : string) :
  0 <= DeterministicScoringTool._extract_experience_from_dates current_year resume_text
  /\ (no_digit resume_text = true ->
      DeterministicScoringTool._extract_experience_from_dates current_year resume_text = 0).
Proof.
  split; [apply dates_nonneg |].
  intros H. unfold DeterministicScoringTool._extract_experience_from_dates.
  pose proof date_range_patterns_need_digit as Hd.
  pose proof ongoing_patterns_need_digit as Ho.
  unfold DeterministicScoringTool.date_range_patterns,
    DeterministicScoringTool.ongoing_patterns in *.
  repeat match goal with
         | F : Forall _ (_ :: _) |- _ => apply Forall_cons_iff in F as [? F]
         end.
  cbn [fold_left]. unfold DeterministicScoringTool.findall.
  rewrite !finditer_without_digit by assumption. reflexivity.
Qed.

Lemma dates_experience_nonneg_without_digit :
  no_digit "Chauffeur depuis toujours" = true
  /\ DeterministicScoringTool._extract_experience_from_dates 2024
       "Chauffeur depuis toujours" = 0.
Proof.
  split; [reflexivity |].
  apply (dates_experience_nonneg 2024 "Chauffeur depuis toujours"). reflexivity.
Defined.

(** ** The years recorded by the experience score *)

Section ExperienceRecord.
Context {PF : PyFloat} {St : Type}.
Import Models DeterministicScoringTool.




End ExperienceRecord.




(** ** Education, salary and location *)

Section Education.
Import DeterministicScoringTool.

Lemma highest_level_fold (test : string -> bool) :
  highest_level test = fold_left (level_step test) education_levels (0, "Non spécifié").
Proof. reflexivity. Qed.

Lemma level_fold_range (test : string -> bool) (l : list (string * Z)) (best : Z * string) :
  Forall (fun e => 2 <= snd e <= 5) l ->
  fst best = 0 \/ 2 <= fst best <= 5 ->
  let r := fst (fold_left (level_step test) l best) in
  (r = 0 \/ 2 <= r <= 5) /\ fst best <= r.
Proof.
  intros Hl. revert best. induction Hl as [| [d lv] l Hd _ IH]; intros best Hb.
  - simpl. split; [exact Hb | lia].
  - cbn [fold_left]. cbn [snd] in Hd.
    assert (Hs : (fst (level_step test best (d, lv)) = 0
                  \/ 2 <= fst (level_step test best (d, lv)) <= 5)
                 /\ fst best <= fst (level_step test best (d, lv))).
    { unfold level_step. destruct (test d); cbn [andb]; [| split; [exact Hb | lia]].
      destruct (Z.gtb_spec lv (fst best)); cbn [fst]; [lia | split; [exact Hb | lia]]. }
    destruct Hs as [Hs1 Hs2]. specialize (IH _ Hs1). cbv zeta in IH.
    destruct IH as [IH1 IH2]. split; [exact IH1 | lia].
Qed.

Lemma level_fold_none (test : string -> bool) (l : list (string * Z)) (best : Z * string) :
  forallb (fun e => negb (test (fst e))) l = true ->
  fold_left (level_step test) l best = best.
Proof.
  revert best. induction l as [| [d lv] l IH]; intros best H; [reflexivity |].
  simpl in H. apply andb_prop in H as [Hd Hl]. apply negb_true_iff in Hd.
  cbn [fold_left]. unfold level_step at 2. rewrite Hd. apply IH, Hl.
Qed.

Lemma education_levels_range : Forall (fun e => 2 <= snd e <= 5) education_levels.
Proof. repeat constructor; cbn; lia. Qed.

Lemma highest_level_range (test : string -> bool) :
  fst (highest_level test) = 0 \/ 2 <= fst (highest_level test) <= 5.
Proof.
  rewrite highest_level_fold.
  apply (level_fold_range test education_levels (0, "Non spécifié") education_levels_range).
  left; reflexivity.
Qed.

Lemma highest_level_phd (test : string -> bool) :
  test "phd" = true -> fst (highest_level test) = 5.
Proof.
  intros H. rewrite highest_level_fold.
  change education_levels with (("phd", 5) :: List.tl education_levels).
  cbn [fold_left].
  replace (level_step test (0, "Non spécifié") ("phd", 5)) with (5, Py.capitalize "phd")
    by (unfold level_step; rewrite H; reflexivity).
  assert (Hl : Forall (fun e => 2 <= snd e <= 5) (List.tl education_levels))
    by (repeat constructor; cbn; lia).
  pose proof (level_fold_range test _ (5, Py.capitalize "phd") Hl) as Hr.
  cbv zeta in Hr. cbn [fst] in Hr. destruct Hr as [Hr1 Hr2]; [right; lia | lia].
Qed.

End Education.

(** X5.  The education score is 1, 3 or 5.  A resume naming a PhD scores 5
    whatever the position asks; a resume naming none of the listed degrees
    scores 1 whatever the position asks. *)
Theorem education_score_values (resume_text : string) (job_requirements : list string)
    (job_description : string) :
  let sd := DeterministicScoringTool._score_education_match resume_text
              job_requirements job_description in
  (Models.score sd = 1%Q \/ Models.score sd = 3%Q \/ Models.score sd = 5%Q)
  /\ (Py.contains "phd" (Py.lower resume_text) = true -> Models.score sd = 5%Q)
  /\ (forallb (fun entry => negb (Py.contains (fst entry) (Py.lower resume_text)))
              DeterministicScoringTool.education_levels = true ->
      Models.score sd = 1%Q).
Proof.
  unfold DeterministicScoringTool._score_education_match. cbv zeta.
  set (in_resume := fun degree => Py.contains degree (Py.lower resume_text)).
  pose proof (highest_level_range in_resume) as Hc.
  pose proof (highest_level_phd in_resume) as Hphd.
  pose proof (level_fold_none in_resume DeterministicScoringTool.education_levels
                (0, "Non spécifié")) as Hnone.
  rewrite <- highest_level_fold in Hnone.
  destruct (DeterministicScoringTool.highest_level in_resume)
    as [candidate_level candidate_degree].
  match goal with
  | |- context [DeterministicScoringTool.highest_level ?t] =>
      pose proof (highest_level_range t) as Hr;
      destruct (DeterministicScoringTool.highest_level t) as [required_level0 required_degree0]
  end.
  cbn [fst] in *.
  destruct (Z.eqb_spec required_level0 0) as [-> | Hne].
  - destruct (Z.geb_spec candidate_level 3); [| destruct (Z.geb_spec candidate_level (3 - 1))];
      cbn [Models.score].
    + split; [tauto |]. split; [reflexivity |].
      intros Hyp. specialize (Hnone Hyp). injection Hnone as -> _. lia.
    + split; [tauto |]. split; [intros Hyp; specialize (Hphd Hyp); lia |].
      intros Hyp. specialize (Hnone Hyp). injection Hnone as -> _. lia.
    + split; [tauto |]. split; [intros Hyp; specialize (Hphd Hyp); lia | reflexivity].
  - destruct (Z.geb_spec candidate_level required_level0);
      [| destruct (Z.geb_spec candidate_level (required_level0 - 1))];
      cbn [Models.score].
    + split; [tauto |]. split; [reflexivity |].
      intros Hyp. specialize (Hnone Hyp). injection Hnone as -> _. lia.
    + split; [tauto |]. split; [intros Hyp; specialize (Hphd Hyp); lia |].
      intros Hyp. specialize (Hnone Hyp). injection Hnone as -> _. lia.
    + split; [tauto |]. split; [intros Hyp; specialize (Hphd Hyp); lia | reflexivity].
Qed.

Lemma education_score_values_phd :
  Models.score (DeterministicScoringTool._score_education_match
                  "PhD in physics, 2012" ["Master required"] "Research engineer") = 5%Q
  /\ Models.score (DeterministicScoringTool._score_education_match
                     "Ten years on the road" [] "Driver") = 1%Q.
Proof.
  split.
  - apply (education_score_values "PhD in physics, 2012" ["Master required"]
             "Research engineer"). reflexivity.
  - apply (education_score_values "Ten years on the road" [] "Driver"). reflexivity.
Defined.



(** X7.  The location score is 1, 3 or 5: 3 when the candidate gave no
    location; 5 when the candidate's location is the job's up to the case of
    the letters, and 5 for every candidate location when the job is remote. *)
Theorem location_score_cases (job_location : string) (candidate_location : option string) :
  let sd := DeterministicScoringTool._score_location_match job_location
              candidate_location in
  (Models.score sd = 1%Q \/ Models.score sd = 3%Q \/ Models.score sd = 5%Q)
  /\ (candidate_location = None \/ candidate_location = Some EmptyString ->
      Models.score sd = 3%Q)
  /\ (forall loc, candidate_location = Some loc -> loc <> EmptyString ->
        Py.lower loc = Py.lower job_location -> Models.score sd = 5%Q)
  /\ (forall loc, candidate_location = Some loc -> loc <> EmptyString ->
        Py.contains "remote" (Py.lower job_location) = true -> Models.score sd = 5%Q).
Proof.
  cbv zeta. unfold DeterministicScoringTool._score_location_match.
  destruct candidate_location as [[| ch rest] |].
  - split; [tauto |]. split; [reflexivity |].
    split; intros loc [= <-] Hne; contradiction.
  - set (loc := String ch rest).
    split; [| split; [intros [H | H]; discriminate H |]].
    + repeat match goal with
             | |- context [if ?b then (_, _) else _] => destruct b
             | |- context [match ?o with Some _ => _ | None => _ end] => destruct o
             end; cbn [Models.score]; tauto.
    + split; intros loc' [= <-] _ H.
      * rewrite H, contains_refl.
        destruct (Py.contains "remote" (Py.lower job_location)); cbn [orb andb negb];
          [reflexivity |].
        destruct (Py.contains "télétravail" (Py.lower job_location)); reflexivity.
      * rewrite H. reflexivity.
  - split; [tauto |]. split; [reflexivity |].
    split; intros loc H; discriminate H.
Qed.

Lemma location_score_cases_paris :
  Models.score (DeterministicScoringTool._score_location_match "Paris" (Some "PARIS"))
  = 5%Q
  /\ Models.score (DeterministicScoringTool._score_location_match "Lyon" None) = 3%Q.
Proof.
  pose proof (location_score_cases "Paris" (Some "PARIS")) as Hparis.
  pose proof (location_score_cases "Lyon" None) as Hlyon.
  cbv zeta in Hparis, Hlyon.
  destruct Hparis as (_ & _ & Hsame & _). destruct Hlyon as (_ & Hnone & _).
  split.
  - apply (Hsame "PARIS"); [reflexivity | discriminate | reflexivity].
  - apply Hnone. left; reflexivity.
Defined.

(** ** Soft skills read by the oracle *)

(** X8.  The semantic reading of the soft skills never raises and never
    returns an empty name.  It returns no skill, without consulting the
    oracle, when the tool has no client or no soft skill is asked, and no
    skill when the oracle raises. *)
Theorem soft_skills_reading_degrades {St : Type}
    (self : @DeterministicScoringTool.tool St) (resume_text : string)
    (soft_skills : list string) (job_description : string) (st : St) :
  exists matched st',
    DeterministicScoringTool._evaluate_soft_skills_semantic self resume_text
      soft_skills job_description st = (Ok matched, st')
    /\ Forall (fun skill => skill <> EmptyString) matched
    /\ (DeterministicScoringTool.has_client self = false \/ soft_skills = [] ->
        matched = [] /\ st' = st)
    /\ (forall messages_create msg s1,
          DeterministicScoringTool.client self = Some messages_create ->
          soft_skills <> [] ->
          messages_create
            (DeterministicScoringTool.soft_skills_prompt (Py.join ", " soft_skills)
               job_description resume_text) 256 st
          = (Raise msg, s1) ->
          matched = [] /\ st' = s1).
Proof.
  unfold DeterministicScoringTool._evaluate_soft_skills_semantic,
    DeterministicScoringTool.has_client.
  destruct self as [sem [c |]]; cbn [DeterministicScoringTool.client negb orb].
  - destruct soft_skills as [| skill skills]; cbn [length Nat.eqb].
    + eexists _, _. split; [reflexivity |]. split; [constructor |].
      split; [intros _; split; reflexivity |].
      intros c' msg s1 _ Hne. contradiction.
    + unfold try_except, bind, DeterministicScoringTool._call_claude.
      cbn [DeterministicScoringTool.client]. unfold try_except.
      destruct (c _ 256 st) as [[response | msg] s1] eqn:Hc.
      * eexists _, _. split; [reflexivity |].
        split.
        { apply Forall_forall. intros x Hx%list_elem_of_In.
          apply filter_In in Hx as [_ Hx].
          destruct x; [discriminate Hx | discriminate]. }
        split; [intros [H | H]; discriminate H |].
        intros c' msg s1' [= <-] _ Hc'. rewrite Hc in Hc'. discriminate Hc'.
      * eexists _, _. split; [reflexivity |]. split; [constructor |].
        split; [intros [H | H]; discriminate H |].
        intros c' msg' s1' [= <-] _ Hc'. rewrite Hc in Hc'.
        injection Hc' as _ <-. split; reflexivity.
  - eexists _, _. split; [reflexivity |]. split; [constructor |].
    split; [intros _; split; reflexivity |].
    intros c' msg s1 Hc'. discriminate Hc'.
Qed.

Lemma soft_skills_reading_degrades_when_down :
  DeterministicScoringTool._evaluate_soft_skills_semantic
    (DeterministicScoringTool.mkTool true (Some oracle_down)) "Led a team of five"
    ["Leadership"] "Team lead" tt = (Ok [], tt).
Proof.
  destruct (soft_skills_reading_degrades
              (DeterministicScoringTool.mkTool true (Some oracle_down))
              "Led a team of five" ["Leadership"] "Team lead" tt)
    as (matched & st' & Hrun & _ & _ & Hraise).
  destruct (Hraise oracle_down "oracle unavailable" tt eq_refl ltac:(discriminate) eq_refl)
    as [-> ->].
  exact Hrun.
Defined.

(** ** The deterministic stage as a whole *)

Section DeterministicTotal.
Context {PF : PyFloat} {St : Type}.
Import Models DeterministicScoringTool.



End DeterministicTotal.



(** ** The explainer *)

Section ExplainerLists.

Lemma capped_list_length {A} (n : nat) (l : list A) (x : A) :
  (1 <= n)%nat ->
  let kept := if (n <? length l)%nat then firstn n l else l in
  (1 <= length (match kept with [] => [x] | _ => kept end) <= n)%nat.
Proof.
  intros Hn. cbv zeta. destruct (Nat.ltb_spec n (length l)) as [Hlt | Hge].
  - pose proof (length_firstn n l) as Hlen.
    destruct (firstn n l) as [| y ys]; cbn [length] in *; lia.
  - destruct l as [| y ys]; cbn [length] in *; lia.
Qed.

End ExplainerLists.

(** X10.  The explainer lists between one and five strengths and between one
    and four weaknesses, whatever the breakdown. *)
Theorem strengths_and_weaknesses_bounded (score_breakdown : Models.ScoreBreakdown) :
  (1 <= length (ScoreExplainer._extract_strengths score_breakdown) <= 5)%nat
  /\ (1 <= length (ScoreExplainer._extract_weaknesses score_breakdown) <= 4)%nat.
Proof.
  unfold ScoreExplainer._extract_strengths, ScoreExplainer._extract_weaknesses.
  cbv zeta. split; apply capped_list_length; lia.
Qed.

(** X11.  The recommendation depends on the total alone, and agrees with the
    label of the fallback sentence on the lower tiers: Weak goes with not
    recommended, Moderate with the moderate fit, Good with a total under 75
    with the interview to consider; the strongest recommendation is given
    to totals labelled Excellent only. *)
Theorem recommendation_agrees_with_label (total : Q) (strengths weaknesses : list string) :
  let recommendation :=
    ScoreExplainer._generate_recommendation total strengths weaknesses in
  recommendation = ScoreExplainer._generate_recommendation total [] []
  /\ (ScoreExplainer.fallback_quality total = "Weak"
      <-> recommendation = "Not recommended - Significant gaps in requirements")
  /\ (ScoreExplainer.fallback_quality total = "Moderate"
      <-> recommendation = "Moderate fit - Review carefully before proceeding")
  /\ (recommendation = "Consider for interview - Good candidate with minor gaps"
      -> ScoreExplainer.fallback_quality total = "Good")
  /\ (recommendation
      = "Strongly recommended - Excellent candidate, proceed to interview immediately"
      -> ScoreExplainer.fallback_quality total = "Excellent").
Proof.
  cbv zeta. unfold ScoreExplainer._generate_recommendation, ScoreExplainer.fallback_quality.
  split; [reflexivity |].
  destruct (Qgeb total 85) eqn:E85; [apply Qgeb_ge in E85 | apply Qgeb_lt in E85];
  (destruct (Qgeb total 80) eqn:E80; [apply Qgeb_ge in E80 | apply Qgeb_lt in E80]);
  (destruct (Qgeb total 75) eqn:E75; [apply Qgeb_ge in E75 | apply Qgeb_lt in E75]);
  (destruct (Qgeb total 65) eqn:E65; [apply Qgeb_ge in E65 | apply Qgeb_lt in E65]);
  (destruct (Qgeb total 50) eqn:E50; [apply Qgeb_ge in E50 | apply Qgeb_lt in E50]);
  try (exfalso; lra);
  (split; [split; intros H; try reflexivity; discriminate H |]);
  (split; [split; intros H; try reflexivity; discriminate H |]);
  split; intros H; try reflexivity; discriminate H.
Qed.

Lemma recommendation_agrees_with_label_at_40 :
  ScoreExplainer.fallback_quality 40 = "Weak"
  /\ ScoreExplainer._generate_recommendation 40 ["Meets basic requirements"] []
     = "Not recommended - Significant gaps in requirements".
Proof.
  split; [reflexivity |].
  apply (recommendation_agrees_with_label 40 ["Meets basic requirements"] []).
  reflexivity.
Defined.

(** X12.  The detailed match is always produced: a failure of the oracle is
    replaced by the fallback sentence, an answer is kept stripped.  The
    match carries the total of the breakdown as its score, and neither the
    resume nor the job description reaches the oracle. *)
Theorem detailed_match_always_returned {PF : PyFloat} {St : Type}
    (self : @ScoreExplainer.explainer St) (job_title company : string) (salary : Z)
    (location : string) (det : Models.DeterministicScore) (sem : Models.SemanticScore)
    (bonus : Models.BonusScore) (resume_text job_description : option string) (st : St) :
  let sb := Models.mkScoreBreakdown det sem bonus in
  let prompt :=
    ScoreExplainer.overall_explanation_prompt job_title
      (ScoreExplainer.score_summary (Models.total_score sb) det sem bonus) in
  exists dm st',
    ScoreExplainer.generate_detailed_match self job_title company salary location
      det sem bonus resume_text job_description st = (Ok dm, st')
    /\ ScoreExplainer.generate_detailed_match self job_title company salary location
         det sem bonus None None st = (Ok dm, st')
    /\ Models.match_score dm = Models.total_score sb
    /\ Models.score_breakdown dm = sb
    /\ Models.recommendation dm
       = ScoreExplainer._generate_recommendation (Models.total_score sb) [] []
    /\ (forall text s1, ScoreExplainer.client self prompt 512 st = (Ok text, s1) ->
          Models.overall_explanation dm = Py.strip text /\ st' = s1)
    /\ (forall msg s1, ScoreExplainer.client self prompt 512 st = (Raise msg, s1) ->
          Models.overall_explanation dm
          = ScoreExplainer._fallback_explanation (Models.total_score sb) det sem bonus
          /\ st' = s1).
Proof.
  cbv zeta.
  unfold ScoreExplainer.generate_detailed_match,
    ScoreExplainer._generate_overall_explanation, bind, try_except, ret.
  cbn [Models.deterministic Models.semantic Models.bonus].
  destruct (ScoreExplainer.client self _ 512 st) as [[text | msg] s1] eqn:Hc;
    eexists _, _; (split; [reflexivity |]); (split; [reflexivity |]);
    cbn [Models.match_score Models.score_breakdown Models.recommendation
         Models.overall_explanation];
    (split; [reflexivity |]); (split; [reflexivity |]); (split; [reflexivity |]);
    split; intros x s2 [= <- <-] || intros x s2 [=]; split; reflexivity.
Qed.

Lemma detailed_match_always_returned_when_down :
  exists dm,
    ScoreExplainer.generate_detailed_match (PF := PlainFloat.plain)
      (ScoreExplainer.mkExplainer oracle_down) "Data Engineer" "Acme" 50000 "Paris"
      det_81 sem_81 bonus_81 (Some "resume") None tt = (Ok dm, tt)
    /\ Models.overall_explanation dm
       = "Excellent candidate with 81/100. Strong experience and skills. Could improve soft skills and rare skills.".
Proof.
  destruct (detailed_match_always_returned (PF := PlainFloat.plain)
              (ScoreExplainer.mkExplainer oracle_down) "Data Engineer" "Acme" 50000
              "Paris" det_81 sem_81 bonus_81 (Some "resume") None tt)
    as (dm & st' & Hrun & _ & _ & _ & _ & _ & Hraise).
  destruct (Hraise "oracle unavailable" tt eq_refl) as [He ->].
  exists dm. split; [exact Hrun |]. rewrite He. vm_compute. reflexivity.
Defined.

(** X13.  The fallback sentence names four different dimensions: none is
    given both as a strength and as an area to improve. *)
Theorem fallback_names_are_distinct (det : Models.DeterministicScore)
    (sem : Models.SemanticScore) (bonus : Models.BonusScore) :
  let percentages := ScoreExplainer.fallback_percentages det sem bonus in
  NoDup (map snd (firstn 2 percentages) ++ map snd (ScoreExplainer.lastn 2 percentages))%list
  /\ length (firstn 2 percentages) = 2%nat
  /\ length (ScoreExplainer.lastn 2 percentages) = 2%nat.
Proof.
  cbv zeta.
  destruct (fallback_percentages_ranked det sem bonus)
    as (p1 & p2 & p3 & p4 & p5 & -> & Hperm & _).
  split; [| split; reflexivity].
  apply (Permutation_map snd) in Hperm.
  assert (Hnd : NoDup (map snd [p1; p2; p3; p4; p5])).
  { rewrite Hperm. cbn. apply (bool_decide_unpack _). vm_compute. reflexivity. }
  cbn in Hnd |- *.
  rewrite !NoDup_cons, !not_elem_of_cons in Hnd.
  rewrite !NoDup_cons, !not_elem_of_cons.
  destruct Hnd as ((H12 & H13 & H14 & H15 & _) & (H23 & H24 & H25 & _)
                   & (H34 & H35 & _) & (H45 & _) & _).
  repeat split; auto using not_elem_of_nil, NoDup_nil_2.
Qed.

(** ** An answer of the oracle without a number *)

(** X14.  An answer of the oracle with no SCORE: line and no digit is scored
    0, whatever the maximum, and explained by its last EXPLANATION: line if
    that line says something, else by the whole answer. *)
Theorem answer_without_number_scores_zero {PF : PyFloat} (response : string)
    (max_score : Q) :
  ParserSpec.score_texts response = [] ->
  no_digit response = true ->
  SemanticScoringTool._parse_score_response response max_score
  = (0%Q,
     match List.last (map Some (ParserSpec.explanation_texts response)) None with
     | Some e => if Py.truthy e then e else Py.strip response
     | None => Py.strip response
     end)
  /\ BonusScoringTool._parse_score_response response max_score
     = SemanticScoringTool._parse_score_response response max_score.
Proof.
  intros Hscore Hdigit. split; [| reflexivity].
  rewrite parse_score_response_spec. unfold ParserSpec.parser_spec, ParserSpec.salvage.
  rewrite Hscore. cbn [ParserSpec.first_raise map List.last].
  rewrite finditer_without_digit;
    [| unfold SemanticScoringTool.re_number; cbn; solve_needs_digit | exact Hdigit].
  cbn [map]. f_equal.
  unfold py_max, py_min.
  destruct (Qltb max_score 0) eqn:Hm; [| reflexivity].
  destruct (Qltb 0 max_score) eqn:Hp; [| reflexivity].
  apply Qltb_lt in Hm, Hp. exfalso. lra.
Qed.

Lemma answer_without_number_scores_zero_refusal :
  fst (SemanticScoringTool._parse_score_response (PF := PlainFloat.plain)
         "I cannot assess this candidate." 15) = 0%Q.
Proof.
  destruct (answer_without_number_scores_zero (PF := PlainFloat.plain)
              "I cannot assess this candidate." 15 eq_refl eq_refl) as [-> _].
  reflexivity.
Defined.

(** ** The quick score and the salary asked *)

Section QuickScoreFull.
Import ConversationalJobAgent.

Lemma filter_all_length {A} (f : A -> bool) (l : list A) :
  forallb f l = true -> length (List.filter f l) = length l.
Proof.
  induction l as [| x l IH]; [reflexivity |].
  simpl. intros [Hx Hl]%andb_prop. rewrite Hx. simpl. f_equal. apply IH, Hl.
Qed.

Lemma natq_pos (n : nat) : (0 < n)%nat -> (0 < natq n)%Q.
Proof. intros H. unfold natq, Qlt. cbn. lia. Qed.

Lemma int_acc_nonneg (s : string) (acc : Z) :
  forallb Py.is_digit (list_ascii_of_string s) = true -> 0 <= acc ->
  0 <= Py.int_acc acc s.
Proof.
  revert acc. induction s as [| c s IH]; intros acc Hd Hacc; [exact Hacc |].
  simpl in Hd. apply andb_prop in Hd as [Hc Hs]. simpl. apply IH; [exact Hs |].
  unfold Py.is_digit, Py.in_range in Hc. apply andb_prop in Hc as [Hlo _].
  apply Nat.leb_le in Hlo. unfold Py.digit_val. lia.
Qed.

Lemma digits_only_digits (s : string) :
  forallb Py.is_digit (list_ascii_of_string (digits_only s)) = true.
Proof.
  unfold digits_only. rewrite list_ascii_of_string_of_list_ascii.
  induction (list_ascii_of_string s) as [| c l IH]; [reflexivity |].
  simpl. destruct (Py.is_digit c) eqn:Hc; [| exact IH].
  simpl. rewrite Hc. exact IH.
Qed.

Lemma digits_only_without_digit (s : string) :
  no_digit s = true -> digits_only s = EmptyString.
Proof.
  unfold digits_only. induction s as [| c s IH]; [reflexivity |].
  simpl. intros [Hc Hs]%andb_prop. apply negb_true_iff in Hc. rewrite Hc.
  apply IH, Hs.
Qed.

End QuickScoreFull.

(** X15.  A job states requirements and the resume holds each of them, up to
    the case of the letters: the quick score is at least 80. *)
Theorem quick_score_all_requirements (resume_text : string)
    (job : ConversationalJobAgent.Job) (requirements : list string) :
  ConversationalJobAgent.requirements job = Some requirements ->
  requirements <> [] ->
  forallb (fun req => Py.contains (Py.lower req) (Py.lower resume_text)) requirements
  = true ->
  (80 <= ConversationalJobAgent._quick_score resume_text job <= 100)%Q.
Proof.
  intros Hreq Hne Hall. split; [| apply quick_score_range].
  unfold ConversationalJobAgent._quick_score. rewrite Hreq.
  cbn [ConversationalJobAgent.get].
  rewrite (filter_all_length _ _ Hall).
  assert (Hlen : (0 < length requirements)%nat)
    by (destruct requirements; [contradiction | cbn; lia]).
  apply Nat.ltb_lt in Hlen as Hb. rewrite Hb.
  pose proof (natq_pos _ Hlen) as Hpos.
  assert (Hone : (natq (length requirements) / natq (length requirements) == 1)%Q)
    by (field; lra).
  set (common := size _).
  assert (Hdesc : (0 <= py_min 20 (natq common * (5 # 10)))%Q).
  { pose proof (natq_nonneg common). apply py_min_bounds; [discriminate | lra]. }
  apply py_min_bounds; [discriminate |].
  destruct (0 <? common)%nat; rewrite Hone; lra.
Qed.

Lemma quick_score_all_requirements_fintech :
  (80 <= ConversationalJobAgent._quick_score "Python and SQL developer" fintech_job
   <= 100)%Q.
Proof.
  apply (quick_score_all_requirements "Python and SQL developer" fintech_job
           ["Python"; "SQL"]); [reflexivity | discriminate | reflexivity].
Defined.

(** X16.  The salary asked is read from the digits of the text alone: a text
    without a digit sets no minimum, and a minimum that is set is 0 or at
    least 1000, a number under 1000 being taken as thousands. *)
Theorem min_salary_in_thousands (text : string) :
  (no_digit text = true -> ConversationalJobAgent.min_salary_of (Some text) = None)
  /\ (forall m, ConversationalJobAgent.min_salary_of (Some text) = Some m ->
        (m = 0 \/ 1000 <= m)
        /\ (Py.int_of_digits (ConversationalJobAgent.digits_only text) < 1000 ->
            m = 1000 * Py.int_of_digits (ConversationalJobAgent.digits_only text))).
Proof.
  unfold ConversationalJobAgent.min_salary_of. split.
  - intros H. rewrite (digits_only_without_digit _ H).
    destruct (Py.truthy text); reflexivity.
  - intros m. destruct (Py.truthy text); [| discriminate].
    destruct (Py.truthy _); [| discriminate].
    pose proof (int_acc_nonneg _ 0 (digits_only_digits text) (Z.le_refl 0)) as Hn.
    fold (Py.int_of_digits (ConversationalJobAgent.digits_only text)) in Hn.
    destruct (Z.ltb_spec (Py.int_of_digits (ConversationalJobAgent.digits_only text)) 1000);
      intros [= <-]; split; lia.
Qed.

Lemma min_salary_in_thousands_45k :
  ConversationalJobAgent.min_salary_of (Some "negotiable") = None
  /\ 45000 = 1000 * Py.int_of_digits (ConversationalJobAgent.digits_only "45K").
Proof.
  split.
  - apply (min_salary_in_thousands "negotiable"). reflexivity.
  - apply (min_salary_in_thousands "45K" : _ /\ _); [reflexivity | vm_compute; reflexivity].
Defined.

(** ** The search *)

Section Search.
Context {PF : PyFloat}.
Import ConversationalJobAgent.

Lemma map_result_ok {A B} (f : A -> result B) (l : list A) (ys : list B) :
  map_result f l = Ok ys -> Forall2 (fun x y => f x = Ok y) l ys.
Proof.
  revert ys. induction l as [| x l IH]; intros ys H.
  - injection H as <-. constructor.
  - cbn [map_result] in H. destruct (f x) as [y | e] eqn:Hx; [| discriminate H].
    destruct (map_result f l) as [ys' | e]; [| discriminate H].
    injection H as <-. constructor; [exact Hx | apply IH; reflexivity].
Qed.

Lemma map_result_total {A B} (f : A -> result B) (l : list A) :
  Forall (fun x => exists y, f x = Ok y) l -> exists ys, map_result f l = Ok ys.
Proof.
  induction 1 as [| x l [y Hx] _ [ys IH]]; [exists []; reflexivity |].
  exists (y :: ys). cbn [map_result]. rewrite Hx, IH. reflexivity.
Qed.

Lemma map_result_raise {A B} (f : A -> result B) (l : list A) (e : string) :
  map_result f l = Raise e -> exists x, In x l /\ f x = Raise e.
Proof.
  induction l as [| x l IH]; [discriminate |].
  cbn [map_result]. destruct (f x) as [y | e'] eqn:Hx.
  - destruct (map_result f l) as [ys | e'']; [discriminate |].
    intros [= ->]. destruct (IH eq_refl) as (x' & Hin & Hx').
    exists x'. split; [right; exact Hin | exact Hx'].
  - intros [= ->]. exists x. split; [left; reflexivity | exact Hx].
Qed.

Lemma advanced_score_is_fallback (scorer_loaded : bool) (resume : string) (job : Job) :
  _advanced_score scorer_loaded resume job = quick_fallback resume job.
Proof. destruct scorer_loaded; reflexivity. Qed.

Lemma scored_entry_of (scorer_loaded : bool) (resume : string) (job : Job)
    (entry : Scored) :
  scored_entry scorer_loaded resume job = Ok entry ->
  entry_of job (_quick_score resume job) entry.
Proof.
  unfold scored_entry, entry_of. rewrite advanced_score_is_fallback.
  destruct (title job), (company job), (location job), (salary job);
    try discriminate.
  intros [= <-]. cbn. repeat split; reflexivity.
Qed.

Lemma scored_entry_total (scorer_loaded : bool) (resume : string) (job : Job) :
  has_keys job = true -> exists entry, scored_entry scorer_loaded resume job = Ok entry.
Proof.
  unfold has_keys, scored_entry.
  destruct (title job), (company job), (location job), (salary job);
    try discriminate.
  intros _. eexists. reflexivity.
Qed.

Lemma basic_entry_total (job : Job) :
  has_keys job = true -> exists entry, basic_entry job = Ok entry.
Proof.
  unfold has_keys, basic_entry.
  destruct (title job), (company job), (location job), (salary job);
    try discriminate.
  intros _. eexists. reflexivity.
Qed.



Lemma scored_entry_raise (scorer_loaded : bool) (resume : string) (job : Job) (e : string) :
  scored_entry scorer_loaded resume job = Raise e ->
  has_keys job = false /\ In e key_errors.
Proof.
  unfold has_keys, scored_entry, key_errors.
  destruct (title job), (company job), (location job), (salary job);
    cbn [item]; try discriminate; intros [= <-]; (split; [reflexivity |]);
    cbn; tauto.
Qed.

Lemma basic_entry_raise (job : Job) (e : string) :
  basic_entry job = Raise e -> has_keys job = false /\ In e key_errors.
Proof.
  unfold has_keys, basic_entry, key_errors.
  destruct (title job), (company job), (location job), (salary job);
    cbn [item]; try discriminate; intros [= <-]; (split; [reflexivity |]);
    cbn; tauto.
Qed.

Lemma in_firstn {A} (n : nat) (l : list A) (x : A) : In x (firstn n l) -> In x l.
Proof.
  revert l. induction n as [| n IH]; intros [| y l] H; try contradiction.
  cbn [firstn] in H. destruct H as [-> | H]; [left; reflexivity | right; apply IH, H].
Qed.

Lemma forall2_right {A B} (R : A -> B -> Prop) (l : list A) (ys : list B) :
  Forall2 R l ys -> Forall (fun y => exists x, In x l /\ R x y) ys.
Proof.
  induction 1 as [| x y l ys Hxy _ IH]; constructor.
  - exists x. split; [left; reflexivity | exact Hxy].
  - eapply Forall_impl; [exact IH |]. intros b (a & Hin & Hab).
    exists a. split; [right; exact Hin | exact Hab].
Qed.

Lemma criteria_matches_sound (job_database : list Job) (collected : Collected) (job : Job) :
  In job (criteria_matches job_database collected) ->
  In job job_database
  /\ passes_criteria (c_industry collected) (c_location collected)
       (min_salary_of (c_salary collected)) job = true.
Proof.
  unfold criteria_matches. intros H%in_firstn. apply filter_In in H. exact H.
Qed.

Lemma insert_by_score_perm (x : Job * Q) (l : list (Job * Q)) :
  Permutation (insert_by_score x l) (x :: l).
Proof.
  induction l as [| y l IH]; [apply Permutation_refl |].
  cbn [insert_by_score]. destruct (Qltb (snd x) (snd y)); [| apply Permutation_refl].
  eapply perm_trans; [apply perm_skip, IH | apply perm_swap].
Qed.

Lemma sort_by_score_perm (l : list (Job * Q)) : Permutation (sort_by_score l) l.
Proof.
  induction l as [| x l IH]; [apply perm_nil |].
  cbn [sort_by_score fold_right]. fold (sort_by_score l).
  eapply perm_trans; [apply insert_by_score_perm | apply perm_skip, IH].
Qed.

Lemma insert_by_score_hd (z x : Job * Q) (l : list (Job * Q)) :
  score_ge z x -> HdRel score_ge z l -> HdRel score_ge z (insert_by_score x l).
Proof.
  intros Hzx Hzl. destruct l as [| y l]; cbn [insert_by_score]; [constructor; exact Hzx |].
  destruct (Qltb (snd x) (snd y)); constructor; [| exact Hzx].
  inversion Hzl; assumption.
Qed.

Lemma insert_by_score_sorted (x : Job * Q) (l : list (Job * Q)) :
  Sorted score_ge l -> Sorted score_ge (insert_by_score x l).
Proof.
  induction l as [| y l IH]; intros Hs; cbn [insert_by_score].
  - constructor; constructor.
  - destruct (Qltb (snd x) (snd y)) eqn:E.
    + inversion Hs as [| ? ? Hl Hy]; subst. constructor; [apply IH; exact Hl |].
      apply insert_by_score_hd; [| exact Hy].
      unfold score_ge. apply Qltb_lt in E. apply Qlt_le_weak. exact E.
    + constructor; [exact Hs |]. constructor. unfold score_ge.
      apply Qltb_ge in E. exact E.
Qed.

Lemma sort_by_score_sorted (l : list (Job * Q)) : Sorted score_ge (sort_by_score l).
Proof.
  induction l as [| x l IH]; [constructor |].
  cbn [sort_by_score fold_right]. fold (sort_by_score l).
  apply insert_by_score_sorted. exact IH.
Qed.

Lemma score_ge_trans : Relations_1.Transitive score_ge.
Proof. intros a b c Hab Hbc. unfold score_ge in *. lra. Qed.

Lemma strongly_sorted_split (l : list (Job * Q)) (n : nat) :
  StronglySorted score_ge l ->
  Forall (fun b => Forall (fun a => score_ge a b) (firstn n l)) (skipn n l).
Proof.
  intros Hs. revert n. induction Hs as [| x l Hl IH Hx]; intros n.
  - destruct n; constructor.
  - destruct n as [| n]; cbn [firstn skipn].
    + apply Forall_forall. intros b _. constructor.
    + specialize (IH n). rewrite List.Forall_forall in IH |- *.
      intros b Hb. constructor; [| apply IH; exact Hb].
      rewrite List.Forall_forall in Hx. apply Hx.
      rewrite <- (firstn_skipn n l). apply in_or_app. right. exact Hb.
Qed.

End Search.

Section SearchAnswer.
Context {PF : PyFloat}.
Import ConversationalJobAgent.

(** The search, by what the candidate gave. *)
Lemma search_with_resume (job_database : list Job) (scorer_loaded : bool)
    (collected : Collected) (resume : string) :
  some_truthy (resume_text collected) = Some resume ->
  search_matching_jobs job_database scorer_loaded collected
  = match map_result (fun jq => scored_entry scorer_loaded resume (fst jq))
            (firstn 3 (sort_by_score
               (map (fun job => (job, _quick_score resume job))
                    (criteria_matches job_database collected)))) with
    | Raise e => Raise e
    | Ok [] => Ok (NoMatch 0 "No matching jobs found. Try broadening your criteria.")
    | Ok entries => Ok (Matches (length entries) (ScoredJobs entries))
    end.
Proof.
  intros Hresume. unfold search_matching_jobs. rewrite Hresume.
  rewrite quick_filter_keeps_all. fold (criteria_matches job_database collected).
  destruct (map_result _ _) as [[| entry entries] | e]; reflexivity.
Qed.

Lemma search_without_resume (job_database : list Job) (scorer_loaded : bool)
    (collected : Collected) :
  some_truthy (resume_text collected) = None ->
  search_matching_jobs job_database scorer_loaded collected
  = match map_result basic_entry (firstn 5 (criteria_matches job_database collected)) with
    | Raise e => Raise e
    | Ok [] => Ok (NoMatch 0 "No matching jobs found. Try broadening your criteria.")
    | Ok entries => Ok (Matches (length entries) (BasicJobs entries))
    end.
Proof.
  intros Hresume. unfold search_matching_jobs. rewrite Hresume.
  fold (criteria_matches job_database collected).
  destruct (map_result _ _) as [[| entry entries] | e]; reflexivity.
Qed.

Lemma ranked_jobs_in_matches (job_database : list Job) (collected : Collected)
    (resume : string) (n : nat) (jq : Job * Q) :
  In jq (firstn n (sort_by_score
           (map (fun job => (job, _quick_score resume job))
                (criteria_matches job_database collected)))) ->
  In (fst jq) (criteria_matches job_database collected)
  /\ snd jq = _quick_score resume (fst jq).
Proof.
  intros H%in_firstn.
  apply (Permutation_in _ (sort_by_score_perm _)) in H.
  apply in_map_iff in H as (job & <- & Hjob). split; [exact Hjob | reflexivity].
Qed.

End SearchAnswer.

Lemma search_answers_sound {PF : PyFloat}
    (job_database : list ConversationalJobAgent.Job) (scorer_loaded : bool)
    (collected : ConversationalJobAgent.Collected) (count : nat)
    (entries : ConversationalJobAgent.Entries) :
  ConversationalJobAgent.search_matching_jobs job_database scorer_loaded collected
  = Ok (ConversationalJobAgent.Matches count entries) ->
  count = ConversationalJobAgent.entries_count entries
  /\ (1 <= count)%nat
  /\ (forall job, In job (criteria_matches job_database collected) ->
        In job job_database
        /\ ConversationalJobAgent.passes_criteria
             (ConversationalJobAgent.c_industry collected)
             (ConversationalJobAgent.c_location collected)
             (ConversationalJobAgent.min_salary_of
                (ConversationalJobAgent.c_salary collected)) job = true)
  /\ match entries with
     | ConversationalJobAgent.ScoredJobs scored =>
         (count <= 3)%nat
         /\ exists resume,
              ConversationalJobAgent.some_truthy
                (ConversationalJobAgent.resume_text collected) = Some resume
              /\ Forall (fun entry =>
                           exists job,
                             In job (criteria_matches job_database collected)
                             /\ entry_of job
                                  (ConversationalJobAgent._quick_score resume job) entry)
                        scored
     | ConversationalJobAgent.BasicJobs basic =>
         (count <= 5)%nat
         /\ ConversationalJobAgent.some_truthy
              (ConversationalJobAgent.resume_text collected) = None
         /\ Forall (fun entry =>
                      exists job,
                        In job (criteria_matches job_database collected)
                        /\ ConversationalJobAgent.basic_entry job = Ok entry)
                   basic
     end.
Proof.
  intros Hrun.
  destruct (ConversationalJobAgent.some_truthy
              (ConversationalJobAgent.resume_text collected)) as [resume |] eqn:Hresume.
  - rewrite (search_with_resume _ _ _ _ Hresume) in Hrun.
    destruct (ConversationalJobAgent.map_result _ _) as [[| entry scored] | e] eqn:Hmap;
      try discriminate Hrun.
    injection Hrun as <- <-.
    apply map_result_ok in Hmap.
    pose proof (Forall2_length _ _ _ Hmap) as Hlen.
    rewrite length_firstn in Hlen. cbn [length] in Hlen.
    split; [reflexivity |]. split; [cbn; lia |].
    split; [apply criteria_matches_sound |].
    split; [lia |]. exists resume. split; [reflexivity |].
    apply forall2_right in Hmap. eapply Forall_impl; [exact Hmap |].
    intros y (jq & Hin & Hy). cbv beta in Hy.
    apply ranked_jobs_in_matches in Hin as [Hin Hscore].
    exists (fst jq). split; [exact Hin |].
    eapply scored_entry_of. exact Hy.
  - rewrite (search_without_resume _ _ _ Hresume) in Hrun.
    destruct (ConversationalJobAgent.map_result _ _) as [[| entry basic] | e] eqn:Hmap;
      try discriminate Hrun.
    injection Hrun as <- <-.
    apply map_result_ok in Hmap.
    pose proof (Forall2_length _ _ _ Hmap) as Hlen.
    rewrite length_firstn in Hlen. cbn [length] in Hlen.
    split; [reflexivity |]. split; [cbn; lia |].
    split; [apply criteria_matches_sound |].
    split; [lia |]. split; [reflexivity |].
    apply forall2_right in Hmap. eapply Forall_impl; [exact Hmap |].
    intros y (job & Hin%in_firstn & Hy). exists job. split; [exact Hin | exact Hy].
Qed.


(** X17.  Every job of an answer of the search meets the criteria of the
    candidate.  With a resume the answer holds at most three entries, each
    built from a job of the database that passes the industry, salary and
    location filters, scored by the quick score and its 40/40/20 split, and
    never marked as scored by the advanced scorer, whether that scorer is
    loaded or not; without a resume it holds at most five bare offers.  The
    count is the number of entries, and an answer with entries has at least
    one. *)
Theorem search_answers_meet_the_criteria {PF : PyFloat}
    (job_database : list ConversationalJobAgent.Job) (scorer_loaded : bool)
    (collected : ConversationalJobAgent.Collected) (count : nat)
    (entries : ConversationalJobAgent.Entries) :
  ConversationalJobAgent.search_matching_jobs job_database scorer_loaded collected
  = Ok (ConversationalJobAgent.Matches count entries) ->
  count = ConversationalJobAgent.entries_count entries
  /\ (1 <= count)%nat
  /\ (forall job, In job (criteria_matches job_database collected) ->
        In job job_database
        /\ ConversationalJobAgent.passes_criteria
             (ConversationalJobAgent.c_industry collected)
             (ConversationalJobAgent.c_location collected)
             (ConversationalJobAgent.min_salary_of
                (ConversationalJobAgent.c_salary collected)) job = true)
  /\ match entries with
     | ConversationalJobAgent.ScoredJobs scored =>
         (count <= 3)%nat
         /\ exists resume,
              ConversationalJobAgent.some_truthy
                (ConversationalJobAgent.resume_text collected) = Some resume
              /\ Forall (fun entry =>
                           exists job,
                             In job (criteria_matches job_database collected)
                             /\ entry_of job
                                  (ConversationalJobAgent._quick_score resume job) entry)
                        scored
     | ConversationalJobAgent.BasicJobs basic =>
         (count <= 5)%nat
         /\ ConversationalJobAgent.some_truthy
              (ConversationalJobAgent.resume_text collected) = None
         /\ Forall (fun entry =>
                      exists job,
                        In job (criteria_matches job_database collected)
                        /\ ConversationalJobAgent.basic_entry job = Ok entry)
                   basic
     end.
Proof. apply search_answers_sound. Qed.

Lemma search_answers_meet_the_criteria_fintech :
  exists entry,
    ConversationalJobAgent.search_matching_jobs (PF := PlainFloat.plain)
      [fintech_job] true fintech_search
    = Ok (ConversationalJobAgent.Matches 1 (ConversationalJobAgent.ScoredJobs [entry]))
    /\ ConversationalJobAgent.using_advanced_scoring entry = false.
Proof.
  eexists. split; [vm_compute; reflexivity |].
  match goal with
  | |- ConversationalJobAgent.using_advanced_scoring ?e = false =>
      destruct (search_answers_meet_the_criteria (PF := PlainFloat.plain)
                  [fintech_job] true fintech_search 1
                  (ConversationalJobAgent.ScoredJobs [e])
                  ltac:(vm_compute; reflexivity))
        as (_ & _ & _ & _ & resume & _ & Hall)
  end.
  apply Forall_inv in Hall as (job & _ & Hentry).
  apply Hentry.
Defined.

(** X18.  The search raises only for a job that lacks one of the keys title,
    company, location, salary, and then with the KeyError of that key: over
    a database whose jobs hold the four keys it always answers. *)
Theorem search_raises_key_errors_only {PF : PyFloat}
    (job_database : list ConversationalJobAgent.Job) (scorer_loaded : bool)
    (collected : ConversationalJobAgent.Collected) :
  (forallb has_keys job_database = true ->
   exists answer,
     ConversationalJobAgent.search_matching_jobs job_database scorer_loaded collected
     = Ok answer)
  /\ (forall e,
        ConversationalJobAgent.search_matching_jobs job_database scorer_loaded collected
        = Raise e ->
        In e key_errors
        /\ exists job, In job (criteria_matches job_database collected)
                       /\ has_keys job = false).
Proof.
  split.
  - intros Hkeys.
    assert (Hall : forall job, In job (criteria_matches job_database collected) ->
                               has_keys job = true).
    { intros job [Hin _]%criteria_matches_sound.
      rewrite forallb_forall in Hkeys. apply Hkeys, Hin. }
    destruct (ConversationalJobAgent.some_truthy
                (ConversationalJobAgent.resume_text collected)) as [resume |] eqn:Hresume.
    + rewrite (search_with_resume _ _ _ _ Hresume).
      destruct (map_result_total
                  (fun jq => ConversationalJobAgent.scored_entry scorer_loaded resume (fst jq))
                  (firstn 3 (ConversationalJobAgent.sort_by_score
                     (map (fun job => (job, ConversationalJobAgent._quick_score resume job))
                          (criteria_matches job_database collected)))))
        as [[| entry entries] ->]; [| eexists; reflexivity | eexists; reflexivity].
      apply List.Forall_forall. intros jq [Hin _]%ranked_jobs_in_matches.
      apply scored_entry_total, Hall, Hin.
    + rewrite (search_without_resume _ _ _ Hresume).
      destruct (map_result_total ConversationalJobAgent.basic_entry
                  (firstn 5 (criteria_matches job_database collected)))
        as [[| entry entries] ->]; [| eexists; reflexivity | eexists; reflexivity].
      apply List.Forall_forall. intros job Hin%in_firstn.
      apply basic_entry_total, Hall, Hin.
  - intros e.
    destruct (ConversationalJobAgent.some_truthy
                (ConversationalJobAgent.resume_text collected)) as [resume |] eqn:Hresume.
    + rewrite (search_with_resume _ _ _ _ Hresume).
      destruct (ConversationalJobAgent.map_result _ _) as [[| entry entries] | e'] eqn:Hmap;
        try discriminate.
      intros [= ->]. apply map_result_raise in Hmap as (jq & Hin & Hraise).
      apply ranked_jobs_in_matches in Hin as [Hin _].
      apply scored_entry_raise in Hraise as [Hkeys He].
      split; [exact He |]. exists (fst jq). split; [exact Hin | exact Hkeys].
    + rewrite (search_without_resume _ _ _ Hresume).
      destruct (ConversationalJobAgent.map_result _ _) as [[| entry entries] | e'] eqn:Hmap;
        try discriminate.
      intros [= ->]. apply map_result_raise in Hmap as (job & Hin%in_firstn & Hraise).
      apply basic_entry_raise in Hraise as [Hkeys He].
      split; [exact He |]. exists job. split; [exact Hin | exact Hkeys].
Qed.

Lemma search_raises_key_errors_only_fintech :
  exists answer,
    ConversationalJobAgent.search_matching_jobs (PF := PlainFloat.plain)
      [fintech_job] false fintech_search = Ok answer.
Proof.
  apply (search_raises_key_errors_only (PF := PlainFloat.plain)
           [fintech_job] false fintech_search).
  reflexivity.
Defined.

(** X19.  With a resume, the entries of the answer are the best quick
    scores: the jobs that meet the criteria, the first twenty of them at
    most, split into the jobs of the entries, in descending order of quick
    score, and the others, none of which scores above a job of an entry. *)
Theorem search_keeps_the_best_quick_scores {PF : PyFloat}
    (job_database : list ConversationalJobAgent.Job) (scorer_loaded : bool)
    (collected : ConversationalJobAgent.Collected) (resume : string) (count : nat)
    (scored : list ConversationalJobAgent.Scored) :
  ConversationalJobAgent.some_truthy (ConversationalJobAgent.resume_text collected)
  = Some resume ->
  ConversationalJobAgent.search_matching_jobs job_database scorer_loaded collected
  = Ok (ConversationalJobAgent.Matches count (ConversationalJobAgent.ScoredJobs scored)) ->
  exists top rest,
    Permutation (top ++ rest)%list
      (map (fun job => (job, ConversationalJobAgent._quick_score resume job))
           (criteria_matches job_database collected))
    /\ Forall2 (fun jq entry => entry_of (fst jq) (snd jq) entry) top scored
    /\ Sorted score_ge top
    /\ Forall (fun other => Forall (fun kept => score_ge kept other) top) rest
    /\ (length (criteria_matches job_database collected) <= 20)%nat.
Proof.
  intros Hresume Hrun. rewrite (search_with_resume _ _ _ _ Hresume) in Hrun.
  destruct (ConversationalJobAgent.map_result _ _) as [[| entry entries] | e] eqn:Hmap;
    try discriminate Hrun.
  injection Hrun as _ <-.
  set (ranked := ConversationalJobAgent.sort_by_score _) in Hmap.
  pose proof (sort_by_score_sorted
                (map (fun job => (job, ConversationalJobAgent._quick_score resume job))
                     (criteria_matches job_database collected))) as Hsorted.
  fold ranked in Hsorted.
  exists (firstn 3 ranked), (skipn 3 ranked).
  split; [rewrite firstn_skipn; apply sort_by_score_perm |].
  split.
  { apply map_result_ok in Hmap.
    assert (Hin : forall jq, In jq (firstn 3 ranked) ->
                    snd jq = ConversationalJobAgent._quick_score resume (fst jq))
      by (intros jq H; apply (ranked_jobs_in_matches _ _ _ _ _ H)).
    revert Hin. induction Hmap as [| jq y l ys Hy _ IH]; intros Hin; constructor.
    - rewrite (Hin jq (or_introl eq_refl)). eapply scored_entry_of. exact Hy.
    - apply IH. intros jq' H. apply Hin. right. exact H. }
  split.
  { apply Sorted_StronglySorted in Hsorted; [| exact score_ge_trans].
    apply StronglySorted_Sorted.
    clear Hmap. revert Hsorted. generalize 3%nat as n. generalize ranked as l.
    intros l. induction l as [| x l IH]; intros n Hs; [destruct n; constructor |].
    destruct n as [| n]; cbn [firstn]; [constructor |].
    inversion Hs as [| ? ? Hl Hx]; subst. constructor; [apply IH; exact Hl |].
    rewrite List.Forall_forall in Hx |- *. intros b Hb%in_firstn. apply Hx, Hb. }
  split.
  { apply strongly_sorted_split.
    apply Sorted_StronglySorted; [exact score_ge_trans | exact Hsorted]. }
  unfold criteria_matches. rewrite length_firstn. lia.
Qed.

Lemma search_keeps_the_best_quick_scores_fintech :
  exists top rest,
    Permutation (top ++ rest)%list
      (map (fun job => (job, ConversationalJobAgent._quick_score
                               "Python developer, 2015-2024" job))
           (criteria_matches [fintech_job] fintech_search))
    /\ Sorted score_ge top.
Proof.
  destruct (search_keeps_the_best_quick_scores (PF := PlainFloat.plain)
              [fintech_job] true fintech_search "Python developer, 2015-2024" 1
              [ConversationalJobAgent.mkScored "Data Engineer" "Acme" "Paris" 50000
                 "fintech" "Build data pipelines in python" ["Python"; "SQL"]
                 (round_nd (PyFloat := PlainFloat.plain) 1 (655 # 10))
                 (round_nd (PyFloat := PlainFloat.plain) 1 ((655 # 10) * (4 # 10)))
                 (round_nd (PyFloat := PlainFloat.plain) 1 ((655 # 10) * (4 # 10)))
                 (round_nd (PyFloat := PlainFloat.plain) 1 ((655 # 10) * (2 # 10)))
                 false]
              eq_refl ltac:(vm_compute; reflexivity))
    as (top & rest & Hperm & _ & Hsorted & _).
  exists top, rest. split; [exact Hperm | exact Hsorted].
Defined.

(** ** The profile tools of a session *)

Section ProfileTools.
Import SessionTools.


Lemma holds_keys_insert (collected : Info) (key : string) (value : option string) :
  holds_keys collected = true -> holds_keys (<[key := value]> collected) = true.
Proof.
  unfold holds_keys. rewrite !forallb_forall. intros H k Hk. specialize (H k Hk). cbv beta in *.
  destruct (decide (key = k)) as [-> | Hne].
  - rewrite lookup_insert_eq. reflexivity.
  - rewrite lookup_insert_ne by exact Hne. exact H.
Qed.

Lemma get_insert_ne (collected : Info) (key key' : string) (value : option string) :
  key <> key' -> get key' (<[key := value]> collected) = get key' collected.
Proof. intros H. unfold get. rewrite lookup_insert_ne by exact H. reflexivity. Qed.

Lemma get_insert_eq (collected : Info) (key : string) (value : option string) :
  get key (<[key := value]> collected) = value.
Proof. unfold get. rewrite lookup_insert_eq. reflexivity. Qed.


End ProfileTools.

Section UpdateTool.
Import SessionTools.

Lemma split_once_contains (s : string) :
  Py.contains "|" s = true -> exists field value, split_once "|" s = Some (field, value).
Proof.
  induction s as [| c s IH]; [discriminate |].
  cbn [Py.contains Py.startswith split_once]. rewrite (Ascii.eqb_sym "|" c).
  destruct (Ascii.eqb c "|"); [intros _; eexists _, _; reflexivity |].
  cbn [andb orb]. intros H. destruct (IH H) as (field & value & ->).
  eexists _, _. reflexivity.
Qed.

Lemma split_once_app (field value : string) :
  Py.contains "|" field = false ->
  split_once "|" (field ++ String "|" value) = Some (field, value).
Proof.
  induction field as [| c field IH]; [reflexivity |].
  intros H. cbn [Py.contains Py.startswith] in H.
  change (String c field ++ String "|" value)
    with (String c (field ++ String "|" value)).
  cbn [split_once]. rewrite (Ascii.eqb_sym "|" c) in H.
  destruct (Ascii.eqb c "|"); [discriminate H |].
  rewrite (IH H). reflexivity.
Qed.

Lemma contains_bar_app (field value : string) :
  Py.contains "|" (field ++ String "|" value) = true.
Proof. apply (contains_middle "|" field value). Qed.

Lemma field_mapping_targets (field actual : string) :
  field_mapping !! field = Some actual ->
  In actual ["salary"; "location"; "industry"; "job_title_preference"].
Proof.
  unfold field_mapping. cbn [list_to_map foldr uncurry fst snd].
  repeat (rewrite lookup_insert_Some; intros [[_ <-] | [_ H]]; [cbn; tauto | revert H]).
  rewrite lookup_empty. discriminate.
Qed.

(** The update, by the shape of its input. *)
Lemma update_run (input_str : string) (collected : Info) :
  match split_once "|" input_str with
  | None =>
      update_candidate_info input_str collected
      = (Ok "Error: Input must be in format 'field|value'", collected)
  | Some (field, value) =>
      match field_mapping !! Py.strip (Py.lower field) with
      | Some actual =>
          update_candidate_info input_str collected
          = (Ok (Py.cat ["Updated "; actual; " to: "; Py.strip value]),
             <[actual := Some (Py.strip value)]> collected)
      | None =>
          update_candidate_info input_str collected
          = (Ok (Py.cat ["Unknown field: "; Py.strip (Py.lower field)]), collected)
      end
  end.
Proof.
  unfold update_candidate_info.
  destruct (Py.contains "|" input_str) eqn:Hbar; cbn [negb].
  - destruct (split_once_contains _ Hbar) as (field & value & ->).
    destruct (field_mapping !! _); reflexivity.
  - destruct (split_once "|" input_str) as [[field value] |] eqn:Hs; [| reflexivity].
    exfalso. revert field value Hs Hbar. clear.
    induction input_str as [| c s IH]; intros field value; [discriminate |].
    cbn [Py.contains Py.startswith split_once]. rewrite (Ascii.eqb_sym "|" c).
    destruct (Ascii.eqb c "|"); [intros _ H; discriminate H |]. cbn [andb orb].
    destruct (split_once "|" s) as [[f v] |]; [| discriminate].
    intros _ H. exact (IH f v eq_refl H).
Qed.

Lemma profile_run (unused_input : string) (collected : Info) (r : option string) :
  collected !! "resume_text" = Some r ->
  get_current_profile unused_input collected
  = (Ok (mkProfile (truthy_value r) (get "industry" collected) (get "location" collected)
           (get "salary" collected) (get "job_title_preference" collected)
           (get "experience_level" collected)), collected).
Proof.
  intros Hr. unfold get_current_profile, bind, read, peek, item, ret.
  rewrite Hr. reflexivity.
Qed.

End UpdateTool.

(** X20.  An update [field|value] with a known field name, given in any case
    and with spaces around, stores the stripped value under the key the name
    stands for, one of salary, location, industry and job_title_preference,
    and changes no other key; the profile read afterwards shows the value. *)
Theorem update_then_profile (field value actual : string) (collected : SessionTools.Info)
    (stored : option string) :
  Py.contains "|" field = false ->
  SessionTools.field_mapping !! Py.strip (Py.lower field) = Some actual ->
  collected !! "resume_text" = Some stored ->
  exists collected' profile,
    SessionTools.update_candidate_info (field ++ String "|" value) collected
    = (Ok (Py.cat ["Updated "; actual; " to: "; Py.strip value]), collected')
    /\ In actual ["salary"; "location"; "industry"; "job_title_preference"]
    /\ (forall key, key <> actual -> collected' !! key = collected !! key)
    /\ SessionTools.get_current_profile EmptyString collected' = (Ok profile, collected')
    /\ profile_value profile actual = Some (Py.strip value)
    /\ SessionTools.resume_provided profile = SessionTools.truthy_value stored.
Proof.
  intros Hbar Hfield Hstored.
  pose proof (update_run (field ++ String "|" value) collected) as Hrun.
  rewrite (split_once_app _ _ Hbar), Hfield in Hrun.
  pose proof (field_mapping_targets _ _ Hfield) as Hactual.
  eexists _, _. split; [exact Hrun |]. split; [exact Hactual |].
  split; [intros key Hne; apply lookup_insert_ne; congruence |].
  assert (Hr : (<[actual := Some (Py.strip value)]> collected) !! "resume_text"
               = Some stored).
  { rewrite lookup_insert_ne; [exact Hstored |].
    cbn in Hactual. intuition (subst; discriminate). }
  split; [apply (profile_run _ _ _ Hr) |].
  split; [| reflexivity].
  unfold profile_value. cbn in Hactual.
  destruct Hactual as [<- | [<- | [<- | [<- | []]]]];
    cbn [String.eqb Ascii.eqb Bool.eqb andb SessionTools.industry SessionTools.location
         SessionTools.salary SessionTools.job_title_preference];
    apply get_insert_eq.
Qed.

Lemma update_then_profile_salary :
  exists collected' profile,
    SessionTools.update_candidate_info " Salary_Expectation | 45K "
      SessionTools.new_collected_info
    = (Ok "Updated salary to: 45K", collected')
    /\ SessionTools.get_current_profile EmptyString collected' = (Ok profile, collected')
    /\ SessionTools.salary profile = Some "45K".
Proof.
  destruct (update_then_profile " Salary_Expectation " " 45K " "salary"
              SessionTools.new_collected_info None eq_refl eq_refl eq_refl)
    as (collected' & profile & Hrun & _ & _ & Hprofile & Hvalue & _).
  exists collected', profile. split; [exact Hrun |]. split; [exact Hprofile |].
  exact Hvalue.
Defined.

(** X21.  The update never raises, never writes the resume text or the
    experience level, and leaves the dict as it is when the input has no
    bar or names an unknown field. *)
Theorem update_rejects_without_writing (input_str : string)
    (collected : SessionTools.Info) :
  (exists message collected',
     SessionTools.update_candidate_info input_str collected = (Ok message, collected')
     /\ collected' !! "resume_text" = collected !! "resume_text"
     /\ collected' !! "experience_level" = collected !! "experience_level"
     /\ (holds_keys collected = true -> holds_keys collected' = true))
  /\ (Py.contains "|" input_str = false ->
      SessionTools.update_candidate_info input_str collected
      = (Ok "Error: Input must be in format 'field|value'", collected))
  /\ (forall field value,
        SessionTools.split_once "|" input_str = Some (field, value) ->
        SessionTools.field_mapping !! Py.strip (Py.lower field) = None ->
        SessionTools.update_candidate_info input_str collected
        = (Ok (Py.cat ["Unknown field: "; Py.strip (Py.lower field)]), collected)).
Proof.
  pose proof (update_run input_str collected) as Hrun.
  split; [| split].
  - destruct (SessionTools.split_once "|" input_str) as [[field value] |].
    + destruct (SessionTools.field_mapping !! _) as [actual |] eqn:Hfield.
      * pose proof (field_mapping_targets _ _ Hfield) as Hactual. cbn in Hactual.
        eexists _, _. split; [exact Hrun |].
        split; [apply lookup_insert_ne; intuition (subst; discriminate) |].
        split; [apply lookup_insert_ne; intuition (subst; discriminate) |].
        apply holds_keys_insert.
      * eexists _, _. split; [exact Hrun |]. repeat split; auto.
    + eexists _, _. split; [exact Hrun |]. repeat split; auto.
  - intros Hbar. unfold SessionTools.update_candidate_info. rewrite Hbar. reflexivity.
  - intros field value Hs Hfield. rewrite Hs, Hfield in Hrun. exact Hrun.
Qed.

Lemma update_rejects_without_writing_hobby :
  SessionTools.update_candidate_info "hobby|chess" SessionTools.new_collected_info
  = (Ok "Unknown field: hobby", SessionTools.new_collected_info)
  /\ SessionTools.update_candidate_info "45K" SessionTools.new_collected_info
     = (Ok "Error: Input must be in format 'field|value'", SessionTools.new_collected_info).
Proof.
  destruct (update_rejects_without_writing "hobby|chess" SessionTools.new_collected_info)
    as (_ & _ & Hunknown).
  destruct (update_rejects_without_writing "45K" SessionTools.new_collected_info)
    as (_ & Hbar & _).
  split; [apply (Hunknown "hobby" "chess"); reflexivity | apply Hbar; reflexivity].
Defined.







(** ** From the update to the search *)

Section UpdateSearch.
Context {PF : PyFloat}.
Import ConversationalJobAgent.

Lemma passes_criteria_industry (wanted : string) (location : option string)
    (min_salary : option Z) (job : Job) :
  Py.truthy wanted = true ->
  passes_criteria (Some wanted) location min_salary job = true ->
  Py.lower (get (industry job) "") = Py.lower wanted.
Proof.
  intros Hw. unfold passes_criteria. cbn [some_truthy]. rewrite Hw.
  intros H. apply andb_prop in H as [H _]. apply andb_prop in H as [H _].
  apply String.eqb_eq in H. exact H.
Qed.

Lemma basic_entry_industry (job : Job) (entry : Basic) :
  basic_entry job = Ok entry -> b_industry entry = get (industry job) "".
Proof.
  unfold basic_entry.
  destruct (title job), (company job), (location job), (salary job);
    try discriminate.
  intros [= <-]. reflexivity.
Qed.

End UpdateSearch.

(** X25.  After the update of the industry to a value that is not blank,
    every job of an answer of the search is of that industry, up to the case
    of the letters. *)
Theorem updated_industry_filters_the_search {PF : PyFloat} (value : string)
    (collected collected' : SessionTools.Info) (message : string)
    (criteria : ConversationalJobAgent.Collected)
    (job_database : list ConversationalJobAgent.Job) (scorer_loaded : bool)
    (count : nat) (entries : ConversationalJobAgent.Entries) :
  Py.truthy (Py.strip value) = true ->
  SessionTools.update_candidate_info (String.append "industry|" value) collected
  = (Ok message, collected') ->
  SessionTools.search_criteria collected' = Ok criteria ->
  ConversationalJobAgent.search_matching_jobs job_database scorer_loaded criteria
  = Ok (ConversationalJobAgent.Matches count entries) ->
  Forall (fun industry => Py.lower industry = Py.lower (Py.strip value))
         (entry_industries entries).
Proof.
  intros Hvalue Hupdate Hcriteria Hsearch.
  pose proof (update_run (String.append "industry|" value) collected) as Hrun.
  change (String.append "industry|" value) with ("industry" ++ String "|" value) in Hrun.
  rewrite (split_once_app "industry" value eq_refl) in Hrun.
  change (SessionTools.field_mapping !! Py.strip (Py.lower "industry"))
    with (Some "industry") in Hrun.
  change ("industry" ++ String "|" value) with (String.append "industry|" value) in Hrun.
  rewrite Hrun in Hupdate. injection Hupdate as _ <-.
  assert (Hind : ConversationalJobAgent.c_industry criteria = Some (Py.strip value)).
  { unfold SessionTools.search_criteria in Hcriteria.
    destruct (SessionTools.item _ _); [| discriminate Hcriteria].
    injection Hcriteria as <-. cbn [ConversationalJobAgent.c_industry].
    apply get_insert_eq. }
  destruct (search_answers_sound job_database scorer_loaded criteria count entries Hsearch)
    as (_ & _ & Hmatch & Hentries).
  assert (Hjob : forall job, In job (criteria_matches job_database criteria) ->
                   Py.lower (ConversationalJobAgent.get
                               (ConversationalJobAgent.industry job) "")
                   = Py.lower (Py.strip value)).
  { intros job [_ Hpass]%Hmatch. rewrite Hind in Hpass.
    eapply passes_criteria_industry; [exact Hvalue | exact Hpass]. }
  destruct entries as [scored | basic]; cbn [entry_industries].
  - destruct Hentries as (_ & resume & _ & Hall).
    apply Forall_map. eapply Forall_impl; [exact Hall |].
    intros entry (job & Hin & Hentry). cbv beta.
    destruct Hentry as (_ & _ & _ & _ & -> & _). apply Hjob, Hin.
  - destruct Hentries as (_ & _ & Hall).
    apply Forall_map. eapply Forall_impl; [exact Hall |].
    intros entry (job & Hin & Hentry). cbv beta.
    rewrite (basic_entry_industry _ _ Hentry). apply Hjob, Hin.
Qed.

Lemma updated_industry_filters_the_search_fintech :
  Forall (fun industry => Py.lower industry = Py.lower (Py.strip " Fintech "))
         (entry_industries
            (ConversationalJobAgent.BasicJobs
               [ConversationalJobAgent.mkBasic "Data Engineer" "Acme" "Paris" 50000
                  "fintech" "Build data pipelines in python"])).
Proof.
  eapply (updated_industry_filters_the_search (PF := PlainFloat.plain) " Fintech "
            SessionTools.new_collected_info _ _ _ [fintech_job] true 1).
  - reflexivity.
  - vm_compute. reflexivity.
  - vm_compute. reflexivity.
  - vm_compute. reflexivity.
Defined.

(** ** The sessions *)

(** X26.  A session that is created can be fetched, and creating it again
    returns it as it is, with what it has collected; a new session starts
    collecting with a dict that holds the six keys, each at None.  Creating
    or resetting a session leaves the other sessions alone, and a session
    that is reset is gone. *)
Theorem session_life_cycle {Memory : Type} (new_memory : Memory) (now id : string)
    (sessions : gmap string (@SessionTools.Session Memory)) :
  let created := SessionTools.create_session new_memory now id sessions in
  SessionTools.get_session id (snd created) = Some (fst created)
  /\ SessionTools.create_session new_memory now id (snd created) = created
  /\ (forall later, SessionTools.create_session new_memory later id (snd created)
                    = created)
  /\ (forall existing, SessionTools.get_session id sessions = Some existing ->
        created = (existing, sessions))
  /\ (SessionTools.get_session id sessions = None ->
      SessionTools.collected_info (fst created) = SessionTools.new_collected_info
      /\ SessionTools.state (fst created) = "COLLECTING_INFO"
      /\ SessionTools.created_at (fst created) = now
      /\ SessionTools.reset_session id (snd created) = sessions)
  /\ (forall other, other <> id ->
        SessionTools.get_session other (snd created)
        = SessionTools.get_session other sessions
        /\ SessionTools.get_session other (SessionTools.reset_session id sessions)
           = SessionTools.get_session other sessions)
  /\ SessionTools.get_session id (SessionTools.reset_session id (snd created)) = None.
Proof.
  cbv zeta. unfold SessionTools.create_session, SessionTools.get_session,
    SessionTools.reset_session.
  destruct (sessions !! id) as [existing |] eqn:Hid; cbn [fst snd].
  - rewrite Hid. split; [reflexivity |]. split; [reflexivity |].
    split; [reflexivity |].
    split; [intros ? [= <-]; reflexivity |].
    split; [discriminate |].
    split; [intros other Hne; split; [reflexivity | apply lookup_delete_ne; congruence] |].
    apply lookup_delete_eq.
  - rewrite lookup_insert_eq. split; [reflexivity |]. split; [reflexivity |].
    split; [reflexivity |].
    split; [discriminate |].
    split; [intros _; repeat split; apply delete_insert_id, Hid |].
    split; [intros other Hne; split; [apply lookup_insert_ne; congruence | reflexivity] |].
    apply lookup_delete_eq.
Qed.

Lemma session_life_cycle_first_session :
  SessionTools.collected_info
    (fst (SessionTools.create_session tt "2024-05-01T10:00:00" "s1" ∅))
  = SessionTools.new_collected_info
  /\ SessionTools.reset_session "s1"
       (snd (SessionTools.create_session tt "2024-05-01T10:00:00" "s1" ∅)) = ∅.
Proof.
  destruct (session_life_cycle tt "2024-05-01T10:00:00" "s1" ∅)
    as (_ & _ & _ & _ & Hnew & _).
  destruct (Hnew eq_refl) as (Hinfo & _ & _ & Hreset).
  split; [exact Hinfo | exact Hreset].
Defined.

(** ** The semantic and bonus stages when the oracle answers *)

Section OracleAnswers.
Context {PF : PyFloat} {St : Type}.

Ltac answered client :=
  match goal with
  | |- context [client ?prompt 1024 ?st] =>
      destruct (client prompt 1024 st) as [[? | ?] ?]; [| intros H; discriminate H]
  end.

Lemma semantic_stage_answers (self : @SemanticScoringTool.tool St)
    (resume_text job_description job_title : string) (company_culture : option string)
    (st st' : St) (r1 r2 r3 r4 : string) :
  ask_all (SemanticScoringTool.client self)
    (semantic_prompts resume_text job_description job_title company_culture) st
  = (Ok [r1; r2; r3; r4], st') ->
  SemanticScoringTool.score_resume_job_match self resume_text job_description
    job_title company_culture st
  = (Ok (Models.mkSemanticScore (parsed_detail r1 15) (parsed_detail r2 10)
           (parsed_detail r3 10) (parsed_detail r4 5)), st').
Proof.
  destruct self as [client]. cbn [SemanticScoringTool.client].
  unfold SemanticScoringTool.score_resume_job_match,
    SemanticScoringTool._score_soft_skills, SemanticScoringTool._score_culture_fit,
    SemanticScoringTool._score_growth_potential,
    SemanticScoringTool._score_project_relevance, semantic_prompts.
  cbv zeta. cbn [ask_all].
  unfold bind at 1. rewrite semantic_dimension. answered client.
  unfold bind at 1. rewrite semantic_dimension. answered client.
  unfold bind at 1. rewrite semantic_dimension. answered client.
  unfold bind at 1. rewrite semantic_dimension. answered client.
  intros [= -> -> -> -> ->]. reflexivity.
Qed.

Lemma bonus_stage_answers (self : @BonusScoringTool.tool St)
    (resume_text job_description job_title : string) (industry : option string)
    (st st' : St) (r1 r2 r3 : string) :
  ask_all (BonusScoringTool.client self)
    (bonus_prompts resume_text job_description job_title industry) st
  = (Ok [r1; r2; r3], st') ->
  BonusScoringTool.score_resume_job_match self resume_text job_description
    job_title industry st
  = (Ok (Models.mkBonusScore (parsed_detail r1 10) (parsed_detail r2 5)
           (parsed_detail r3 5)), st').
Proof.
  destruct self as [client]. cbn [BonusScoringTool.client].
  unfold BonusScoringTool.score_resume_job_match,
    BonusScoringTool._score_industry_experience, BonusScoringTool._score_rare_skills,
    BonusScoringTool._score_career_trajectory, bonus_prompts.
  cbv zeta. cbn [ask_all].
  unfold bind at 1. rewrite bonus_dimension. answered client.
  unfold bind at 1. rewrite bonus_dimension. answered client.
  unfold bind at 1. rewrite bonus_dimension. answered client.
  intros [= -> -> -> ->]. reflexivity.
Qed.

Lemma parsed_detail_range (response : string) (mx : Q) :
  (0 <= mx)%Q -> (0 <= Models.score (parsed_detail response mx) <= mx)%Q.
Proof.
  intros Hmx. unfold parsed_detail. cbn [Models.score].
  rewrite parse_score_response_spec. apply parser_spec_within. exact Hmx.
Qed.

End OracleAnswers.

(** X27.  When the oracle answers the four prompts of the semantic stage,
    the stage returns the four details read from the answers in order, soft
    skills out of 15, culture fit and growth potential out of 10, project
    relevance out of 5, whatever the answers say: an answer that cannot be
    read gives a score of 0, not an exception.  The total lies between 0
    and 40. *)
Theorem semantic_stage_reads_the_answers {PF : PyFloat} {St : Type}
    (self : @SemanticScoringTool.tool St)
    (resume_text job_description job_title : string) (company_culture : option string)
    (st st' : St) (r1 r2 r3 r4 : string) :
  ask_all (SemanticScoringTool.client self)
    (semantic_prompts resume_text job_description job_title company_culture) st
  = (Ok [r1; r2; r3; r4], st') ->
  let sem := Models.mkSemanticScore (parsed_detail r1 15) (parsed_detail r2 10)
               (parsed_detail r3 10) (parsed_detail r4 5) in
  SemanticScoringTool.score_resume_job_match self resume_text job_description
    job_title company_culture st = (Ok sem, st')
  /\ (0 <= Models.sem_total sem <= 40)%Q.
Proof.
  intros Hask. cbv zeta. split; [apply semantic_stage_answers; exact Hask |].
  unfold Models.sem_total.
  cbn [Models.soft_skills_match Models.culture_fit Models.growth_potential
       Models.project_relevance].
  pose proof (parsed_detail_range r1 15 ltac:(discriminate)).
  pose proof (parsed_detail_range r2 10 ltac:(discriminate)).
  pose proof (parsed_detail_range r3 10 ltac:(discriminate)).
  pose proof (parsed_detail_range r4 5 ltac:(discriminate)).
  split; lra.
Qed.

Lemma semantic_stage_reads_the_answers_canned :
  exists sem,
    SemanticScoringTool.score_resume_job_match (PF := PlainFloat.plain)
      (SemanticScoringTool.mkTool oracle_canned) "resume" "description" "title" None tt
    = (Ok sem, tt)
    /\ (0 <= Models.sem_total sem <= 40)%Q.
Proof.
  eexists.
  apply (semantic_stage_reads_the_answers (PF := PlainFloat.plain)
           (SemanticScoringTool.mkTool oracle_canned) "resume" "description" "title"
           None tt tt).
  reflexivity.
Defined.

(** X28.  When the oracle answers the three prompts of the bonus stage, the
    stage returns the three details read from the answers in order, industry
    experience out of 10, rare skills and career trajectory out of 5, and
    the total lies between 0 and 20. *)
Theorem bonus_stage_reads_the_answers {PF : PyFloat} {St : Type}
    (self : @BonusScoringTool.tool St)
    (resume_text job_description job_title : string) (industry : option string)
    (st st' : St) (r1 r2 r3 : string) :
  ask_all (BonusScoringTool.client self)
    (bonus_prompts resume_text job_description job_title industry) st
  = (Ok [r1; r2; r3], st') ->
  let bonus := Models.mkBonusScore (parsed_detail r1 10) (parsed_detail r2 5)
                 (parsed_detail r3 5) in
  BonusScoringTool.score_resume_job_match self resume_text job_description
    job_title industry st = (Ok bonus, st')
  /\ (0 <= Models.bonus_total bonus <= 20)%Q.
Proof.
  intros Hask. cbv zeta. split; [apply bonus_stage_answers; exact Hask |].
  unfold Models.bonus_total.
  cbn [Models.industry_experience Models.rare_skills_premium Models.career_trajectory].
  pose proof (parsed_detail_range r1 10 ltac:(discriminate)).
  pose proof (parsed_detail_range r2 5 ltac:(discriminate)).
  pose proof (parsed_detail_range r3 5 ltac:(discriminate)).
  split; lra.
Qed.

Lemma bonus_stage_reads_the_answers_canned :
  exists bonus,
    BonusScoringTool.score_resume_job_match (PF := PlainFloat.plain)
      (BonusScoringTool.mkTool oracle_canned) "resume" "description" "title" None tt
    = (Ok bonus, tt)
    /\ (0 <= Models.bonus_total bonus <= 20)%Q.
Proof.
  eexists.
  apply (bonus_stage_reads_the_answers (PF := PlainFloat.plain)
           (BonusScoringTool.mkTool oracle_canned) "resume" "description" "title"
           None tt tt).
  reflexivity.
Defined.

(** ** The agent when the oracle answers *)

Section AgentAnswers.
Context {PF : PyFloat} {St : Type}.

Lemma score_candidate_stages (self : @ScoringAgent.agent St) current_year
    resume_text job_title company job_description job_requirements job_location
    job_salary candidate_location expectation industry company_culture st dm st' :
  ScoringAgent.score_candidate self current_year resume_text job_title company
    job_description job_requirements job_location job_salary candidate_location
    expectation industry company_culture st = (Ok dm, st') ->
  exists det st1,
    DeterministicScoringTool.score_resume_job_match (ScoringAgent.deterministic_tool self)
      current_year resume_text job_requirements job_description job_location
      job_salary candidate_location expectation job_title st = (Ok det, st1)
    /\ Models.deterministic (Models.score_breakdown dm) = det
    /\ Models.job_title dm = job_title /\ Models.company dm = company
    /\ Models.salary dm = job_salary /\ Models.location dm = job_location.
Proof.
  unfold ScoringAgent.score_candidate. intros H.
  apply bind_ok_inv in H as (det & s1 & Hdet & H).
  apply bind_ok_inv in H as (sem & s2 & Hsem & H).
  apply bind_ok_inv in H as (bonus & s3 & Hbonus & H).
  unfold ScoreExplainer.generate_detailed_match in H.
  apply bind_ok_inv in H as (overall & s4 & _ & H).
  unfold ret in H. injection H as <- _.
  exists det, s1. split; [exact Hdet |]. repeat split.
Qed.


End AgentAnswers.



(** X30.  The dictionary interface scores a job dict that names neither the
    candidate's location nor the candidate's salary with the defaults of the
    deterministic tool: salary fit 5 and location 3, as unspecified; the
    match names the title and the salary of the dict, empty and 0 when the
    dict has none. *)
Theorem simple_interface_uses_the_defaults {PF : PyFloat} {St : Type}
    (self : @ScoringAgent.agent St) (current_year : Z) (resume_text : string)
    (job_data : ScoringAgentDict.JobData) (st st' : St) (dm : Models.DetailedMatch) :
  ScoringAgentDict.candidate_location job_data = None ->
  ScoringAgentDict.candidate_salary job_data = None ->
  ScoringAgentDict.score_candidate_simple self current_year resume_text job_data st
  = (Ok dm, st') ->
  let det := Models.deterministic (Models.score_breakdown dm) in
  Models.score (Models.salary_fit det) = 5%Q
  /\ Models.explanation (Models.salary_fit det) = "Salaire non spécifié, assumé acceptable"
  /\ Models.score (Models.location_match det) = 3%Q
  /\ Models.explanation (Models.location_match det) = "Localisation non spécifiée"
  /\ Models.job_title dm
     = ConversationalJobAgent.get (ScoringAgentDict.title job_data) ""
  /\ Models.salary dm = ConversationalJobAgent.get (ScoringAgentDict.salary job_data) 0.
Proof.
  intros Hloc Hsal. unfold ScoringAgentDict.score_candidate_simple.
  rewrite Hloc, Hsal. intros Hrun.
  apply score_candidate_stages in Hrun as (det & st1 & Hdet & -> & Htitle & _ & Hsalary & _).
  cbv zeta.
  unfold DeterministicScoringTool.score_resume_job_match in Hdet.
  apply bind_ok_inv in Hdet as (skills & s1 & _ & Hdet).
  apply bind_ok_inv in Hdet as (experience & s2 & _ & Hdet).
  apply bind_ok_inv in Hdet as (salary & s3 & Hfit & Hdet).
  unfold ret in Hdet. injection Hdet as <- _.
  unfold lift in Hfit. injection Hfit as <- _.
  cbn. repeat split; assumption.
Qed.

Lemma simple_interface_uses_the_defaults_empty_dict :
  exists dm,
    ScoringAgentDict.score_candidate_simple (PF := PlainFloat.plain) agent_degraded 2024
      "Chauffeur routier 2015-2024"
      (ScoringAgentDict.mkJobData None None None None None None None None None None) tt
    = (Ok dm, tt)
    /\ Models.score (Models.salary_fit (Models.deterministic (Models.score_breakdown dm)))
       = 5%Q
    /\ Models.job_title dm = EmptyString.
Proof.
  eexists. split; [vm_compute; reflexivity |].
  match goal with
  | |- Models.score (Models.salary_fit (Models.deterministic
                                          (Models.score_breakdown ?dm))) = _ /\ _ =>
      destruct (simple_interface_uses_the_defaults (PF := PlainFloat.plain)
                  agent_degraded 2024 "Chauffeur routier 2015-2024"
                  (ScoringAgentDict.mkJobData None None None None None None None None
                     None None) tt tt dm eq_refl eq_refl ltac:(vm_compute; reflexivity))
        as (Hfit & _ & _ & _ & Htitle & _)
  end.
  split; [exact Hfit | exact Htitle].
Defined.
